(** * PITC Bill Checker: [pitc-bill.js] and [server.js] in Rocq

    The development follows the JavaScript sources function by function:
    the string primitives the code relies on, the company registry
    [COMPANIES] with [getCompanyByCode], [validateReferenceNumber], the
    two-request portal lookup [getPITCBill] with its table scraper
    [parseBillDetails], and the Express handler of [GET /api/check-bill].

    - Strings are sequences of bytes, read as the UTF-8 encoding of the
      JavaScript string.  White space is the full ECMAScript set; case
      conversion is the Unicode one, code point by code point.
    - axios and cheerio are collaborators outside the repository.  The
      network is a pair of functions from request to answer-or-fault; a
      loaded document is what its queries answer, and any query may raise.
    - [async] code runs in sequence: a program returns or throws, leaves a
      state behind either way, and logs every call it makes. *)

From Stdlib Require Import String Ascii List Bool Arith NArith Lia.
From stdpp Require Import base strings gmap list fin_maps.
Import ListNotations.

Open Scope string_scope.
Open Scope nat_scope.
Open Scope list_scope.

(* ===================================================================== *)
(** * Unicode: UTF-8 and case conversion *)
(* ===================================================================== *)

(** [String.prototype.toUpperCase] and [toLowerCase] convert code point by
    code point, with the mappings of the Unicode Character Database
    (UnicodeData and SpecialCasing, version 14.0) that depend on no
    locale.  The tables below are in ascending order of code point. *)

Module Unicode.

(** Simple upper-case mappings: code point, upper-case code point. *)
Definition Uppercase_Mapping : list (N * N) :=
  [
    (0x61, 0x41); (0x62, 0x42); (0x63, 0x43); (0x64, 0x44); (0x65, 0x45);
    (0x66, 0x46); (0x67, 0x47); (0x68, 0x48); (0x69, 0x49); (0x6A, 0x4A);
    (0x6B, 0x4B); (0x6C, 0x4C); (0x6D, 0x4D); (0x6E, 0x4E); (0x6F, 0x4F);
    (0x70, 0x50); (0x71, 0x51); (0x72, 0x52); (0x73, 0x53); (0x74, 0x54);
    (0x75, 0x55); (0x76, 0x56); (0x77, 0x57); (0x78, 0x58); (0x79, 0x59);
    (0x7A, 0x5A); (0xB5, 0x39C); (0xE0, 0xC0); (0xE1, 0xC1); (0xE2, 0xC2);
    (0xE3, 0xC3); (0xE4, 0xC4); (0xE5, 0xC5); (0xE6, 0xC6); (0xE7, 0xC7);
    (0xE8, 0xC8); (0xE9, 0xC9); (0xEA, 0xCA); (0xEB, 0xCB); (0xEC, 0xCC);
    (0xED, 0xCD); (0xEE, 0xCE); (0xEF, 0xCF); (0xF0, 0xD0); (0xF1, 0xD1);
    (0xF2, 0xD2); (0xF3, 0xD3); (0xF4, 0xD4); (0xF5, 0xD5); (0xF6, 0xD6);
    (0xF8, 0xD8); (0xF9, 0xD9); (0xFA, 0xDA); (0xFB, 0xDB); (0xFC, 0xDC);
    (0xFD, 0xDD); (0xFE, 0xDE); (0xFF, 0x178); (0x101, 0x100); (0x103, 0x102);
    (0x105, 0x104); (0x107, 0x106); (0x109, 0x108); (0x10B, 0x10A);
    (0x10D, 0x10C); (0x10F, 0x10E); (0x111, 0x110); (0x113, 0x112);
    (0x115, 0x114); (0x117, 0x116); (0x119, 0x118); (0x11B, 0x11A);
    (0x11D, 0x11C); (0x11F, 0x11E); (0x121, 0x120); (0x123, 0x122);
    (0x125, 0x124); (0x127, 0x126); (0x129, 0x128); (0x12B, 0x12A);
    (0x12D, 0x12C); (0x12F, 0x12E); (0x131, 0x49); (0x133, 0x132);
    (0x135, 0x134); (0x137, 0x136); (0x13A, 0x139); (0x13C, 0x13B);
    (0x13E, 0x13D); (0x140, 0x13F); (0x142, 0x141); (0x144, 0x143);
    (0x146, 0x145); (0x148, 0x147); (0x14B, 0x14A); (0x14D, 0x14C);
    (0x14F, 0x14E); (0x151, 0x150); (0x153, 0x152); (0x155, 0x154);
    (0x157, 0x156); (0x159, 0x158); (0x15B, 0x15A); (0x15D, 0x15C);
    (0x15F, 0x15E); (0x161, 0x160); (0x163, 0x162); (0x165, 0x164);
    (0x167, 0x166); (0x169, 0x168); (0x16B, 0x16A); (0x16D, 0x16C);
    (0x16F, 0x16E); (0x171, 0x170); (0x173, 0x172); (0x175, 0x174);
    (0x177, 0x176); (0x17A, 0x179); (0x17C, 0x17B); (0x17E, 0x17D);
    (0x17F, 0x53); (0x180, 0x243); (0x183, 0x182); (0x185, 0x184);
    (0x188, 0x187); (0x18C, 0x18B); (0x192, 0x191); (0x195, 0x1F6);
    (0x199, 0x198); (0x19A, 0x23D); (0x19E, 0x220); (0x1A1, 0x1A0);
    (0x1A3, 0x1A2); (0x1A5, 0x1A4); (0x1A8, 0x1A7); (0x1AD, 0x1AC);
    (0x1B0, 0x1AF); (0x1B4, 0x1B3); (0x1B6, 0x1B5); (0x1B9, 0x1B8);
    (0x1BD, 0x1BC); (0x1BF, 0x1F7); (0x1C5, 0x1C4); (0x1C6, 0x1C4);
    (0x1C8, 0x1C7); (0x1C9, 0x1C7); (0x1CB, 0x1CA); (0x1CC, 0x1CA);
    (0x1CE, 0x1CD); (0x1D0, 0x1CF); (0x1D2, 0x1D1); (0x1D4, 0x1D3);
    (0x1D6, 0x1D5); (0x1D8, 0x1D7); (0x1DA, 0x1D9); (0x1DC, 0x1DB);
    (0x1DD, 0x18E); (0x1DF, 0x1DE); (0x1E1, 0x1E0); (0x1E3, 0x1E2);
    (0x1E5, 0x1E4); (0x1E7, 0x1E6); (0x1E9, 0x1E8); (0x1EB, 0x1EA);
    (0x1ED, 0x1EC); (0x1EF, 0x1EE); (0x1F2, 0x1F1); (0x1F3, 0x1F1);
    (0x1F5, 0x1F4); (0x1F9, 0x1F8); (0x1FB, 0x1FA); (0x1FD, 0x1FC);
    (0x1FF, 0x1FE); (0x201, 0x200); (0x203, 0x202); (0x205, 0x204);
    (0x207, 0x206); (0x209, 0x208); (0x20B, 0x20A); (0x20D, 0x20C);
    (0x20F, 0x20E); (0x211, 0x210); (0x213, 0x212); (0x215, 0x214);
    (0x217, 0x216); (0x219, 0x218); (0x21B, 0x21A); (0x21D, 0x21C);
    (0x21F, 0x21E); (0x223, 0x222); (0x225, 0x224); (0x227, 0x226);
    (0x229, 0x228); (0x22B, 0x22A); (0x22D, 0x22C); (0x22F, 0x22E);
    (0x231, 0x230); (0x233, 0x232); (0x23C, 0x23B); (0x23F, 0x2C7E);
    (0x240, 0x2C7F); (0x242, 0x241); (0x247, 0x246); (0x249, 0x248);
    (0x24B, 0x24A); (0x24D, 0x24C); (0x24F, 0x24E); (0x250, 0x2C6F);
    (0x251, 0x2C6D); (0x252, 0x2C70); (0x253, 0x181); (0x254, 0x186);
    (0x256, 0x189); (0x257, 0x18A); (0x259, 0x18F); (0x25B, 0x190);
    (0x25C, 0xA7AB); (0x260, 0x193); (0x261, 0xA7AC); (0x263, 0x194);
    (0x265, 0xA78D); (0x266, 0xA7AA); (0x268, 0x197); (0x269, 0x196);
    (0x26A, 0xA7AE); (0x26B, 0x2C62); (0x26C, 0xA7AD); (0x26F, 0x19C);
    (0x271, 0x2C6E); (0x272, 0x19D); (0x275, 0x19F); (0x27D, 0x2C64);
    (0x280, 0x1A6); (0x282, 0xA7C5); (0x283, 0x1A9); (0x287, 0xA7B1);
    (0x288, 0x1AE); (0x289, 0x244); (0x28A, 0x1B1); (0x28B, 0x1B2);
    (0x28C, 0x245); (0x292, 0x1B7); (0x29D, 0xA7B2); (0x29E, 0xA7B0);
    (0x345, 0x399); (0x371, 0x370); (0x373, 0x372); (0x377, 0x376);
    (0x37B, 0x3FD); (0x37C, 0x3FE); (0x37D, 0x3FF); (0x3AC, 0x386);
    (0x3AD, 0x388); (0x3AE, 0x389); (0x3AF, 0x38A); (0x3B1, 0x391);
    (0x3B2, 0x392); (0x3B3, 0x393); (0x3B4, 0x394); (0x3B5, 0x395);
    (0x3B6, 0x396); (0x3B7, 0x397); (0x3B8, 0x398); (0x3B9, 0x399);
    (0x3BA, 0x39A); (0x3BB, 0x39B); (0x3BC, 0x39C); (0x3BD, 0x39D);
    (0x3BE, 0x39E); (0x3BF, 0x39F); (0x3C0, 0x3A0); (0x3C1, 0x3A1);
    (0x3C2, 0x3A3); (0x3C3, 0x3A3); (0x3C4, 0x3A4); (0x3C5, 0x3A5);
    (0x3C6, 0x3A6); (0x3C7, 0x3A7); (0x3C8, 0x3A8); (0x3C9, 0x3A9);
    (0x3CA, 0x3AA); (0x3CB, 0x3AB); (0x3CC, 0x38C); (0x3CD, 0x38E);
    (0x3CE, 0x38F); (0x3D0, 0x392); (0x3D1, 0x398); (0x3D5, 0x3A6);
    (0x3D6, 0x3A0); (0x3D7, 0x3CF); (0x3D9, 0x3D8); (0x3DB, 0x3DA);
    (0x3DD, 0x3DC); (0x3DF, 0x3DE); (0x3E1, 0x3E0); (0x3E3, 0x3E2);
    (0x3E5, 0x3E4); (0x3E7, 0x3E6); (0x3E9, 0x3E8); (0x3EB, 0x3EA);
    (0x3ED, 0x3EC); (0x3EF, 0x3EE); (0x3F0, 0x39A); (0x3F1, 0x3A1);
    (0x3F2, 0x3F9); (0x3F3, 0x37F); (0x3F5, 0x395); (0x3F8, 0x3F7);
    (0x3FB, 0x3FA); (0x430, 0x410); (0x431, 0x411); (0x432, 0x412);
    (0x433, 0x413); (0x434, 0x414); (0x435, 0x415); (0x436, 0x416);
    (0x437, 0x417); (0x438, 0x418); (0x439, 0x419); (0x43A, 0x41A);
    (0x43B, 0x41B); (0x43C, 0x41C); (0x43D, 0x41D); (0x43E, 0x41E);
    (0x43F, 0x41F); (0x440, 0x420); (0x441, 0x421); (0x442, 0x422);
    (0x443, 0x423); (0x444, 0x424); (0x445, 0x425); (0x446, 0x426);
    (0x447, 0x427); (0x448, 0x428); (0x449, 0x429); (0x44A, 0x42A);
    (0x44B, 0x42B); (0x44C, 0x42C); (0x44D, 0x42D); (0x44E, 0x42E);
    (0x44F, 0x42F); (0x450, 0x400); (0x451, 0x401); (0x452, 0x402);
    (0x453, 0x403); (0x454, 0x404); (0x455, 0x405); (0x456, 0x406);
    (0x457, 0x407); (0x458, 0x408); (0x459, 0x409); (0x45A, 0x40A);
    (0x45B, 0x40B); (0x45C, 0x40C); (0x45D, 0x40D); (0x45E, 0x40E);
    (0x45F, 0x40F); (0x461, 0x460); (0x463, 0x462); (0x465, 0x464);
    (0x467, 0x466); (0x469, 0x468); (0x46B, 0x46A); (0x46D, 0x46C);
    (0x46F, 0x46E); (0x471, 0x470); (0x473, 0x472); (0x475, 0x474);
    (0x477, 0x476); (0x479, 0x478); (0x47B, 0x47A); (0x47D, 0x47C);
    (0x47F, 0x47E); (0x481, 0x480); (0x48B, 0x48A); (0x48D, 0x48C);
    (0x48F, 0x48E); (0x491, 0x490); (0x493, 0x492); (0x495, 0x494);
    (0x497, 0x496); (0x499, 0x498); (0x49B, 0x49A); (0x49D, 0x49C);
    (0x49F, 0x49E); (0x4A1, 0x4A0); (0x4A3, 0x4A2); (0x4A5, 0x4A4);
    (0x4A7, 0x4A6); (0x4A9, 0x4A8); (0x4AB, 0x4AA); (0x4AD, 0x4AC);
    (0x4AF, 0x4AE); (0x4B1, 0x4B0); (0x4B3, 0x4B2); (0x4B5, 0x4B4);
    (0x4B7, 0x4B6); (0x4B9, 0x4B8); (0x4BB, 0x4BA); (0x4BD, 0x4BC);
    (0x4BF, 0x4BE); (0x4C2, 0x4C1); (0x4C4, 0x4C3); (0x4C6, 0x4C5);
    (0x4C8, 0x4C7); (0x4CA, 0x4C9); (0x4CC, 0x4CB); (0x4CE, 0x4CD);
    (0x4CF, 0x4C0); (0x4D1, 0x4D0); (0x4D3, 0x4D2); (0x4D5, 0x4D4);
    (0x4D7, 0x4D6); (0x4D9, 0x4D8); (0x4DB, 0x4DA); (0x4DD, 0x4DC);
    (0x4DF, 0x4DE); (0x4E1, 0x4E0); (0x4E3, 0x4E2); (0x4E5, 0x4E4);
    (0x4E7, 0x4E6); (0x4E9, 0x4E8); (0x4EB, 0x4EA); (0x4ED, 0x4EC);
    (0x4EF, 0x4EE); (0x4F1, 0x4F0); (0x4F3, 0x4F2); (0x4F5, 0x4F4);
    (0x4F7, 0x4F6); (0x4F9, 0x4F8); (0x4FB, 0x4FA); (0x4FD, 0x4FC);
    (0x4FF, 0x4FE); (0x501, 0x500); (0x503, 0x502); (0x505, 0x504);
    (0x507, 0x506); (0x509, 0x508); (0x50B, 0x50A); (0x50D, 0x50C);
    (0x50F, 0x50E); (0x511, 0x510); (0x513, 0x512); (0x515, 0x514);
    (0x517, 0x516); (0x519, 0x518); (0x51B, 0x51A); (0x51D, 0x51C);
    (0x51F, 0x51E); (0x521, 0x520); (0x523, 0x522); (0x525, 0x524);
    (0x527, 0x526); (0x529, 0x528); (0x52B, 0x52A); (0x52D, 0x52C);
    (0x52F, 0x52E); (0x561, 0x531); (0x562, 0x532); (0x563, 0x533);
    (0x564, 0x534); (0x565, 0x535); (0x566, 0x536); (0x567, 0x537);
    (0x568, 0x538); (0x569, 0x539); (0x56A, 0x53A); (0x56B, 0x53B);
    (0x56C, 0x53C); (0x56D, 0x53D); (0x56E, 0x53E); (0x56F, 0x53F);
    (0x570, 0x540); (0x571, 0x541); (0x572, 0x542); (0x573, 0x543);
    (0x574, 0x544); (0x575, 0x545); (0x576, 0x546); (0x577, 0x547);
    (0x578, 0x548); (0x579, 0x549); (0x57A, 0x54A); (0x57B, 0x54B);
    (0x57C, 0x54C); (0x57D, 0x54D); (0x57E, 0x54E); (0x57F, 0x54F);
    (0x580, 0x550); (0x581, 0x551); (0x582, 0x552); (0x583, 0x553);
    (0x584, 0x554); (0x585, 0x555); (0x586, 0x556); (0x10D0, 0x1C90);
    (0x10D1, 0x1C91); (0x10D2, 0x1C92); (0x10D3, 0x1C93); (0x10D4, 0x1C94);
    (0x10D5, 0x1C95); (0x10D6, 0x1C96); (0x10D7, 0x1C97); (0x10D8, 0x1C98);
    (0x10D9, 0x1C99); (0x10DA, 0x1C9A); (0x10DB, 0x1C9B); (0x10DC, 0x1C9C);
    (0x10DD, 0x1C9D); (0x10DE, 0x1C9E); (0x10DF, 0x1C9F); (0x10E0, 0x1CA0);
    (0x10E1, 0x1CA1); (0x10E2, 0x1CA2); (0x10E3, 0x1CA3); (0x10E4, 0x1CA4);
    (0x10E5, 0x1CA5); (0x10E6, 0x1CA6); (0x10E7, 0x1CA7); (0x10E8, 0x1CA8);
    (0x10E9, 0x1CA9); (0x10EA, 0x1CAA); (0x10EB, 0x1CAB); (0x10EC, 0x1CAC);
    (0x10ED, 0x1CAD); (0x10EE, 0x1CAE); (0x10EF, 0x1CAF); (0x10F0, 0x1CB0);
    (0x10F1, 0x1CB1); (0x10F2, 0x1CB2); (0x10F3, 0x1CB3); (0x10F4, 0x1CB4);
    (0x10F5, 0x1CB5); (0x10F6, 0x1CB6); (0x10F7, 0x1CB7); (0x10F8, 0x1CB8);
    (0x10F9, 0x1CB9); (0x10FA, 0x1CBA); (0x10FD, 0x1CBD); (0x10FE, 0x1CBE);
    (0x10FF, 0x1CBF); (0x13F8, 0x13F0); (0x13F9, 0x13F1); (0x13FA, 0x13F2);
    (0x13FB, 0x13F3); (0x13FC, 0x13F4); (0x13FD, 0x13F5); (0x1C80, 0x412);
    (0x1C81, 0x414); (0x1C82, 0x41E); (0x1C83, 0x421); (0x1C84, 0x422);
    (0x1C85, 0x422); (0x1C86, 0x42A); (0x1C87, 0x462); (0x1C88, 0xA64A);
    (0x1D79, 0xA77D); (0x1D7D, 0x2C63); (0x1D8E, 0xA7C6); (0x1E01, 0x1E00);
    (0x1E03, 0x1E02); (0x1E05, 0x1E04); (0x1E07, 0x1E06); (0x1E09, 0x1E08);
    (0x1E0B, 0x1E0A); (0x1E0D, 0x1E0C); (0x1E0F, 0x1E0E); (0x1E11, 0x1E10);
    (0x1E13, 0x1E12); (0x1E15, 0x1E14); (0x1E17, 0x1E16); (0x1E19, 0x1E18);
    (0x1E1B, 0x1E1A); (0x1E1D, 0x1E1C); (0x1E1F, 0x1E1E); (0x1E21, 0x1E20);
    (0x1E23, 0x1E22); (0x1E25, 0x1E24); (0x1E27, 0x1E26); (0x1E29, 0x1E28);
    (0x1E2B, 0x1E2A); (0x1E2D, 0x1E2C); (0x1E2F, 0x1E2E); (0x1E31, 0x1E30);
    (0x1E33, 0x1E32); (0x1E35, 0x1E34); (0x1E37, 0x1E36); (0x1E39, 0x1E38);
    (0x1E3B, 0x1E3A); (0x1E3D, 0x1E3C); (0x1E3F, 0x1E3E); (0x1E41, 0x1E40);
    (0x1E43, 0x1E42); (0x1E45, 0x1E44); (0x1E47, 0x1E46); (0x1E49, 0x1E48);
    (0x1E4B, 0x1E4A); (0x1E4D, 0x1E4C); (0x1E4F, 0x1E4E); (0x1E51, 0x1E50);
    (0x1E53, 0x1E52); (0x1E55, 0x1E54); (0x1E57, 0x1E56); (0x1E59, 0x1E58);
    (0x1E5B, 0x1E5A); (0x1E5D, 0x1E5C); (0x1E5F, 0x1E5E); (0x1E61, 0x1E60);
    (0x1E63, 0x1E62); (0x1E65, 0x1E64); (0x1E67, 0x1E66); (0x1E69, 0x1E68);
    (0x1E6B, 0x1E6A); (0x1E6D, 0x1E6C); (0x1E6F, 0x1E6E); (0x1E71, 0x1E70);
    (0x1E73, 0x1E72); (0x1E75, 0x1E74); (0x1E77, 0x1E76); (0x1E79, 0x1E78);
    (0x1E7B, 0x1E7A); (0x1E7D, 0x1E7C); (0x1E7F, 0x1E7E); (0x1E81, 0x1E80);
    (0x1E83, 0x1E82); (0x1E85, 0x1E84); (0x1E87, 0x1E86); (0x1E89, 0x1E88);
    (0x1E8B, 0x1E8A); (0x1E8D, 0x1E8C); (0x1E8F, 0x1E8E); (0x1E91, 0x1E90);
    (0x1E93, 0x1E92); (0x1E95, 0x1E94); (0x1E9B, 0x1E60); (0x1EA1, 0x1EA0);
    (0x1EA3, 0x1EA2); (0x1EA5, 0x1EA4); (0x1EA7, 0x1EA6); (0x1EA9, 0x1EA8);
    (0x1EAB, 0x1EAA); (0x1EAD, 0x1EAC); (0x1EAF, 0x1EAE); (0x1EB1, 0x1EB0);
    (0x1EB3, 0x1EB2); (0x1EB5, 0x1EB4); (0x1EB7, 0x1EB6); (0x1EB9, 0x1EB8);
    (0x1EBB, 0x1EBA); (0x1EBD, 0x1EBC); (0x1EBF, 0x1EBE); (0x1EC1, 0x1EC0);
    (0x1EC3, 0x1EC2); (0x1EC5, 0x1EC4); (0x1EC7, 0x1EC6); (0x1EC9, 0x1EC8);
    (0x1ECB, 0x1ECA); (0x1ECD, 0x1ECC); (0x1ECF, 0x1ECE); (0x1ED1, 0x1ED0);
    (0x1ED3, 0x1ED2); (0x1ED5, 0x1ED4); (0x1ED7, 0x1ED6); (0x1ED9, 0x1ED8);
    (0x1EDB, 0x1EDA); (0x1EDD, 0x1EDC); (0x1EDF, 0x1EDE); (0x1EE1, 0x1EE0);
    (0x1EE3, 0x1EE2); (0x1EE5, 0x1EE4); (0x1EE7, 0x1EE6); (0x1EE9, 0x1EE8);
    (0x1EEB, 0x1EEA); (0x1EED, 0x1EEC); (0x1EEF, 0x1EEE); (0x1EF1, 0x1EF0);
    (0x1EF3, 0x1EF2); (0x1EF5, 0x1EF4); (0x1EF7, 0x1EF6); (0x1EF9, 0x1EF8);
    (0x1EFB, 0x1EFA); (0x1EFD, 0x1EFC); (0x1EFF, 0x1EFE); (0x1F00, 0x1F08);
    (0x1F01, 0x1F09); (0x1F02, 0x1F0A); (0x1F03, 0x1F0B); (0x1F04, 0x1F0C);
    (0x1F05, 0x1F0D); (0x1F06, 0x1F0E); (0x1F07, 0x1F0F); (0x1F10, 0x1F18);
    (0x1F11, 0x1F19); (0x1F12, 0x1F1A); (0x1F13, 0x1F1B); (0x1F14, 0x1F1C);
    (0x1F15, 0x1F1D); (0x1F20, 0x1F28); (0x1F21, 0x1F29); (0x1F22, 0x1F2A);
    (0x1F23, 0x1F2B); (0x1F24, 0x1F2C); (0x1F25, 0x1F2D); (0x1F26, 0x1F2E);
    (0x1F27, 0x1F2F); (0x1F30, 0x1F38); (0x1F31, 0x1F39); (0x1F32, 0x1F3A);
    (0x1F33, 0x1F3B); (0x1F34, 0x1F3C); (0x1F35, 0x1F3D); (0x1F36, 0x1F3E);
    (0x1F37, 0x1F3F); (0x1F40, 0x1F48); (0x1F41, 0x1F49); (0x1F42, 0x1F4A);
    (0x1F43, 0x1F4B); (0x1F44, 0x1F4C); (0x1F45, 0x1F4D); (0x1F51, 0x1F59);
    (0x1F53, 0x1F5B); (0x1F55, 0x1F5D); (0x1F57, 0x1F5F); (0x1F60, 0x1F68);
    (0x1F61, 0x1F69); (0x1F62, 0x1F6A); (0x1F63, 0x1F6B); (0x1F64, 0x1F6C);
    (0x1F65, 0x1F6D); (0x1F66, 0x1F6E); (0x1F67, 0x1F6F); (0x1F70, 0x1FBA);
    (0x1F71, 0x1FBB); (0x1F72, 0x1FC8); (0x1F73, 0x1FC9); (0x1F74, 0x1FCA);
    (0x1F75, 0x1FCB); (0x1F76, 0x1FDA); (0x1F77, 0x1FDB); (0x1F78, 0x1FF8);
    (0x1F79, 0x1FF9); (0x1F7A, 0x1FEA); (0x1F7B, 0x1FEB); (0x1F7C, 0x1FFA);
    (0x1F7D, 0x1FFB); (0x1FB0, 0x1FB8); (0x1FB1, 0x1FB9); (0x1FBE, 0x399);
    (0x1FD0, 0x1FD8); (0x1FD1, 0x1FD9); (0x1FE0, 0x1FE8); (0x1FE1, 0x1FE9);
    (0x1FE5, 0x1FEC); (0x214E, 0x2132); (0x2170, 0x2160); (0x2171, 0x2161);
    (0x2172, 0x2162); (0x2173, 0x2163); (0x2174, 0x2164); (0x2175, 0x2165);
    (0x2176, 0x2166); (0x2177, 0x2167); (0x2178, 0x2168); (0x2179, 0x2169);
    (0x217A, 0x216A); (0x217B, 0x216B); (0x217C, 0x216C); (0x217D, 0x216D);
    (0x217E, 0x216E); (0x217F, 0x216F); (0x2184, 0x2183); (0x24D0, 0x24B6);
    (0x24D1, 0x24B7); (0x24D2, 0x24B8); (0x24D3, 0x24B9); (0x24D4, 0x24BA);
    (0x24D5, 0x24BB); (0x24D6, 0x24BC); (0x24D7, 0x24BD); (0x24D8, 0x24BE);
    (0x24D9, 0x24BF); (0x24DA, 0x24C0); (0x24DB, 0x24C1); (0x24DC, 0x24C2);
    (0x24DD, 0x24C3); (0x24DE, 0x24C4); (0x24DF, 0x24C5); (0x24E0, 0x24C6);
    (0x24E1, 0x24C7); (0x24E2, 0x24C8); (0x24E3, 0x24C9); (0x24E4, 0x24CA);
    (0x24E5, 0x24CB); (0x24E6, 0x24CC); (0x24E7, 0x24CD); (0x24E8, 0x24CE);
    (0x24E9, 0x24CF); (0x2C30, 0x2C00); (0x2C31, 0x2C01); (0x2C32, 0x2C02);
    (0x2C33, 0x2C03); (0x2C34, 0x2C04); (0x2C35, 0x2C05); (0x2C36, 0x2C06);
    (0x2C37, 0x2C07); (0x2C38, 0x2C08); (0x2C39, 0x2C09); (0x2C3A, 0x2C0A);
    (0x2C3B, 0x2C0B); (0x2C3C, 0x2C0C); (0x2C3D, 0x2C0D); (0x2C3E, 0x2C0E);
    (0x2C3F, 0x2C0F); (0x2C40, 0x2C10); (0x2C41, 0x2C11); (0x2C42, 0x2C12);
    (0x2C43, 0x2C13); (0x2C44, 0x2C14); (0x2C45, 0x2C15); (0x2C46, 0x2C16);
    (0x2C47, 0x2C17); (0x2C48, 0x2C18); (0x2C49, 0x2C19); (0x2C4A, 0x2C1A);
    (0x2C4B, 0x2C1B); (0x2C4C, 0x2C1C); (0x2C4D, 0x2C1D); (0x2C4E, 0x2C1E);
    (0x2C4F, 0x2C1F); (0x2C50, 0x2C20); (0x2C51, 0x2C21); (0x2C52, 0x2C22);
    (0x2C53, 0x2C23); (0x2C54, 0x2C24); (0x2C55, 0x2C25); (0x2C56, 0x2C26);
    (0x2C57, 0x2C27); (0x2C58, 0x2C28); (0x2C59, 0x2C29); (0x2C5A, 0x2C2A);
    (0x2C5B, 0x2C2B); (0x2C5C, 0x2C2C); (0x2C5D, 0x2C2D); (0x2C5E, 0x2C2E);
    (0x2C5F, 0x2C2F); (0x2C61, 0x2C60); (0x2C65, 0x23A); (0x2C66, 0x23E);
    (0x2C68, 0x2C67); (0x2C6A, 0x2C69); (0x2C6C, 0x2C6B); (0x2C73, 0x2C72);
    (0x2C76, 0x2C75); (0x2C81, 0x2C80); (0x2C83, 0x2C82); (0x2C85, 0x2C84);
    (0x2C87, 0x2C86); (0x2C89, 0x2C88); (0x2C8B, 0x2C8A); (0x2C8D, 0x2C8C);
    (0x2C8F, 0x2C8E); (0x2C91, 0x2C90); (0x2C93, 0x2C92); (0x2C95, 0x2C94);
    (0x2C97, 0x2C96); (0x2C99, 0x2C98); (0x2C9B, 0x2C9A); (0x2C9D, 0x2C9C);
    (0x2C9F, 0x2C9E); (0x2CA1, 0x2CA0); (0x2CA3, 0x2CA2); (0x2CA5, 0x2CA4);
    (0x2CA7, 0x2CA6); (0x2CA9, 0x2CA8); (0x2CAB, 0x2CAA); (0x2CAD, 0x2CAC);
    (0x2CAF, 0x2CAE); (0x2CB1, 0x2CB0); (0x2CB3, 0x2CB2); (0x2CB5, 0x2CB4);
    (0x2CB7, 0x2CB6); (0x2CB9, 0x2CB8); (0x2CBB, 0x2CBA); (0x2CBD, 0x2CBC);
    (0x2CBF, 0x2CBE); (0x2CC1, 0x2CC0); (0x2CC3, 0x2CC2); (0x2CC5, 0x2CC4);
    (0x2CC7, 0x2CC6); (0x2CC9, 0x2CC8); (0x2CCB, 0x2CCA); (0x2CCD, 0x2CCC);
    (0x2CCF, 0x2CCE); (0x2CD1, 0x2CD0); (0x2CD3, 0x2CD2); (0x2CD5, 0x2CD4);
    (0x2CD7, 0x2CD6); (0x2CD9, 0x2CD8); (0x2CDB, 0x2CDA); (0x2CDD, 0x2CDC);
    (0x2CDF, 0x2CDE); (0x2CE1, 0x2CE0); (0x2CE3, 0x2CE2); (0x2CEC, 0x2CEB);
    (0x2CEE, 0x2CED); (0x2CF3, 0x2CF2); (0x2D00, 0x10A0); (0x2D01, 0x10A1);
    (0x2D02, 0x10A2); (0x2D03, 0x10A3); (0x2D04, 0x10A4); (0x2D05, 0x10A5);
    (0x2D06, 0x10A6); (0x2D07, 0x10A7); (0x2D08, 0x10A8); (0x2D09, 0x10A9);
    (0x2D0A, 0x10AA); (0x2D0B, 0x10AB); (0x2D0C, 0x10AC); (0x2D0D, 0x10AD);
    (0x2D0E, 0x10AE); (0x2D0F, 0x10AF); (0x2D10, 0x10B0); (0x2D11, 0x10B1);
    (0x2D12, 0x10B2); (0x2D13, 0x10B3); (0x2D14, 0x10B4); (0x2D15, 0x10B5);
    (0x2D16, 0x10B6); (0x2D17, 0x10B7); (0x2D18, 0x10B8); (0x2D19, 0x10B9);
    (0x2D1A, 0x10BA); (0x2D1B, 0x10BB); (0x2D1C, 0x10BC); (0x2D1D, 0x10BD);
    (0x2D1E, 0x10BE); (0x2D1F, 0x10BF); (0x2D20, 0x10C0); (0x2D21, 0x10C1);
    (0x2D22, 0x10C2); (0x2D23, 0x10C3); (0x2D24, 0x10C4); (0x2D25, 0x10C5);
    (0x2D27, 0x10C7); (0x2D2D, 0x10CD); (0xA641, 0xA640); (0xA643, 0xA642);
    (0xA645, 0xA644); (0xA647, 0xA646); (0xA649, 0xA648); (0xA64B, 0xA64A);
    (0xA64D, 0xA64C); (0xA64F, 0xA64E); (0xA651, 0xA650); (0xA653, 0xA652);
    (0xA655, 0xA654); (0xA657, 0xA656); (0xA659, 0xA658); (0xA65B, 0xA65A);
    (0xA65D, 0xA65C); (0xA65F, 0xA65E); (0xA661, 0xA660); (0xA663, 0xA662);
    (0xA665, 0xA664); (0xA667, 0xA666); (0xA669, 0xA668); (0xA66B, 0xA66A);
    (0xA66D, 0xA66C); (0xA681, 0xA680); (0xA683, 0xA682); (0xA685, 0xA684);
    (0xA687, 0xA686); (0xA689, 0xA688); (0xA68B, 0xA68A); (0xA68D, 0xA68C);
    (0xA68F, 0xA68E); (0xA691, 0xA690); (0xA693, 0xA692); (0xA695, 0xA694);
    (0xA697, 0xA696); (0xA699, 0xA698); (0xA69B, 0xA69A); (0xA723, 0xA722);
    (0xA725, 0xA724); (0xA727, 0xA726); (0xA729, 0xA728); (0xA72B, 0xA72A);
    (0xA72D, 0xA72C); (0xA72F, 0xA72E); (0xA733, 0xA732); (0xA735, 0xA734);
    (0xA737, 0xA736); (0xA739, 0xA738); (0xA73B, 0xA73A); (0xA73D, 0xA73C);
    (0xA73F, 0xA73E); (0xA741, 0xA740); (0xA743, 0xA742); (0xA745, 0xA744);
    (0xA747, 0xA746); (0xA749, 0xA748); (0xA74B, 0xA74A); (0xA74D, 0xA74C);
    (0xA74F, 0xA74E); (0xA751, 0xA750); (0xA753, 0xA752); (0xA755, 0xA754);
    (0xA757, 0xA756); (0xA759, 0xA758); (0xA75B, 0xA75A); (0xA75D, 0xA75C);
    (0xA75F, 0xA75E); (0xA761, 0xA760); (0xA763, 0xA762); (0xA765, 0xA764);
    (0xA767, 0xA766); (0xA769, 0xA768); (0xA76B, 0xA76A); (0xA76D, 0xA76C);
    (0xA76F, 0xA76E); (0xA77A, 0xA779); (0xA77C, 0xA77B); (0xA77F, 0xA77E);
    (0xA781, 0xA780); (0xA783, 0xA782); (0xA785, 0xA784); (0xA787, 0xA786);
    (0xA78C, 0xA78B); (0xA791, 0xA790); (0xA793, 0xA792); (0xA794, 0xA7C4);
    (0xA797, 0xA796); (0xA799, 0xA798); (0xA79B, 0xA79A); (0xA79D, 0xA79C);
    (0xA79F, 0xA79E); (0xA7A1, 0xA7A0); (0xA7A3, 0xA7A2); (0xA7A5, 0xA7A4);
    (0xA7A7, 0xA7A6); (0xA7A9, 0xA7A8); (0xA7B5, 0xA7B4); (0xA7B7, 0xA7B6);
    (0xA7B9, 0xA7B8); (0xA7BB, 0xA7BA); (0xA7BD, 0xA7BC); (0xA7BF, 0xA7BE);
    (0xA7C1, 0xA7C0); (0xA7C3, 0xA7C2); (0xA7C8, 0xA7C7); (0xA7CA, 0xA7C9);
    (0xA7D1, 0xA7D0); (0xA7D7, 0xA7D6); (0xA7D9, 0xA7D8); (0xA7F6, 0xA7F5);
    (0xAB53, 0xA7B3); (0xAB70, 0x13A0); (0xAB71, 0x13A1); (0xAB72, 0x13A2);
    (0xAB73, 0x13A3); (0xAB74, 0x13A4); (0xAB75, 0x13A5); (0xAB76, 0x13A6);
    (0xAB77, 0x13A7); (0xAB78, 0x13A8); (0xAB79, 0x13A9); (0xAB7A, 0x13AA);
    (0xAB7B, 0x13AB); (0xAB7C, 0x13AC); (0xAB7D, 0x13AD); (0xAB7E, 0x13AE);
    (0xAB7F, 0x13AF); (0xAB80, 0x13B0); (0xAB81, 0x13B1); (0xAB82, 0x13B2);
    (0xAB83, 0x13B3); (0xAB84, 0x13B4); (0xAB85, 0x13B5); (0xAB86, 0x13B6);
    (0xAB87, 0x13B7); (0xAB88, 0x13B8); (0xAB89, 0x13B9); (0xAB8A, 0x13BA);
    (0xAB8B, 0x13BB); (0xAB8C, 0x13BC); (0xAB8D, 0x13BD); (0xAB8E, 0x13BE);
    (0xAB8F, 0x13BF); (0xAB90, 0x13C0); (0xAB91, 0x13C1); (0xAB92, 0x13C2);
    (0xAB93, 0x13C3); (0xAB94, 0x13C4); (0xAB95, 0x13C5); (0xAB96, 0x13C6);
    (0xAB97, 0x13C7); (0xAB98, 0x13C8); (0xAB99, 0x13C9); (0xAB9A, 0x13CA);
    (0xAB9B, 0x13CB); (0xAB9C, 0x13CC); (0xAB9D, 0x13CD); (0xAB9E, 0x13CE);
    (0xAB9F, 0x13CF); (0xABA0, 0x13D0); (0xABA1, 0x13D1); (0xABA2, 0x13D2);
    (0xABA3, 0x13D3); (0xABA4, 0x13D4); (0xABA5, 0x13D5); (0xABA6, 0x13D6);
    (0xABA7, 0x13D7); (0xABA8, 0x13D8); (0xABA9, 0x13D9); (0xABAA, 0x13DA);
    (0xABAB, 0x13DB); (0xABAC, 0x13DC); (0xABAD, 0x13DD); (0xABAE, 0x13DE);
    (0xABAF, 0x13DF); (0xABB0, 0x13E0); (0xABB1, 0x13E1); (0xABB2, 0x13E2);
    (0xABB3, 0x13E3); (0xABB4, 0x13E4); (0xABB5, 0x13E5); (0xABB6, 0x13E6);
    (0xABB7, 0x13E7); (0xABB8, 0x13E8); (0xABB9, 0x13E9); (0xABBA, 0x13EA);
    (0xABBB, 0x13EB); (0xABBC, 0x13EC); (0xABBD, 0x13ED); (0xABBE, 0x13EE);
    (0xABBF, 0x13EF); (0xFF41, 0xFF21); (0xFF42, 0xFF22); (0xFF43, 0xFF23);
    (0xFF44, 0xFF24); (0xFF45, 0xFF25); (0xFF46, 0xFF26); (0xFF47, 0xFF27);
    (0xFF48, 0xFF28); (0xFF49, 0xFF29); (0xFF4A, 0xFF2A); (0xFF4B, 0xFF2B);
    (0xFF4C, 0xFF2C); (0xFF4D, 0xFF2D); (0xFF4E, 0xFF2E); (0xFF4F, 0xFF2F);
    (0xFF50, 0xFF30); (0xFF51, 0xFF31); (0xFF52, 0xFF32); (0xFF53, 0xFF33);
    (0xFF54, 0xFF34); (0xFF55, 0xFF35); (0xFF56, 0xFF36); (0xFF57, 0xFF37);
    (0xFF58, 0xFF38); (0xFF59, 0xFF39); (0xFF5A, 0xFF3A); (0x10428, 0x10400);
    (0x10429, 0x10401); (0x1042A, 0x10402); (0x1042B, 0x10403);
    (0x1042C, 0x10404); (0x1042D, 0x10405); (0x1042E, 0x10406);
    (0x1042F, 0x10407); (0x10430, 0x10408); (0x10431, 0x10409);
    (0x10432, 0x1040A); (0x10433, 0x1040B); (0x10434, 0x1040C);
    (0x10435, 0x1040D); (0x10436, 0x1040E); (0x10437, 0x1040F);
    (0x10438, 0x10410); (0x10439, 0x10411); (0x1043A, 0x10412);
    (0x1043B, 0x10413); (0x1043C, 0x10414); (0x1043D, 0x10415);
    (0x1043E, 0x10416); (0x1043F, 0x10417); (0x10440, 0x10418);
    (0x10441, 0x10419); (0x10442, 0x1041A); (0x10443, 0x1041B);
    (0x10444, 0x1041C); (0x10445, 0x1041D); (0x10446, 0x1041E);
    (0x10447, 0x1041F); (0x10448, 0x10420); (0x10449, 0x10421);
    (0x1044A, 0x10422); (0x1044B, 0x10423); (0x1044C, 0x10424);
    (0x1044D, 0x10425); (0x1044E, 0x10426); (0x1044F, 0x10427);
    (0x104D8, 0x104B0); (0x104D9, 0x104B1); (0x104DA, 0x104B2);
    (0x104DB, 0x104B3); (0x104DC, 0x104B4); (0x104DD, 0x104B5);
    (0x104DE, 0x104B6); (0x104DF, 0x104B7); (0x104E0, 0x104B8);
    (0x104E1, 0x104B9); (0x104E2, 0x104BA); (0x104E3, 0x104BB);
    (0x104E4, 0x104BC); (0x104E5, 0x104BD); (0x104E6, 0x104BE);
    (0x104E7, 0x104BF); (0x104E8, 0x104C0); (0x104E9, 0x104C1);
    (0x104EA, 0x104C2); (0x104EB, 0x104C3); (0x104EC, 0x104C4);
    (0x104ED, 0x104C5); (0x104EE, 0x104C6); (0x104EF, 0x104C7);
    (0x104F0, 0x104C8); (0x104F1, 0x104C9); (0x104F2, 0x104CA);
    (0x104F3, 0x104CB); (0x104F4, 0x104CC); (0x104F5, 0x104CD);
    (0x104F6, 0x104CE); (0x104F7, 0x104CF); (0x104F8, 0x104D0);
    (0x104F9, 0x104D1); (0x104FA, 0x104D2); (0x104FB, 0x104D3);
    (0x10597, 0x10570); (0x10598, 0x10571); (0x10599, 0x10572);
    (0x1059A, 0x10573); (0x1059B, 0x10574); (0x1059C, 0x10575);
    (0x1059D, 0x10576); (0x1059E, 0x10577); (0x1059F, 0x10578);
    (0x105A0, 0x10579); (0x105A1, 0x1057A); (0x105A3, 0x1057C);
    (0x105A4, 0x1057D); (0x105A5, 0x1057E); (0x105A6, 0x1057F);
    (0x105A7, 0x10580); (0x105A8, 0x10581); (0x105A9, 0x10582);
    (0x105AA, 0x10583); (0x105AB, 0x10584); (0x105AC, 0x10585);
    (0x105AD, 0x10586); (0x105AE, 0x10587); (0x105AF, 0x10588);
    (0x105B0, 0x10589); (0x105B1, 0x1058A); (0x105B3, 0x1058C);
    (0x105B4, 0x1058D); (0x105B5, 0x1058E); (0x105B6, 0x1058F);
    (0x105B7, 0x10590); (0x105B8, 0x10591); (0x105B9, 0x10592);
    (0x105BB, 0x10594); (0x105BC, 0x10595); (0x10CC0, 0x10C80);
    (0x10CC1, 0x10C81); (0x10CC2, 0x10C82); (0x10CC3, 0x10C83);
    (0x10CC4, 0x10C84); (0x10CC5, 0x10C85); (0x10CC6, 0x10C86);
    (0x10CC7, 0x10C87); (0x10CC8, 0x10C88); (0x10CC9, 0x10C89);
    (0x10CCA, 0x10C8A); (0x10CCB, 0x10C8B); (0x10CCC, 0x10C8C);
    (0x10CCD, 0x10C8D); (0x10CCE, 0x10C8E); (0x10CCF, 0x10C8F);
    (0x10CD0, 0x10C90); (0x10CD1, 0x10C91); (0x10CD2, 0x10C92);
    (0x10CD3, 0x10C93); (0x10CD4, 0x10C94); (0x10CD5, 0x10C95);
    (0x10CD6, 0x10C96); (0x10CD7, 0x10C97); (0x10CD8, 0x10C98);
    (0x10CD9, 0x10C99); (0x10CDA, 0x10C9A); (0x10CDB, 0x10C9B);
    (0x10CDC, 0x10C9C); (0x10CDD, 0x10C9D); (0x10CDE, 0x10C9E);
    (0x10CDF, 0x10C9F); (0x10CE0, 0x10CA0); (0x10CE1, 0x10CA1);
    (0x10CE2, 0x10CA2); (0x10CE3, 0x10CA3); (0x10CE4, 0x10CA4);
    (0x10CE5, 0x10CA5); (0x10CE6, 0x10CA6); (0x10CE7, 0x10CA7);
    (0x10CE8, 0x10CA8); (0x10CE9, 0x10CA9); (0x10CEA, 0x10CAA);
    (0x10CEB, 0x10CAB); (0x10CEC, 0x10CAC); (0x10CED, 0x10CAD);
    (0x10CEE, 0x10CAE); (0x10CEF, 0x10CAF); (0x10CF0, 0x10CB0);
    (0x10CF1, 0x10CB1); (0x10CF2, 0x10CB2); (0x118C0, 0x118A0);
    (0x118C1, 0x118A1); (0x118C2, 0x118A2); (0x118C3, 0x118A3);
    (0x118C4, 0x118A4); (0x118C5, 0x118A5); (0x118C6, 0x118A6);
    (0x118C7, 0x118A7); (0x118C8, 0x118A8); (0x118C9, 0x118A9);
    (0x118CA, 0x118AA); (0x118CB, 0x118AB); (0x118CC, 0x118AC);
    (0x118CD, 0x118AD); (0x118CE, 0x118AE); (0x118CF, 0x118AF);
    (0x118D0, 0x118B0); (0x118D1, 0x118B1); (0x118D2, 0x118B2);
    (0x118D3, 0x118B3); (0x118D4, 0x118B4); (0x118D5, 0x118B5);
    (0x118D6, 0x118B6); (0x118D7, 0x118B7); (0x118D8, 0x118B8);
    (0x118D9, 0x118B9); (0x118DA, 0x118BA); (0x118DB, 0x118BB);
    (0x118DC, 0x118BC); (0x118DD, 0x118BD); (0x118DE, 0x118BE);
    (0x118DF, 0x118BF); (0x16E60, 0x16E40); (0x16E61, 0x16E41);
    (0x16E62, 0x16E42); (0x16E63, 0x16E43); (0x16E64, 0x16E44);
    (0x16E65, 0x16E45); (0x16E66, 0x16E46); (0x16E67, 0x16E47);
    (0x16E68, 0x16E48); (0x16E69, 0x16E49); (0x16E6A, 0x16E4A);
    (0x16E6B, 0x16E4B); (0x16E6C, 0x16E4C); (0x16E6D, 0x16E4D);
    (0x16E6E, 0x16E4E); (0x16E6F, 0x16E4F); (0x16E70, 0x16E50);
    (0x16E71, 0x16E51); (0x16E72, 0x16E52); (0x16E73, 0x16E53);
    (0x16E74, 0x16E54); (0x16E75, 0x16E55); (0x16E76, 0x16E56);
    (0x16E77, 0x16E57); (0x16E78, 0x16E58); (0x16E79, 0x16E59);
    (0x16E7A, 0x16E5A); (0x16E7B, 0x16E5B); (0x16E7C, 0x16E5C);
    (0x16E7D, 0x16E5D); (0x16E7E, 0x16E5E); (0x16E7F, 0x16E5F);
    (0x1E922, 0x1E900); (0x1E923, 0x1E901); (0x1E924, 0x1E902);
    (0x1E925, 0x1E903); (0x1E926, 0x1E904); (0x1E927, 0x1E905);
    (0x1E928, 0x1E906); (0x1E929, 0x1E907); (0x1E92A, 0x1E908);
    (0x1E92B, 0x1E909); (0x1E92C, 0x1E90A); (0x1E92D, 0x1E90B);
    (0x1E92E, 0x1E90C); (0x1E92F, 0x1E90D); (0x1E930, 0x1E90E);
    (0x1E931, 0x1E90F); (0x1E932, 0x1E910); (0x1E933, 0x1E911);
    (0x1E934, 0x1E912); (0x1E935, 0x1E913); (0x1E936, 0x1E914);
    (0x1E937, 0x1E915); (0x1E938, 0x1E916); (0x1E939, 0x1E917);
    (0x1E93A, 0x1E918); (0x1E93B, 0x1E919); (0x1E93C, 0x1E91A);
    (0x1E93D, 0x1E91B); (0x1E93E, 0x1E91C); (0x1E93F, 0x1E91D);
    (0x1E940, 0x1E91E); (0x1E941, 0x1E91F); (0x1E942, 0x1E920);
    (0x1E943, 0x1E921)
  ]%N.

(** Upper-case mappings to more than one code point (SpecialCasing,
    unconditional). *)
Definition Uppercase_Special : list (N * list N) :=
  [
    (0xDF, [0x53; 0x53]); (0x149, [0x2BC; 0x4E]); (0x1F0, [0x4A; 0x30C]);
    (0x390, [0x399; 0x308; 0x301]); (0x3B0, [0x3A5; 0x308; 0x301]);
    (0x587, [0x535; 0x552]); (0x1E96, [0x48; 0x331]); (0x1E97, [0x54; 0x308]);
    (0x1E98, [0x57; 0x30A]); (0x1E99, [0x59; 0x30A]); (0x1E9A, [0x41; 0x2BE]);
    (0x1F50, [0x3A5; 0x313]); (0x1F52, [0x3A5; 0x313; 0x300]);
    (0x1F54, [0x3A5; 0x313; 0x301]); (0x1F56, [0x3A5; 0x313; 0x342]);
    (0x1F80, [0x1F08; 0x399]); (0x1F81, [0x1F09; 0x399]);
    (0x1F82, [0x1F0A; 0x399]); (0x1F83, [0x1F0B; 0x399]);
    (0x1F84, [0x1F0C; 0x399]); (0x1F85, [0x1F0D; 0x399]);
    (0x1F86, [0x1F0E; 0x399]); (0x1F87, [0x1F0F; 0x399]);
    (0x1F88, [0x1F08; 0x399]); (0x1F89, [0x1F09; 0x399]);
    (0x1F8A, [0x1F0A; 0x399]); (0x1F8B, [0x1F0B; 0x399]);
    (0x1F8C, [0x1F0C; 0x399]); (0x1F8D, [0x1F0D; 0x399]);
    (0x1F8E, [0x1F0E; 0x399]); (0x1F8F, [0x1F0F; 0x399]);
    (0x1F90, [0x1F28; 0x399]); (0x1F91, [0x1F29; 0x399]);
    (0x1F92, [0x1F2A; 0x399]); (0x1F93, [0x1F2B; 0x399]);
    (0x1F94, [0x1F2C; 0x399]); (0x1F95, [0x1F2D; 0x399]);
    (0x1F96, [0x1F2E; 0x399]); (0x1F97, [0x1F2F; 0x399]);
    (0x1F98, [0x1F28; 0x399]); (0x1F99, [0x1F29; 0x399]);
    (0x1F9A, [0x1F2A; 0x399]); (0x1F9B, [0x1F2B; 0x399]);
    (0x1F9C, [0x1F2C; 0x399]); (0x1F9D, [0x1F2D; 0x399]);
    (0x1F9E, [0x1F2E; 0x399]); (0x1F9F, [0x1F2F; 0x399]);
    (0x1FA0, [0x1F68; 0x399]); (0x1FA1, [0x1F69; 0x399]);
    (0x1FA2, [0x1F6A; 0x399]); (0x1FA3, [0x1F6B; 0x399]);
    (0x1FA4, [0x1F6C; 0x399]); (0x1FA5, [0x1F6D; 0x399]);
    (0x1FA6, [0x1F6E; 0x399]); (0x1FA7, [0x1F6F; 0x399]);
    (0x1FA8, [0x1F68; 0x399]); (0x1FA9, [0x1F69; 0x399]);
    (0x1FAA, [0x1F6A; 0x399]); (0x1FAB, [0x1F6B; 0x399]);
    (0x1FAC, [0x1F6C; 0x399]); (0x1FAD, [0x1F6D; 0x399]);
    (0x1FAE, [0x1F6E; 0x399]); (0x1FAF, [0x1F6F; 0x399]);
    (0x1FB2, [0x1FBA; 0x399]); (0x1FB3, [0x391; 0x399]);
    (0x1FB4, [0x386; 0x399]); (0x1FB6, [0x391; 0x342]);
    (0x1FB7, [0x391; 0x342; 0x399]); (0x1FBC, [0x391; 0x399]);
    (0x1FC2, [0x1FCA; 0x399]); (0x1FC3, [0x397; 0x399]);
    (0x1FC4, [0x389; 0x399]); (0x1FC6, [0x397; 0x342]);
    (0x1FC7, [0x397; 0x342; 0x399]); (0x1FCC, [0x397; 0x399]);
    (0x1FD2, [0x399; 0x308; 0x300]); (0x1FD3, [0x399; 0x308; 0x301]);
    (0x1FD6, [0x399; 0x342]); (0x1FD7, [0x399; 0x308; 0x342]);
    (0x1FE2, [0x3A5; 0x308; 0x300]); (0x1FE3, [0x3A5; 0x308; 0x301]);
    (0x1FE4, [0x3A1; 0x313]); (0x1FE6, [0x3A5; 0x342]);
    (0x1FE7, [0x3A5; 0x308; 0x342]); (0x1FF2, [0x1FFA; 0x399]);
    (0x1FF3, [0x3A9; 0x399]); (0x1FF4, [0x38F; 0x399]);
    (0x1FF6, [0x3A9; 0x342]); (0x1FF7, [0x3A9; 0x342; 0x399]);
    (0x1FFC, [0x3A9; 0x399]); (0xFB00, [0x46; 0x46]); (0xFB01, [0x46; 0x49]);
    (0xFB02, [0x46; 0x4C]); (0xFB03, [0x46; 0x46; 0x49]);
    (0xFB04, [0x46; 0x46; 0x4C]); (0xFB05, [0x53; 0x54]);
    (0xFB06, [0x53; 0x54]); (0xFB13, [0x544; 0x546]);
    (0xFB14, [0x544; 0x535]); (0xFB15, [0x544; 0x53B]);
    (0xFB16, [0x54E; 0x546]); (0xFB17, [0x544; 0x53D])
  ]%N.

(** Simple lower-case mappings. *)
Definition Lowercase_Mapping : list (N * N) :=
  [
    (0x41, 0x61); (0x42, 0x62); (0x43, 0x63); (0x44, 0x64); (0x45, 0x65);
    (0x46, 0x66); (0x47, 0x67); (0x48, 0x68); (0x49, 0x69); (0x4A, 0x6A);
    (0x4B, 0x6B); (0x4C, 0x6C); (0x4D, 0x6D); (0x4E, 0x6E); (0x4F, 0x6F);
    (0x50, 0x70); (0x51, 0x71); (0x52, 0x72); (0x53, 0x73); (0x54, 0x74);
    (0x55, 0x75); (0x56, 0x76); (0x57, 0x77); (0x58, 0x78); (0x59, 0x79);
    (0x5A, 0x7A); (0xC0, 0xE0); (0xC1, 0xE1); (0xC2, 0xE2); (0xC3, 0xE3);
    (0xC4, 0xE4); (0xC5, 0xE5); (0xC6, 0xE6); (0xC7, 0xE7); (0xC8, 0xE8);
    (0xC9, 0xE9); (0xCA, 0xEA); (0xCB, 0xEB); (0xCC, 0xEC); (0xCD, 0xED);
    (0xCE, 0xEE); (0xCF, 0xEF); (0xD0, 0xF0); (0xD1, 0xF1); (0xD2, 0xF2);
    (0xD3, 0xF3); (0xD4, 0xF4); (0xD5, 0xF5); (0xD6, 0xF6); (0xD8, 0xF8);
    (0xD9, 0xF9); (0xDA, 0xFA); (0xDB, 0xFB); (0xDC, 0xFC); (0xDD, 0xFD);
    (0xDE, 0xFE); (0x100, 0x101); (0x102, 0x103); (0x104, 0x105);
    (0x106, 0x107); (0x108, 0x109); (0x10A, 0x10B); (0x10C, 0x10D);
    (0x10E, 0x10F); (0x110, 0x111); (0x112, 0x113); (0x114, 0x115);
    (0x116, 0x117); (0x118, 0x119); (0x11A, 0x11B); (0x11C, 0x11D);
    (0x11E, 0x11F); (0x120, 0x121); (0x122, 0x123); (0x124, 0x125);
    (0x126, 0x127); (0x128, 0x129); (0x12A, 0x12B); (0x12C, 0x12D);
    (0x12E, 0x12F); (0x132, 0x133); (0x134, 0x135); (0x136, 0x137);
    (0x139, 0x13A); (0x13B, 0x13C); (0x13D, 0x13E); (0x13F, 0x140);
    (0x141, 0x142); (0x143, 0x144); (0x145, 0x146); (0x147, 0x148);
    (0x14A, 0x14B); (0x14C, 0x14D); (0x14E, 0x14F); (0x150, 0x151);
    (0x152, 0x153); (0x154, 0x155); (0x156, 0x157); (0x158, 0x159);
    (0x15A, 0x15B); (0x15C, 0x15D); (0x15E, 0x15F); (0x160, 0x161);
    (0x162, 0x163); (0x164, 0x165); (0x166, 0x167); (0x168, 0x169);
    (0x16A, 0x16B); (0x16C, 0x16D); (0x16E, 0x16F); (0x170, 0x171);
    (0x172, 0x173); (0x174, 0x175); (0x176, 0x177); (0x178, 0xFF);
    (0x179, 0x17A); (0x17B, 0x17C); (0x17D, 0x17E); (0x181, 0x253);
    (0x182, 0x183); (0x184, 0x185); (0x186, 0x254); (0x187, 0x188);
    (0x189, 0x256); (0x18A, 0x257); (0x18B, 0x18C); (0x18E, 0x1DD);
    (0x18F, 0x259); (0x190, 0x25B); (0x191, 0x192); (0x193, 0x260);
    (0x194, 0x263); (0x196, 0x269); (0x197, 0x268); (0x198, 0x199);
    (0x19C, 0x26F); (0x19D, 0x272); (0x19F, 0x275); (0x1A0, 0x1A1);
    (0x1A2, 0x1A3); (0x1A4, 0x1A5); (0x1A6, 0x280); (0x1A7, 0x1A8);
    (0x1A9, 0x283); (0x1AC, 0x1AD); (0x1AE, 0x288); (0x1AF, 0x1B0);
    (0x1B1, 0x28A); (0x1B2, 0x28B); (0x1B3, 0x1B4); (0x1B5, 0x1B6);
    (0x1B7, 0x292); (0x1B8, 0x1B9); (0x1BC, 0x1BD); (0x1C4, 0x1C6);
    (0x1C5, 0x1C6); (0x1C7, 0x1C9); (0x1C8, 0x1C9); (0x1CA, 0x1CC);
    (0x1CB, 0x1CC); (0x1CD, 0x1CE); (0x1CF, 0x1D0); (0x1D1, 0x1D2);
    (0x1D3, 0x1D4); (0x1D5, 0x1D6); (0x1D7, 0x1D8); (0x1D9, 0x1DA);
    (0x1DB, 0x1DC); (0x1DE, 0x1DF); (0x1E0, 0x1E1); (0x1E2, 0x1E3);
    (0x1E4, 0x1E5); (0x1E6, 0x1E7); (0x1E8, 0x1E9); (0x1EA, 0x1EB);
    (0x1EC, 0x1ED); (0x1EE, 0x1EF); (0x1F1, 0x1F3); (0x1F2, 0x1F3);
    (0x1F4, 0x1F5); (0x1F6, 0x195); (0x1F7, 0x1BF); (0x1F8, 0x1F9);
    (0x1FA, 0x1FB); (0x1FC, 0x1FD); (0x1FE, 0x1FF); (0x200, 0x201);
    (0x202, 0x203); (0x204, 0x205); (0x206, 0x207); (0x208, 0x209);
    (0x20A, 0x20B); (0x20C, 0x20D); (0x20E, 0x20F); (0x210, 0x211);
    (0x212, 0x213); (0x214, 0x215); (0x216, 0x217); (0x218, 0x219);
    (0x21A, 0x21B); (0x21C, 0x21D); (0x21E, 0x21F); (0x220, 0x19E);
    (0x222, 0x223); (0x224, 0x225); (0x226, 0x227); (0x228, 0x229);
    (0x22A, 0x22B); (0x22C, 0x22D); (0x22E, 0x22F); (0x230, 0x231);
    (0x232, 0x233); (0x23A, 0x2C65); (0x23B, 0x23C); (0x23D, 0x19A);
    (0x23E, 0x2C66); (0x241, 0x242); (0x243, 0x180); (0x244, 0x289);
    (0x245, 0x28C); (0x246, 0x247); (0x248, 0x249); (0x24A, 0x24B);
    (0x24C, 0x24D); (0x24E, 0x24F); (0x370, 0x371); (0x372, 0x373);
    (0x376, 0x377); (0x37F, 0x3F3); (0x386, 0x3AC); (0x388, 0x3AD);
    (0x389, 0x3AE); (0x38A, 0x3AF); (0x38C, 0x3CC); (0x38E, 0x3CD);
    (0x38F, 0x3CE); (0x391, 0x3B1); (0x392, 0x3B2); (0x393, 0x3B3);
    (0x394, 0x3B4); (0x395, 0x3B5); (0x396, 0x3B6); (0x397, 0x3B7);
    (0x398, 0x3B8); (0x399, 0x3B9); (0x39A, 0x3BA); (0x39B, 0x3BB);
    (0x39C, 0x3BC); (0x39D, 0x3BD); (0x39E, 0x3BE); (0x39F, 0x3BF);
    (0x3A0, 0x3C0); (0x3A1, 0x3C1); (0x3A3, 0x3C3); (0x3A4, 0x3C4);
    (0x3A5, 0x3C5); (0x3A6, 0x3C6); (0x3A7, 0x3C7); (0x3A8, 0x3C8);
    (0x3A9, 0x3C9); (0x3AA, 0x3CA); (0x3AB, 0x3CB); (0x3CF, 0x3D7);
    (0x3D8, 0x3D9); (0x3DA, 0x3DB); (0x3DC, 0x3DD); (0x3DE, 0x3DF);
    (0x3E0, 0x3E1); (0x3E2, 0x3E3); (0x3E4, 0x3E5); (0x3E6, 0x3E7);
    (0x3E8, 0x3E9); (0x3EA, 0x3EB); (0x3EC, 0x3ED); (0x3EE, 0x3EF);
    (0x3F4, 0x3B8); (0x3F7, 0x3F8); (0x3F9, 0x3F2); (0x3FA, 0x3FB);
    (0x3FD, 0x37B); (0x3FE, 0x37C); (0x3FF, 0x37D); (0x400, 0x450);
    (0x401, 0x451); (0x402, 0x452); (0x403, 0x453); (0x404, 0x454);
    (0x405, 0x455); (0x406, 0x456); (0x407, 0x457); (0x408, 0x458);
    (0x409, 0x459); (0x40A, 0x45A); (0x40B, 0x45B); (0x40C, 0x45C);
    (0x40D, 0x45D); (0x40E, 0x45E); (0x40F, 0x45F); (0x410, 0x430);
    (0x411, 0x431); (0x412, 0x432); (0x413, 0x433); (0x414, 0x434);
    (0x415, 0x435); (0x416, 0x436); (0x417, 0x437); (0x418, 0x438);
    (0x419, 0x439); (0x41A, 0x43A); (0x41B, 0x43B); (0x41C, 0x43C);
    (0x41D, 0x43D); (0x41E, 0x43E); (0x41F, 0x43F); (0x420, 0x440);
    (0x421, 0x441); (0x422, 0x442); (0x423, 0x443); (0x424, 0x444);
    (0x425, 0x445); (0x426, 0x446); (0x427, 0x447); (0x428, 0x448);
    (0x429, 0x449); (0x42A, 0x44A); (0x42B, 0x44B); (0x42C, 0x44C);
    (0x42D, 0x44D); (0x42E, 0x44E); (0x42F, 0x44F); (0x460, 0x461);
    (0x462, 0x463); (0x464, 0x465); (0x466, 0x467); (0x468, 0x469);
    (0x46A, 0x46B); (0x46C, 0x46D); (0x46E, 0x46F); (0x470, 0x471);
    (0x472, 0x473); (0x474, 0x475); (0x476, 0x477); (0x478, 0x479);
    (0x47A, 0x47B); (0x47C, 0x47D); (0x47E, 0x47F); (0x480, 0x481);
    (0x48A, 0x48B); (0x48C, 0x48D); (0x48E, 0x48F); (0x490, 0x491);
    (0x492, 0x493); (0x494, 0x495); (0x496, 0x497); (0x498, 0x499);
    (0x49A, 0x49B); (0x49C, 0x49D); (0x49E, 0x49F); (0x4A0, 0x4A1);
    (0x4A2, 0x4A3); (0x4A4, 0x4A5); (0x4A6, 0x4A7); (0x4A8, 0x4A9);
    (0x4AA, 0x4AB); (0x4AC, 0x4AD); (0x4AE, 0x4AF); (0x4B0, 0x4B1);
    (0x4B2, 0x4B3); (0x4B4, 0x4B5); (0x4B6, 0x4B7); (0x4B8, 0x4B9);
    (0x4BA, 0x4BB); (0x4BC, 0x4BD); (0x4BE, 0x4BF); (0x4C0, 0x4CF);
    (0x4C1, 0x4C2); (0x4C3, 0x4C4); (0x4C5, 0x4C6); (0x4C7, 0x4C8);
    (0x4C9, 0x4CA); (0x4CB, 0x4CC); (0x4CD, 0x4CE); (0x4D0, 0x4D1);
    (0x4D2, 0x4D3); (0x4D4, 0x4D5); (0x4D6, 0x4D7); (0x4D8, 0x4D9);
    (0x4DA, 0x4DB); (0x4DC, 0x4DD); (0x4DE, 0x4DF); (0x4E0, 0x4E1);
    (0x4E2, 0x4E3); (0x4E4, 0x4E5); (0x4E6, 0x4E7); (0x4E8, 0x4E9);
    (0x4EA, 0x4EB); (0x4EC, 0x4ED); (0x4EE, 0x4EF); (0x4F0, 0x4F1);
    (0x4F2, 0x4F3); (0x4F4, 0x4F5); (0x4F6, 0x4F7); (0x4F8, 0x4F9);
    (0x4FA, 0x4FB); (0x4FC, 0x4FD); (0x4FE, 0x4FF); (0x500, 0x501);
    (0x502, 0x503); (0x504, 0x505); (0x506, 0x507); (0x508, 0x509);
    (0x50A, 0x50B); (0x50C, 0x50D); (0x50E, 0x50F); (0x510, 0x511);
    (0x512, 0x513); (0x514, 0x515); (0x516, 0x517); (0x518, 0x519);
    (0x51A, 0x51B); (0x51C, 0x51D); (0x51E, 0x51F); (0x520, 0x521);
    (0x522, 0x523); (0x524, 0x525); (0x526, 0x527); (0x528, 0x529);
    (0x52A, 0x52B); (0x52C, 0x52D); (0x52E, 0x52F); (0x531, 0x561);
    (0x532, 0x562); (0x533, 0x563); (0x534, 0x564); (0x535, 0x565);
    (0x536, 0x566); (0x537, 0x567); (0x538, 0x568); (0x539, 0x569);
    (0x53A, 0x56A); (0x53B, 0x56B); (0x53C, 0x56C); (0x53D, 0x56D);
    (0x53E, 0x56E); (0x53F, 0x56F); (0x540, 0x570); (0x541, 0x571);
    (0x542, 0x572); (0x543, 0x573); (0x544, 0x574); (0x545, 0x575);
    (0x546, 0x576); (0x547, 0x577); (0x548, 0x578); (0x549, 0x579);
    (0x54A, 0x57A); (0x54B, 0x57B); (0x54C, 0x57C); (0x54D, 0x57D);
    (0x54E, 0x57E); (0x54F, 0x57F); (0x550, 0x580); (0x551, 0x581);
    (0x552, 0x582); (0x553, 0x583); (0x554, 0x584); (0x555, 0x585);
    (0x556, 0x586); (0x10A0, 0x2D00); (0x10A1, 0x2D01); (0x10A2, 0x2D02);
    (0x10A3, 0x2D03); (0x10A4, 0x2D04); (0x10A5, 0x2D05); (0x10A6, 0x2D06);
    (0x10A7, 0x2D07); (0x10A8, 0x2D08); (0x10A9, 0x2D09); (0x10AA, 0x2D0A);
    (0x10AB, 0x2D0B); (0x10AC, 0x2D0C); (0x10AD, 0x2D0D); (0x10AE, 0x2D0E);
    (0x10AF, 0x2D0F); (0x10B0, 0x2D10); (0x10B1, 0x2D11); (0x10B2, 0x2D12);
    (0x10B3, 0x2D13); (0x10B4, 0x2D14); (0x10B5, 0x2D15); (0x10B6, 0x2D16);
    (0x10B7, 0x2D17); (0x10B8, 0x2D18); (0x10B9, 0x2D19); (0x10BA, 0x2D1A);
    (0x10BB, 0x2D1B); (0x10BC, 0x2D1C); (0x10BD, 0x2D1D); (0x10BE, 0x2D1E);
    (0x10BF, 0x2D1F); (0x10C0, 0x2D20); (0x10C1, 0x2D21); (0x10C2, 0x2D22);
    (0x10C3, 0x2D23); (0x10C4, 0x2D24); (0x10C5, 0x2D25); (0x10C7, 0x2D27);
    (0x10CD, 0x2D2D); (0x13A0, 0xAB70); (0x13A1, 0xAB71); (0x13A2, 0xAB72);
    (0x13A3, 0xAB73); (0x13A4, 0xAB74); (0x13A5, 0xAB75); (0x13A6, 0xAB76);
    (0x13A7, 0xAB77); (0x13A8, 0xAB78); (0x13A9, 0xAB79); (0x13AA, 0xAB7A);
    (0x13AB, 0xAB7B); (0x13AC, 0xAB7C); (0x13AD, 0xAB7D); (0x13AE, 0xAB7E);
    (0x13AF, 0xAB7F); (0x13B0, 0xAB80); (0x13B1, 0xAB81); (0x13B2, 0xAB82);
    (0x13B3, 0xAB83); (0x13B4, 0xAB84); (0x13B5, 0xAB85); (0x13B6, 0xAB86);
    (0x13B7, 0xAB87); (0x13B8, 0xAB88); (0x13B9, 0xAB89); (0x13BA, 0xAB8A);
    (0x13BB, 0xAB8B); (0x13BC, 0xAB8C); (0x13BD, 0xAB8D); (0x13BE, 0xAB8E);
    (0x13BF, 0xAB8F); (0x13C0, 0xAB90); (0x13C1, 0xAB91); (0x13C2, 0xAB92);
    (0x13C3, 0xAB93); (0x13C4, 0xAB94); (0x13C5, 0xAB95); (0x13C6, 0xAB96);
    (0x13C7, 0xAB97); (0x13C8, 0xAB98); (0x13C9, 0xAB99); (0x13CA, 0xAB9A);
    (0x13CB, 0xAB9B); (0x13CC, 0xAB9C); (0x13CD, 0xAB9D); (0x13CE, 0xAB9E);
    (0x13CF, 0xAB9F); (0x13D0, 0xABA0); (0x13D1, 0xABA1); (0x13D2, 0xABA2);
    (0x13D3, 0xABA3); (0x13D4, 0xABA4); (0x13D5, 0xABA5); (0x13D6, 0xABA6);
    (0x13D7, 0xABA7); (0x13D8, 0xABA8); (0x13D9, 0xABA9); (0x13DA, 0xABAA);
    (0x13DB, 0xABAB); (0x13DC, 0xABAC); (0x13DD, 0xABAD); (0x13DE, 0xABAE);
    (0x13DF, 0xABAF); (0x13E0, 0xABB0); (0x13E1, 0xABB1); (0x13E2, 0xABB2);
    (0x13E3, 0xABB3); (0x13E4, 0xABB4); (0x13E5, 0xABB5); (0x13E6, 0xABB6);
    (0x13E7, 0xABB7); (0x13E8, 0xABB8); (0x13E9, 0xABB9); (0x13EA, 0xABBA);
    (0x13EB, 0xABBB); (0x13EC, 0xABBC); (0x13ED, 0xABBD); (0x13EE, 0xABBE);
    (0x13EF, 0xABBF); (0x13F0, 0x13F8); (0x13F1, 0x13F9); (0x13F2, 0x13FA);
    (0x13F3, 0x13FB); (0x13F4, 0x13FC); (0x13F5, 0x13FD); (0x1C90, 0x10D0);
    (0x1C91, 0x10D1); (0x1C92, 0x10D2); (0x1C93, 0x10D3); (0x1C94, 0x10D4);
    (0x1C95, 0x10D5); (0x1C96, 0x10D6); (0x1C97, 0x10D7); (0x1C98, 0x10D8);
    (0x1C99, 0x10D9); (0x1C9A, 0x10DA); (0x1C9B, 0x10DB); (0x1C9C, 0x10DC);
    (0x1C9D, 0x10DD); (0x1C9E, 0x10DE); (0x1C9F, 0x10DF); (0x1CA0, 0x10E0);
    (0x1CA1, 0x10E1); (0x1CA2, 0x10E2); (0x1CA3, 0x10E3); (0x1CA4, 0x10E4);
    (0x1CA5, 0x10E5); (0x1CA6, 0x10E6); (0x1CA7, 0x10E7); (0x1CA8, 0x10E8);
    (0x1CA9, 0x10E9); (0x1CAA, 0x10EA); (0x1CAB, 0x10EB); (0x1CAC, 0x10EC);
    (0x1CAD, 0x10ED); (0x1CAE, 0x10EE); (0x1CAF, 0x10EF); (0x1CB0, 0x10F0);
    (0x1CB1, 0x10F1); (0x1CB2, 0x10F2); (0x1CB3, 0x10F3); (0x1CB4, 0x10F4);
    (0x1CB5, 0x10F5); (0x1CB6, 0x10F6); (0x1CB7, 0x10F7); (0x1CB8, 0x10F8);
    (0x1CB9, 0x10F9); (0x1CBA, 0x10FA); (0x1CBD, 0x10FD); (0x1CBE, 0x10FE);
    (0x1CBF, 0x10FF); (0x1E00, 0x1E01); (0x1E02, 0x1E03); (0x1E04, 0x1E05);
    (0x1E06, 0x1E07); (0x1E08, 0x1E09); (0x1E0A, 0x1E0B); (0x1E0C, 0x1E0D);
    (0x1E0E, 0x1E0F); (0x1E10, 0x1E11); (0x1E12, 0x1E13); (0x1E14, 0x1E15);
    (0x1E16, 0x1E17); (0x1E18, 0x1E19); (0x1E1A, 0x1E1B); (0x1E1C, 0x1E1D);
    (0x1E1E, 0x1E1F); (0x1E20, 0x1E21); (0x1E22, 0x1E23); (0x1E24, 0x1E25);
    (0x1E26, 0x1E27); (0x1E28, 0x1E29); (0x1E2A, 0x1E2B); (0x1E2C, 0x1E2D);
    (0x1E2E, 0x1E2F); (0x1E30, 0x1E31); (0x1E32, 0x1E33); (0x1E34, 0x1E35);
    (0x1E36, 0x1E37); (0x1E38, 0x1E39); (0x1E3A, 0x1E3B); (0x1E3C, 0x1E3D);
    (0x1E3E, 0x1E3F); (0x1E40, 0x1E41); (0x1E42, 0x1E43); (0x1E44, 0x1E45);
    (0x1E46, 0x1E47); (0x1E48, 0x1E49); (0x1E4A, 0x1E4B); (0x1E4C, 0x1E4D);
    (0x1E4E, 0x1E4F); (0x1E50, 0x1E51); (0x1E52, 0x1E53); (0x1E54, 0x1E55);
    (0x1E56, 0x1E57); (0x1E58, 0x1E59); (0x1E5A, 0x1E5B); (0x1E5C, 0x1E5D);
    (0x1E5E, 0x1E5F); (0x1E60, 0x1E61); (0x1E62, 0x1E63); (0x1E64, 0x1E65);
    (0x1E66, 0x1E67); (0x1E68, 0x1E69); (0x1E6A, 0x1E6B); (0x1E6C, 0x1E6D);
    (0x1E6E, 0x1E6F); (0x1E70, 0x1E71); (0x1E72, 0x1E73); (0x1E74, 0x1E75);
    (0x1E76, 0x1E77); (0x1E78, 0x1E79); (0x1E7A, 0x1E7B); (0x1E7C, 0x1E7D);
    (0x1E7E, 0x1E7F); (0x1E80, 0x1E81); (0x1E82, 0x1E83); (0x1E84, 0x1E85);
    (0x1E86, 0x1E87); (0x1E88, 0x1E89); (0x1E8A, 0x1E8B); (0x1E8C, 0x1E8D);
    (0x1E8E, 0x1E8F); (0x1E90, 0x1E91); (0x1E92, 0x1E93); (0x1E94, 0x1E95);
    (0x1E9E, 0xDF); (0x1EA0, 0x1EA1); (0x1EA2, 0x1EA3); (0x1EA4, 0x1EA5);
    (0x1EA6, 0x1EA7); (0x1EA8, 0x1EA9); (0x1EAA, 0x1EAB); (0x1EAC, 0x1EAD);
    (0x1EAE, 0x1EAF); (0x1EB0, 0x1EB1); (0x1EB2, 0x1EB3); (0x1EB4, 0x1EB5);
    (0x1EB6, 0x1EB7); (0x1EB8, 0x1EB9); (0x1EBA, 0x1EBB); (0x1EBC, 0x1EBD);
    (0x1EBE, 0x1EBF); (0x1EC0, 0x1EC1); (0x1EC2, 0x1EC3); (0x1EC4, 0x1EC5);
    (0x1EC6, 0x1EC7); (0x1EC8, 0x1EC9); (0x1ECA, 0x1ECB); (0x1ECC, 0x1ECD);
    (0x1ECE, 0x1ECF); (0x1ED0, 0x1ED1); (0x1ED2, 0x1ED3); (0x1ED4, 0x1ED5);
    (0x1ED6, 0x1ED7); (0x1ED8, 0x1ED9); (0x1EDA, 0x1EDB); (0x1EDC, 0x1EDD);
    (0x1EDE, 0x1EDF); (0x1EE0, 0x1EE1); (0x1EE2, 0x1EE3); (0x1EE4, 0x1EE5);
    (0x1EE6, 0x1EE7); (0x1EE8, 0x1EE9); (0x1EEA, 0x1EEB); (0x1EEC, 0x1EED);
    (0x1EEE, 0x1EEF); (0x1EF0, 0x1EF1); (0x1EF2, 0x1EF3); (0x1EF4, 0x1EF5);
    (0x1EF6, 0x1EF7); (0x1EF8, 0x1EF9); (0x1EFA, 0x1EFB); (0x1EFC, 0x1EFD);
    (0x1EFE, 0x1EFF); (0x1F08, 0x1F00); (0x1F09, 0x1F01); (0x1F0A, 0x1F02);
    (0x1F0B, 0x1F03); (0x1F0C, 0x1F04); (0x1F0D, 0x1F05); (0x1F0E, 0x1F06);
    (0x1F0F, 0x1F07); (0x1F18, 0x1F10); (0x1F19, 0x1F11); (0x1F1A, 0x1F12);
    (0x1F1B, 0x1F13); (0x1F1C, 0x1F14); (0x1F1D, 0x1F15); (0x1F28, 0x1F20);
    (0x1F29, 0x1F21); (0x1F2A, 0x1F22); (0x1F2B, 0x1F23); (0x1F2C, 0x1F24);
    (0x1F2D, 0x1F25); (0x1F2E, 0x1F26); (0x1F2F, 0x1F27); (0x1F38, 0x1F30);
    (0x1F39, 0x1F31); (0x1F3A, 0x1F32); (0x1F3B, 0x1F33); (0x1F3C, 0x1F34);
    (0x1F3D, 0x1F35); (0x1F3E, 0x1F36); (0x1F3F, 0x1F37); (0x1F48, 0x1F40);
    (0x1F49, 0x1F41); (0x1F4A, 0x1F42); (0x1F4B, 0x1F43); (0x1F4C, 0x1F44);
    (0x1F4D, 0x1F45); (0x1F59, 0x1F51); (0x1F5B, 0x1F53); (0x1F5D, 0x1F55);
    (0x1F5F, 0x1F57); (0x1F68, 0x1F60); (0x1F69, 0x1F61); (0x1F6A, 0x1F62);
    (0x1F6B, 0x1F63); (0x1F6C, 0x1F64); (0x1F6D, 0x1F65); (0x1F6E, 0x1F66);
    (0x1F6F, 0x1F67); (0x1F88, 0x1F80); (0x1F89, 0x1F81); (0x1F8A, 0x1F82);
    (0x1F8B, 0x1F83); (0x1F8C, 0x1F84); (0x1F8D, 0x1F85); (0x1F8E, 0x1F86);
    (0x1F8F, 0x1F87); (0x1F98, 0x1F90); (0x1F99, 0x1F91); (0x1F9A, 0x1F92);
    (0x1F9B, 0x1F93); (0x1F9C, 0x1F94); (0x1F9D, 0x1F95); (0x1F9E, 0x1F96);
    (0x1F9F, 0x1F97); (0x1FA8, 0x1FA0); (0x1FA9, 0x1FA1); (0x1FAA, 0x1FA2);
    (0x1FAB, 0x1FA3); (0x1FAC, 0x1FA4); (0x1FAD, 0x1FA5); (0x1FAE, 0x1FA6);
    (0x1FAF, 0x1FA7); (0x1FB8, 0x1FB0); (0x1FB9, 0x1FB1); (0x1FBA, 0x1F70);
    (0x1FBB, 0x1F71); (0x1FBC, 0x1FB3); (0x1FC8, 0x1F72); (0x1FC9, 0x1F73);
    (0x1FCA, 0x1F74); (0x1FCB, 0x1F75); (0x1FCC, 0x1FC3); (0x1FD8, 0x1FD0);
    (0x1FD9, 0x1FD1); (0x1FDA, 0x1F76); (0x1FDB, 0x1F77); (0x1FE8, 0x1FE0);
    (0x1FE9, 0x1FE1); (0x1FEA, 0x1F7A); (0x1FEB, 0x1F7B); (0x1FEC, 0x1FE5);
    (0x1FF8, 0x1F78); (0x1FF9, 0x1F79); (0x1FFA, 0x1F7C); (0x1FFB, 0x1F7D);
    (0x1FFC, 0x1FF3); (0x2126, 0x3C9); (0x212A, 0x6B); (0x212B, 0xE5);
    (0x2132, 0x214E); (0x2160, 0x2170); (0x2161, 0x2171); (0x2162, 0x2172);
    (0x2163, 0x2173); (0x2164, 0x2174); (0x2165, 0x2175); (0x2166, 0x2176);
    (0x2167, 0x2177); (0x2168, 0x2178); (0x2169, 0x2179); (0x216A, 0x217A);
    (0x216B, 0x217B); (0x216C, 0x217C); (0x216D, 0x217D); (0x216E, 0x217E);
    (0x216F, 0x217F); (0x2183, 0x2184); (0x24B6, 0x24D0); (0x24B7, 0x24D1);
    (0x24B8, 0x24D2); (0x24B9, 0x24D3); (0x24BA, 0x24D4); (0x24BB, 0x24D5);
    (0x24BC, 0x24D6); (0x24BD, 0x24D7); (0x24BE, 0x24D8); (0x24BF, 0x24D9);
    (0x24C0, 0x24DA); (0x24C1, 0x24DB); (0x24C2, 0x24DC); (0x24C3, 0x24DD);
    (0x24C4, 0x24DE); (0x24C5, 0x24DF); (0x24C6, 0x24E0); (0x24C7, 0x24E1);
    (0x24C8, 0x24E2); (0x24C9, 0x24E3); (0x24CA, 0x24E4); (0x24CB, 0x24E5);
    (0x24CC, 0x24E6); (0x24CD, 0x24E7); (0x24CE, 0x24E8); (0x24CF, 0x24E9);
    (0x2C00, 0x2C30); (0x2C01, 0x2C31); (0x2C02, 0x2C32); (0x2C03, 0x2C33);
    (0x2C04, 0x2C34); (0x2C05, 0x2C35); (0x2C06, 0x2C36); (0x2C07, 0x2C37);
    (0x2C08, 0x2C38); (0x2C09, 0x2C39); (0x2C0A, 0x2C3A); (0x2C0B, 0x2C3B);
    (0x2C0C, 0x2C3C); (0x2C0D, 0x2C3D); (0x2C0E, 0x2C3E); (0x2C0F, 0x2C3F);
    (0x2C10, 0x2C40); (0x2C11, 0x2C41); (0x2C12, 0x2C42); (0x2C13, 0x2C43);
    (0x2C14, 0x2C44); (0x2C15, 0x2C45); (0x2C16, 0x2C46); (0x2C17, 0x2C47);
    (0x2C18, 0x2C48); (0x2C19, 0x2C49); (0x2C1A, 0x2C4A); (0x2C1B, 0x2C4B);
    (0x2C1C, 0x2C4C); (0x2C1D, 0x2C4D); (0x2C1E, 0x2C4E); (0x2C1F, 0x2C4F);
    (0x2C20, 0x2C50); (0x2C21, 0x2C51); (0x2C22, 0x2C52); (0x2C23, 0x2C53);
    (0x2C24, 0x2C54); (0x2C25, 0x2C55); (0x2C26, 0x2C56); (0x2C27, 0x2C57);
    (0x2C28, 0x2C58); (0x2C29, 0x2C59); (0x2C2A, 0x2C5A); (0x2C2B, 0x2C5B);
    (0x2C2C, 0x2C5C); (0x2C2D, 0x2C5D); (0x2C2E, 0x2C5E); (0x2C2F, 0x2C5F);
    (0x2C60, 0x2C61); (0x2C62, 0x26B); (0x2C63, 0x1D7D); (0x2C64, 0x27D);
    (0x2C67, 0x2C68); (0x2C69, 0x2C6A); (0x2C6B, 0x2C6C); (0x2C6D, 0x251);
    (0x2C6E, 0x271); (0x2C6F, 0x250); (0x2C70, 0x252); (0x2C72, 0x2C73);
    (0x2C75, 0x2C76); (0x2C7E, 0x23F); (0x2C7F, 0x240); (0x2C80, 0x2C81);
    (0x2C82, 0x2C83); (0x2C84, 0x2C85); (0x2C86, 0x2C87); (0x2C88, 0x2C89);
    (0x2C8A, 0x2C8B); (0x2C8C, 0x2C8D); (0x2C8E, 0x2C8F); (0x2C90, 0x2C91);
    (0x2C92, 0x2C93); (0x2C94, 0x2C95); (0x2C96, 0x2C97); (0x2C98, 0x2C99);
    (0x2C9A, 0x2C9B); (0x2C9C, 0x2C9D); (0x2C9E, 0x2C9F); (0x2CA0, 0x2CA1);
    (0x2CA2, 0x2CA3); (0x2CA4, 0x2CA5); (0x2CA6, 0x2CA7); (0x2CA8, 0x2CA9);
    (0x2CAA, 0x2CAB); (0x2CAC, 0x2CAD); (0x2CAE, 0x2CAF); (0x2CB0, 0x2CB1);
    (0x2CB2, 0x2CB3); (0x2CB4, 0x2CB5); (0x2CB6, 0x2CB7); (0x2CB8, 0x2CB9);
    (0x2CBA, 0x2CBB); (0x2CBC, 0x2CBD); (0x2CBE, 0x2CBF); (0x2CC0, 0x2CC1);
    (0x2CC2, 0x2CC3); (0x2CC4, 0x2CC5); (0x2CC6, 0x2CC7); (0x2CC8, 0x2CC9);
    (0x2CCA, 0x2CCB); (0x2CCC, 0x2CCD); (0x2CCE, 0x2CCF); (0x2CD0, 0x2CD1);
    (0x2CD2, 0x2CD3); (0x2CD4, 0x2CD5); (0x2CD6, 0x2CD7); (0x2CD8, 0x2CD9);
    (0x2CDA, 0x2CDB); (0x2CDC, 0x2CDD); (0x2CDE, 0x2CDF); (0x2CE0, 0x2CE1);
    (0x2CE2, 0x2CE3); (0x2CEB, 0x2CEC); (0x2CED, 0x2CEE); (0x2CF2, 0x2CF3);
    (0xA640, 0xA641); (0xA642, 0xA643); (0xA644, 0xA645); (0xA646, 0xA647);
    (0xA648, 0xA649); (0xA64A, 0xA64B); (0xA64C, 0xA64D); (0xA64E, 0xA64F);
    (0xA650, 0xA651); (0xA652, 0xA653); (0xA654, 0xA655); (0xA656, 0xA657);
    (0xA658, 0xA659); (0xA65A, 0xA65B); (0xA65C, 0xA65D); (0xA65E, 0xA65F);
    (0xA660, 0xA661); (0xA662, 0xA663); (0xA664, 0xA665); (0xA666, 0xA667);
    (0xA668, 0xA669); (0xA66A, 0xA66B); (0xA66C, 0xA66D); (0xA680, 0xA681);
    (0xA682, 0xA683); (0xA684, 0xA685); (0xA686, 0xA687); (0xA688, 0xA689);
    (0xA68A, 0xA68B); (0xA68C, 0xA68D); (0xA68E, 0xA68F); (0xA690, 0xA691);
    (0xA692, 0xA693); (0xA694, 0xA695); (0xA696, 0xA697); (0xA698, 0xA699);
    (0xA69A, 0xA69B); (0xA722, 0xA723); (0xA724, 0xA725); (0xA726, 0xA727);
    (0xA728, 0xA729); (0xA72A, 0xA72B); (0xA72C, 0xA72D); (0xA72E, 0xA72F);
    (0xA732, 0xA733); (0xA734, 0xA735); (0xA736, 0xA737); (0xA738, 0xA739);
    (0xA73A, 0xA73B); (0xA73C, 0xA73D); (0xA73E, 0xA73F); (0xA740, 0xA741);
    (0xA742, 0xA743); (0xA744, 0xA745); (0xA746, 0xA747); (0xA748, 0xA749);
    (0xA74A, 0xA74B); (0xA74C, 0xA74D); (0xA74E, 0xA74F); (0xA750, 0xA751);
    (0xA752, 0xA753); (0xA754, 0xA755); (0xA756, 0xA757); (0xA758, 0xA759);
    (0xA75A, 0xA75B); (0xA75C, 0xA75D); (0xA75E, 0xA75F); (0xA760, 0xA761);
    (0xA762, 0xA763); (0xA764, 0xA765); (0xA766, 0xA767); (0xA768, 0xA769);
    (0xA76A, 0xA76B); (0xA76C, 0xA76D); (0xA76E, 0xA76F); (0xA779, 0xA77A);
    (0xA77B, 0xA77C); (0xA77D, 0x1D79); (0xA77E, 0xA77F); (0xA780, 0xA781);
    (0xA782, 0xA783); (0xA784, 0xA785); (0xA786, 0xA787); (0xA78B, 0xA78C);
    (0xA78D, 0x265); (0xA790, 0xA791); (0xA792, 0xA793); (0xA796, 0xA797);
    (0xA798, 0xA799); (0xA79A, 0xA79B); (0xA79C, 0xA79D); (0xA79E, 0xA79F);
    (0xA7A0, 0xA7A1); (0xA7A2, 0xA7A3); (0xA7A4, 0xA7A5); (0xA7A6, 0xA7A7);
    (0xA7A8, 0xA7A9); (0xA7AA, 0x266); (0xA7AB, 0x25C); (0xA7AC, 0x261);
    (0xA7AD, 0x26C); (0xA7AE, 0x26A); (0xA7B0, 0x29E); (0xA7B1, 0x287);
    (0xA7B2, 0x29D); (0xA7B3, 0xAB53); (0xA7B4, 0xA7B5); (0xA7B6, 0xA7B7);
    (0xA7B8, 0xA7B9); (0xA7BA, 0xA7BB); (0xA7BC, 0xA7BD); (0xA7BE, 0xA7BF);
    (0xA7C0, 0xA7C1); (0xA7C2, 0xA7C3); (0xA7C4, 0xA794); (0xA7C5, 0x282);
    (0xA7C6, 0x1D8E); (0xA7C7, 0xA7C8); (0xA7C9, 0xA7CA); (0xA7D0, 0xA7D1);
    (0xA7D6, 0xA7D7); (0xA7D8, 0xA7D9); (0xA7F5, 0xA7F6); (0xFF21, 0xFF41);
    (0xFF22, 0xFF42); (0xFF23, 0xFF43); (0xFF24, 0xFF44); (0xFF25, 0xFF45);
    (0xFF26, 0xFF46); (0xFF27, 0xFF47); (0xFF28, 0xFF48); (0xFF29, 0xFF49);
    (0xFF2A, 0xFF4A); (0xFF2B, 0xFF4B); (0xFF2C, 0xFF4C); (0xFF2D, 0xFF4D);
    (0xFF2E, 0xFF4E); (0xFF2F, 0xFF4F); (0xFF30, 0xFF50); (0xFF31, 0xFF51);
    (0xFF32, 0xFF52); (0xFF33, 0xFF53); (0xFF34, 0xFF54); (0xFF35, 0xFF55);
    (0xFF36, 0xFF56); (0xFF37, 0xFF57); (0xFF38, 0xFF58); (0xFF39, 0xFF59);
    (0xFF3A, 0xFF5A); (0x10400, 0x10428); (0x10401, 0x10429);
    (0x10402, 0x1042A); (0x10403, 0x1042B); (0x10404, 0x1042C);
    (0x10405, 0x1042D); (0x10406, 0x1042E); (0x10407, 0x1042F);
    (0x10408, 0x10430); (0x10409, 0x10431); (0x1040A, 0x10432);
    (0x1040B, 0x10433); (0x1040C, 0x10434); (0x1040D, 0x10435);
    (0x1040E, 0x10436); (0x1040F, 0x10437); (0x10410, 0x10438);
    (0x10411, 0x10439); (0x10412, 0x1043A); (0x10413, 0x1043B);
    (0x10414, 0x1043C); (0x10415, 0x1043D); (0x10416, 0x1043E);
    (0x10417, 0x1043F); (0x10418, 0x10440); (0x10419, 0x10441);
    (0x1041A, 0x10442); (0x1041B, 0x10443); (0x1041C, 0x10444);
    (0x1041D, 0x10445); (0x1041E, 0x10446); (0x1041F, 0x10447);
    (0x10420, 0x10448); (0x10421, 0x10449); (0x10422, 0x1044A);
    (0x10423, 0x1044B); (0x10424, 0x1044C); (0x10425, 0x1044D);
    (0x10426, 0x1044E); (0x10427, 0x1044F); (0x104B0, 0x104D8);
    (0x104B1, 0x104D9); (0x104B2, 0x104DA); (0x104B3, 0x104DB);
    (0x104B4, 0x104DC); (0x104B5, 0x104DD); (0x104B6, 0x104DE);
    (0x104B7, 0x104DF); (0x104B8, 0x104E0); (0x104B9, 0x104E1);
    (0x104BA, 0x104E2); (0x104BB, 0x104E3); (0x104BC, 0x104E4);
    (0x104BD, 0x104E5); (0x104BE, 0x104E6); (0x104BF, 0x104E7);
    (0x104C0, 0x104E8); (0x104C1, 0x104E9); (0x104C2, 0x104EA);
    (0x104C3, 0x104EB); (0x104C4, 0x104EC); (0x104C5, 0x104ED);
    (0x104C6, 0x104EE); (0x104C7, 0x104EF); (0x104C8, 0x104F0);
    (0x104C9, 0x104F1); (0x104CA, 0x104F2); (0x104CB, 0x104F3);
    (0x104CC, 0x104F4); (0x104CD, 0x104F5); (0x104CE, 0x104F6);
    (0x104CF, 0x104F7); (0x104D0, 0x104F8); (0x104D1, 0x104F9);
    (0x104D2, 0x104FA); (0x104D3, 0x104FB); (0x10570, 0x10597);
    (0x10571, 0x10598); (0x10572, 0x10599); (0x10573, 0x1059A);
    (0x10574, 0x1059B); (0x10575, 0x1059C); (0x10576, 0x1059D);
    (0x10577, 0x1059E); (0x10578, 0x1059F); (0x10579, 0x105A0);
    (0x1057A, 0x105A1); (0x1057C, 0x105A3); (0x1057D, 0x105A4);
    (0x1057E, 0x105A5); (0x1057F, 0x105A6); (0x10580, 0x105A7);
    (0x10581, 0x105A8); (0x10582, 0x105A9); (0x10583, 0x105AA);
    (0x10584, 0x105AB); (0x10585, 0x105AC); (0x10586, 0x105AD);
    (0x10587, 0x105AE); (0x10588, 0x105AF); (0x10589, 0x105B0);
    (0x1058A, 0x105B1); (0x1058C, 0x105B3); (0x1058D, 0x105B4);
    (0x1058E, 0x105B5); (0x1058F, 0x105B6); (0x10590, 0x105B7);
    (0x10591, 0x105B8); (0x10592, 0x105B9); (0x10594, 0x105BB);
    (0x10595, 0x105BC); (0x10C80, 0x10CC0); (0x10C81, 0x10CC1);
    (0x10C82, 0x10CC2); (0x10C83, 0x10CC3); (0x10C84, 0x10CC4);
    (0x10C85, 0x10CC5); (0x10C86, 0x10CC6); (0x10C87, 0x10CC7);
    (0x10C88, 0x10CC8); (0x10C89, 0x10CC9); (0x10C8A, 0x10CCA);
    (0x10C8B, 0x10CCB); (0x10C8C, 0x10CCC); (0x10C8D, 0x10CCD);
    (0x10C8E, 0x10CCE); (0x10C8F, 0x10CCF); (0x10C90, 0x10CD0);
    (0x10C91, 0x10CD1); (0x10C92, 0x10CD2); (0x10C93, 0x10CD3);
    (0x10C94, 0x10CD4); (0x10C95, 0x10CD5); (0x10C96, 0x10CD6);
    (0x10C97, 0x10CD7); (0x10C98, 0x10CD8); (0x10C99, 0x10CD9);
    (0x10C9A, 0x10CDA); (0x10C9B, 0x10CDB); (0x10C9C, 0x10CDC);
    (0x10C9D, 0x10CDD); (0x10C9E, 0x10CDE); (0x10C9F, 0x10CDF);
    (0x10CA0, 0x10CE0); (0x10CA1, 0x10CE1); (0x10CA2, 0x10CE2);
    (0x10CA3, 0x10CE3); (0x10CA4, 0x10CE4); (0x10CA5, 0x10CE5);
    (0x10CA6, 0x10CE6); (0x10CA7, 0x10CE7); (0x10CA8, 0x10CE8);
    (0x10CA9, 0x10CE9); (0x10CAA, 0x10CEA); (0x10CAB, 0x10CEB);
    (0x10CAC, 0x10CEC); (0x10CAD, 0x10CED); (0x10CAE, 0x10CEE);
    (0x10CAF, 0x10CEF); (0x10CB0, 0x10CF0); (0x10CB1, 0x10CF1);
    (0x10CB2, 0x10CF2); (0x118A0, 0x118C0); (0x118A1, 0x118C1);
    (0x118A2, 0x118C2); (0x118A3, 0x118C3); (0x118A4, 0x118C4);
    (0x118A5, 0x118C5); (0x118A6, 0x118C6); (0x118A7, 0x118C7);
    (0x118A8, 0x118C8); (0x118A9, 0x118C9); (0x118AA, 0x118CA);
    (0x118AB, 0x118CB); (0x118AC, 0x118CC); (0x118AD, 0x118CD);
    (0x118AE, 0x118CE); (0x118AF, 0x118CF); (0x118B0, 0x118D0);
    (0x118B1, 0x118D1); (0x118B2, 0x118D2); (0x118B3, 0x118D3);
    (0x118B4, 0x118D4); (0x118B5, 0x118D5); (0x118B6, 0x118D6);
    (0x118B7, 0x118D7); (0x118B8, 0x118D8); (0x118B9, 0x118D9);
    (0x118BA, 0x118DA); (0x118BB, 0x118DB); (0x118BC, 0x118DC);
    (0x118BD, 0x118DD); (0x118BE, 0x118DE); (0x118BF, 0x118DF);
    (0x16E40, 0x16E60); (0x16E41, 0x16E61); (0x16E42, 0x16E62);
    (0x16E43, 0x16E63); (0x16E44, 0x16E64); (0x16E45, 0x16E65);
    (0x16E46, 0x16E66); (0x16E47, 0x16E67); (0x16E48, 0x16E68);
    (0x16E49, 0x16E69); (0x16E4A, 0x16E6A); (0x16E4B, 0x16E6B);
    (0x16E4C, 0x16E6C); (0x16E4D, 0x16E6D); (0x16E4E, 0x16E6E);
    (0x16E4F, 0x16E6F); (0x16E50, 0x16E70); (0x16E51, 0x16E71);
    (0x16E52, 0x16E72); (0x16E53, 0x16E73); (0x16E54, 0x16E74);
    (0x16E55, 0x16E75); (0x16E56, 0x16E76); (0x16E57, 0x16E77);
    (0x16E58, 0x16E78); (0x16E59, 0x16E79); (0x16E5A, 0x16E7A);
    (0x16E5B, 0x16E7B); (0x16E5C, 0x16E7C); (0x16E5D, 0x16E7D);
    (0x16E5E, 0x16E7E); (0x16E5F, 0x16E7F); (0x1E900, 0x1E922);
    (0x1E901, 0x1E923); (0x1E902, 0x1E924); (0x1E903, 0x1E925);
    (0x1E904, 0x1E926); (0x1E905, 0x1E927); (0x1E906, 0x1E928);
    (0x1E907, 0x1E929); (0x1E908, 0x1E92A); (0x1E909, 0x1E92B);
    (0x1E90A, 0x1E92C); (0x1E90B, 0x1E92D); (0x1E90C, 0x1E92E);
    (0x1E90D, 0x1E92F); (0x1E90E, 0x1E930); (0x1E90F, 0x1E931);
    (0x1E910, 0x1E932); (0x1E911, 0x1E933); (0x1E912, 0x1E934);
    (0x1E913, 0x1E935); (0x1E914, 0x1E936); (0x1E915, 0x1E937);
    (0x1E916, 0x1E938); (0x1E917, 0x1E939); (0x1E918, 0x1E93A);
    (0x1E919, 0x1E93B); (0x1E91A, 0x1E93C); (0x1E91B, 0x1E93D);
    (0x1E91C, 0x1E93E); (0x1E91D, 0x1E93F); (0x1E91E, 0x1E940);
    (0x1E91F, 0x1E941); (0x1E920, 0x1E942); (0x1E921, 0x1E943)
  ]%N.

(** Lower-case mappings to more than one code point (SpecialCasing,
    unconditional). *)
Definition Lowercase_Special : list (N * list N) :=
  [
    (0x130, [0x69; 0x307])
  ]%N.

(** The property Cased, as inclusive ranges. *)
Definition Cased : list (N * N) :=
  [
    (0x41, 0x5A); (0x61, 0x7A); (0xAA, 0xAA); (0xB5, 0xB5); (0xBA, 0xBA);
    (0xC0, 0xD6); (0xD8, 0xF6); (0xF8, 0x1BA); (0x1BC, 0x1BF); (0x1C4, 0x293);
    (0x295, 0x2B8); (0x2C0, 0x2C1); (0x2E0, 0x2E4); (0x345, 0x345);
    (0x370, 0x373); (0x376, 0x377); (0x37A, 0x37D); (0x37F, 0x37F);
    (0x386, 0x386); (0x388, 0x38A); (0x38C, 0x38C); (0x38E, 0x3A1);
    (0x3A3, 0x3F5); (0x3F7, 0x481); (0x48A, 0x52F); (0x531, 0x556);
    (0x560, 0x588); (0x10A0, 0x10C5); (0x10C7, 0x10C7); (0x10CD, 0x10CD);
    (0x10D0, 0x10FA); (0x10FD, 0x10FF); (0x13A0, 0x13F5); (0x13F8, 0x13FD);
    (0x1C80, 0x1C88); (0x1C90, 0x1CBA); (0x1CBD, 0x1CBF); (0x1D00, 0x1DBF);
    (0x1E00, 0x1F15); (0x1F18, 0x1F1D); (0x1F20, 0x1F45); (0x1F48, 0x1F4D);
    (0x1F50, 0x1F57); (0x1F59, 0x1F59); (0x1F5B, 0x1F5B); (0x1F5D, 0x1F5D);
    (0x1F5F, 0x1F7D); (0x1F80, 0x1FB4); (0x1FB6, 0x1FBC); (0x1FBE, 0x1FBE);
    (0x1FC2, 0x1FC4); (0x1FC6, 0x1FCC); (0x1FD0, 0x1FD3); (0x1FD6, 0x1FDB);
    (0x1FE0, 0x1FEC); (0x1FF2, 0x1FF4); (0x1FF6, 0x1FFC); (0x2071, 0x2071);
    (0x207F, 0x207F); (0x2090, 0x209C); (0x2102, 0x2102); (0x2107, 0x2107);
    (0x210A, 0x2113); (0x2115, 0x2115); (0x2119, 0x211D); (0x2124, 0x2124);
    (0x2126, 0x2126); (0x2128, 0x2128); (0x212A, 0x212D); (0x212F, 0x2134);
    (0x2139, 0x2139); (0x213C, 0x213F); (0x2145, 0x2149); (0x214E, 0x214E);
    (0x2160, 0x217F); (0x2183, 0x2184); (0x24B6, 0x24E9); (0x2C00, 0x2CE4);
    (0x2CEB, 0x2CEE); (0x2CF2, 0x2CF3); (0x2D00, 0x2D25); (0x2D27, 0x2D27);
    (0x2D2D, 0x2D2D); (0xA640, 0xA66D); (0xA680, 0xA69D); (0xA722, 0xA787);
    (0xA78B, 0xA78E); (0xA790, 0xA7CA); (0xA7D0, 0xA7D1); (0xA7D3, 0xA7D3);
    (0xA7D5, 0xA7D9); (0xA7F5, 0xA7F6); (0xA7F8, 0xA7FA); (0xAB30, 0xAB5A);
    (0xAB5C, 0xAB68); (0xAB70, 0xABBF); (0xFB00, 0xFB06); (0xFB13, 0xFB17);
    (0xFF21, 0xFF3A); (0xFF41, 0xFF5A); (0x10400, 0x1044F);
    (0x104B0, 0x104D3); (0x104D8, 0x104FB); (0x10570, 0x1057A);
    (0x1057C, 0x1058A); (0x1058C, 0x10592); (0x10594, 0x10595);
    (0x10597, 0x105A1); (0x105A3, 0x105B1); (0x105B3, 0x105B9);
    (0x105BB, 0x105BC); (0x10780, 0x10780); (0x10783, 0x10785);
    (0x10787, 0x107B0); (0x107B2, 0x107BA); (0x10C80, 0x10CB2);
    (0x10CC0, 0x10CF2); (0x118A0, 0x118DF); (0x16E40, 0x16E7F);
    (0x1D400, 0x1D454); (0x1D456, 0x1D49C); (0x1D49E, 0x1D49F);
    (0x1D4A2, 0x1D4A2); (0x1D4A5, 0x1D4A6); (0x1D4A9, 0x1D4AC);
    (0x1D4AE, 0x1D4B9); (0x1D4BB, 0x1D4BB); (0x1D4BD, 0x1D4C3);
    (0x1D4C5, 0x1D505); (0x1D507, 0x1D50A); (0x1D50D, 0x1D514);
    (0x1D516, 0x1D51C); (0x1D51E, 0x1D539); (0x1D53B, 0x1D53E);
    (0x1D540, 0x1D544); (0x1D546, 0x1D546); (0x1D54A, 0x1D550);
    (0x1D552, 0x1D6A5); (0x1D6A8, 0x1D6C0); (0x1D6C2, 0x1D6DA);
    (0x1D6DC, 0x1D6FA); (0x1D6FC, 0x1D714); (0x1D716, 0x1D734);
    (0x1D736, 0x1D74E); (0x1D750, 0x1D76E); (0x1D770, 0x1D788);
    (0x1D78A, 0x1D7A8); (0x1D7AA, 0x1D7C2); (0x1D7C4, 0x1D7CB);
    (0x1DF00, 0x1DF09); (0x1DF0B, 0x1DF1E); (0x1E900, 0x1E943);
    (0x1F130, 0x1F149); (0x1F150, 0x1F169); (0x1F170, 0x1F189)
  ]%N.

(** The property Case_Ignorable, as inclusive ranges. *)
Definition Case_Ignorable : list (N * N) :=
  [
    (0x27, 0x27); (0x2E, 0x2E); (0x3A, 0x3A); (0x5E, 0x5E); (0x60, 0x60);
    (0xA8, 0xA8); (0xAD, 0xAD); (0xAF, 0xAF); (0xB4, 0xB4); (0xB7, 0xB8);
    (0x2B0, 0x36F); (0x374, 0x375); (0x37A, 0x37A); (0x384, 0x385);
    (0x387, 0x387); (0x483, 0x489); (0x559, 0x559); (0x55F, 0x55F);
    (0x591, 0x5BD); (0x5BF, 0x5BF); (0x5C1, 0x5C2); (0x5C4, 0x5C5);
    (0x5C7, 0x5C7); (0x5F4, 0x5F4); (0x600, 0x605); (0x610, 0x61A);
    (0x61C, 0x61C); (0x640, 0x640); (0x64B, 0x65F); (0x670, 0x670);
    (0x6D6, 0x6DD); (0x6DF, 0x6E8); (0x6EA, 0x6ED); (0x70F, 0x70F);
    (0x711, 0x711); (0x730, 0x74A); (0x7A6, 0x7B0); (0x7EB, 0x7F5);
    (0x7FA, 0x7FA); (0x7FD, 0x7FD); (0x816, 0x82D); (0x859, 0x85B);
    (0x888, 0x888); (0x890, 0x891); (0x898, 0x89F); (0x8C9, 0x902);
    (0x93A, 0x93A); (0x93C, 0x93C); (0x941, 0x948); (0x94D, 0x94D);
    (0x951, 0x957); (0x962, 0x963); (0x971, 0x971); (0x981, 0x981);
    (0x9BC, 0x9BC); (0x9C1, 0x9C4); (0x9CD, 0x9CD); (0x9E2, 0x9E3);
    (0x9FE, 0x9FE); (0xA01, 0xA02); (0xA3C, 0xA3C); (0xA41, 0xA42);
    (0xA47, 0xA48); (0xA4B, 0xA4D); (0xA51, 0xA51); (0xA70, 0xA71);
    (0xA75, 0xA75); (0xA81, 0xA82); (0xABC, 0xABC); (0xAC1, 0xAC5);
    (0xAC7, 0xAC8); (0xACD, 0xACD); (0xAE2, 0xAE3); (0xAFA, 0xAFF);
    (0xB01, 0xB01); (0xB3C, 0xB3C); (0xB3F, 0xB3F); (0xB41, 0xB44);
    (0xB4D, 0xB4D); (0xB55, 0xB56); (0xB62, 0xB63); (0xB82, 0xB82);
    (0xBC0, 0xBC0); (0xBCD, 0xBCD); (0xC00, 0xC00); (0xC04, 0xC04);
    (0xC3C, 0xC3C); (0xC3E, 0xC40); (0xC46, 0xC48); (0xC4A, 0xC4D);
    (0xC55, 0xC56); (0xC62, 0xC63); (0xC81, 0xC81); (0xCBC, 0xCBC);
    (0xCBF, 0xCBF); (0xCC6, 0xCC6); (0xCCC, 0xCCD); (0xCE2, 0xCE3);
    (0xD00, 0xD01); (0xD3B, 0xD3C); (0xD41, 0xD44); (0xD4D, 0xD4D);
    (0xD62, 0xD63); (0xD81, 0xD81); (0xDCA, 0xDCA); (0xDD2, 0xDD4);
    (0xDD6, 0xDD6); (0xE31, 0xE31); (0xE34, 0xE3A); (0xE46, 0xE4E);
    (0xEB1, 0xEB1); (0xEB4, 0xEBC); (0xEC6, 0xEC6); (0xEC8, 0xECD);
    (0xF18, 0xF19); (0xF35, 0xF35); (0xF37, 0xF37); (0xF39, 0xF39);
    (0xF71, 0xF7E); (0xF80, 0xF84); (0xF86, 0xF87); (0xF8D, 0xF97);
    (0xF99, 0xFBC); (0xFC6, 0xFC6); (0x102D, 0x1030); (0x1032, 0x1037);
    (0x1039, 0x103A); (0x103D, 0x103E); (0x1058, 0x1059); (0x105E, 0x1060);
    (0x1071, 0x1074); (0x1082, 0x1082); (0x1085, 0x1086); (0x108D, 0x108D);
    (0x109D, 0x109D); (0x10FC, 0x10FC); (0x135D, 0x135F); (0x1712, 0x1714);
    (0x1732, 0x1733); (0x1752, 0x1753); (0x1772, 0x1773); (0x17B4, 0x17B5);
    (0x17B7, 0x17BD); (0x17C6, 0x17C6); (0x17C9, 0x17D3); (0x17D7, 0x17D7);
    (0x17DD, 0x17DD); (0x180B, 0x180F); (0x1843, 0x1843); (0x1885, 0x1886);
    (0x18A9, 0x18A9); (0x1920, 0x1922); (0x1927, 0x1928); (0x1932, 0x1932);
    (0x1939, 0x193B); (0x1A17, 0x1A18); (0x1A1B, 0x1A1B); (0x1A56, 0x1A56);
    (0x1A58, 0x1A5E); (0x1A60, 0x1A60); (0x1A62, 0x1A62); (0x1A65, 0x1A6C);
    (0x1A73, 0x1A7C); (0x1A7F, 0x1A7F); (0x1AA7, 0x1AA7); (0x1AB0, 0x1ACE);
    (0x1B00, 0x1B03); (0x1B34, 0x1B34); (0x1B36, 0x1B3A); (0x1B3C, 0x1B3C);
    (0x1B42, 0x1B42); (0x1B6B, 0x1B73); (0x1B80, 0x1B81); (0x1BA2, 0x1BA5);
    (0x1BA8, 0x1BA9); (0x1BAB, 0x1BAD); (0x1BE6, 0x1BE6); (0x1BE8, 0x1BE9);
    (0x1BED, 0x1BED); (0x1BEF, 0x1BF1); (0x1C2C, 0x1C33); (0x1C36, 0x1C37);
    (0x1C78, 0x1C7D); (0x1CD0, 0x1CD2); (0x1CD4, 0x1CE0); (0x1CE2, 0x1CE8);
    (0x1CED, 0x1CED); (0x1CF4, 0x1CF4); (0x1CF8, 0x1CF9); (0x1D2C, 0x1D6A);
    (0x1D78, 0x1D78); (0x1D9B, 0x1DFF); (0x1FBD, 0x1FBD); (0x1FBF, 0x1FC1);
    (0x1FCD, 0x1FCF); (0x1FDD, 0x1FDF); (0x1FED, 0x1FEF); (0x1FFD, 0x1FFE);
    (0x200B, 0x200F); (0x2018, 0x2019); (0x2024, 0x2024); (0x2027, 0x2027);
    (0x202A, 0x202E); (0x2060, 0x2064); (0x2066, 0x206F); (0x2071, 0x2071);
    (0x207F, 0x207F); (0x2090, 0x209C); (0x20D0, 0x20F0); (0x2C7C, 0x2C7D);
    (0x2CEF, 0x2CF1); (0x2D6F, 0x2D6F); (0x2D7F, 0x2D7F); (0x2DE0, 0x2DFF);
    (0x2E2F, 0x2E2F); (0x3005, 0x3005); (0x302A, 0x302D); (0x3031, 0x3035);
    (0x303B, 0x303B); (0x3099, 0x309E); (0x30FC, 0x30FE); (0xA015, 0xA015);
    (0xA4F8, 0xA4FD); (0xA60C, 0xA60C); (0xA66F, 0xA672); (0xA674, 0xA67D);
    (0xA67F, 0xA67F); (0xA69C, 0xA69F); (0xA6F0, 0xA6F1); (0xA700, 0xA721);
    (0xA770, 0xA770); (0xA788, 0xA78A); (0xA7F2, 0xA7F4); (0xA7F8, 0xA7F9);
    (0xA802, 0xA802); (0xA806, 0xA806); (0xA80B, 0xA80B); (0xA825, 0xA826);
    (0xA82C, 0xA82C); (0xA8C4, 0xA8C5); (0xA8E0, 0xA8F1); (0xA8FF, 0xA8FF);
    (0xA926, 0xA92D); (0xA947, 0xA951); (0xA980, 0xA982); (0xA9B3, 0xA9B3);
    (0xA9B6, 0xA9B9); (0xA9BC, 0xA9BD); (0xA9CF, 0xA9CF); (0xA9E5, 0xA9E6);
    (0xAA29, 0xAA2E); (0xAA31, 0xAA32); (0xAA35, 0xAA36); (0xAA43, 0xAA43);
    (0xAA4C, 0xAA4C); (0xAA70, 0xAA70); (0xAA7C, 0xAA7C); (0xAAB0, 0xAAB0);
    (0xAAB2, 0xAAB4); (0xAAB7, 0xAAB8); (0xAABE, 0xAABF); (0xAAC1, 0xAAC1);
    (0xAADD, 0xAADD); (0xAAEC, 0xAAED); (0xAAF3, 0xAAF4); (0xAAF6, 0xAAF6);
    (0xAB5B, 0xAB5F); (0xAB69, 0xAB6B); (0xABE5, 0xABE5); (0xABE8, 0xABE8);
    (0xABED, 0xABED); (0xFB1E, 0xFB1E); (0xFBB2, 0xFBC2); (0xFE00, 0xFE0F);
    (0xFE13, 0xFE13); (0xFE20, 0xFE2F); (0xFE52, 0xFE52); (0xFE55, 0xFE55);
    (0xFEFF, 0xFEFF); (0xFF07, 0xFF07); (0xFF0E, 0xFF0E); (0xFF1A, 0xFF1A);
    (0xFF3E, 0xFF3E); (0xFF40, 0xFF40); (0xFF70, 0xFF70); (0xFF9E, 0xFF9F);
    (0xFFE3, 0xFFE3); (0xFFF9, 0xFFFB); (0x101FD, 0x101FD);
    (0x102E0, 0x102E0); (0x10376, 0x1037A); (0x10780, 0x10785);
    (0x10787, 0x107B0); (0x107B2, 0x107BA); (0x10A01, 0x10A03);
    (0x10A05, 0x10A06); (0x10A0C, 0x10A0F); (0x10A38, 0x10A3A);
    (0x10A3F, 0x10A3F); (0x10AE5, 0x10AE6); (0x10D24, 0x10D27);
    (0x10EAB, 0x10EAC); (0x10F46, 0x10F50); (0x10F82, 0x10F85);
    (0x11001, 0x11001); (0x11038, 0x11046); (0x11070, 0x11070);
    (0x11073, 0x11074); (0x1107F, 0x11081); (0x110B3, 0x110B6);
    (0x110B9, 0x110BA); (0x110BD, 0x110BD); (0x110C2, 0x110C2);
    (0x110CD, 0x110CD); (0x11100, 0x11102); (0x11127, 0x1112B);
    (0x1112D, 0x11134); (0x11173, 0x11173); (0x11180, 0x11181);
    (0x111B6, 0x111BE); (0x111C9, 0x111CC); (0x111CF, 0x111CF);
    (0x1122F, 0x11231); (0x11234, 0x11234); (0x11236, 0x11237);
    (0x1123E, 0x1123E); (0x112DF, 0x112DF); (0x112E3, 0x112EA);
    (0x11300, 0x11301); (0x1133B, 0x1133C); (0x11340, 0x11340);
    (0x11366, 0x1136C); (0x11370, 0x11374); (0x11438, 0x1143F);
    (0x11442, 0x11444); (0x11446, 0x11446); (0x1145E, 0x1145E);
    (0x114B3, 0x114B8); (0x114BA, 0x114BA); (0x114BF, 0x114C0);
    (0x114C2, 0x114C3); (0x115B2, 0x115B5); (0x115BC, 0x115BD);
    (0x115BF, 0x115C0); (0x115DC, 0x115DD); (0x11633, 0x1163A);
    (0x1163D, 0x1163D); (0x1163F, 0x11640); (0x116AB, 0x116AB);
    (0x116AD, 0x116AD); (0x116B0, 0x116B5); (0x116B7, 0x116B7);
    (0x1171D, 0x1171F); (0x11722, 0x11725); (0x11727, 0x1172B);
    (0x1182F, 0x11837); (0x11839, 0x1183A); (0x1193B, 0x1193C);
    (0x1193E, 0x1193E); (0x11943, 0x11943); (0x119D4, 0x119D7);
    (0x119DA, 0x119DB); (0x119E0, 0x119E0); (0x11A01, 0x11A0A);
    (0x11A33, 0x11A38); (0x11A3B, 0x11A3E); (0x11A47, 0x11A47);
    (0x11A51, 0x11A56); (0x11A59, 0x11A5B); (0x11A8A, 0x11A96);
    (0x11A98, 0x11A99); (0x11C30, 0x11C36); (0x11C38, 0x11C3D);
    (0x11C3F, 0x11C3F); (0x11C92, 0x11CA7); (0x11CAA, 0x11CB0);
    (0x11CB2, 0x11CB3); (0x11CB5, 0x11CB6); (0x11D31, 0x11D36);
    (0x11D3A, 0x11D3A); (0x11D3C, 0x11D3D); (0x11D3F, 0x11D45);
    (0x11D47, 0x11D47); (0x11D90, 0x11D91); (0x11D95, 0x11D95);
    (0x11D97, 0x11D97); (0x11EF3, 0x11EF4); (0x13430, 0x13438);
    (0x16AF0, 0x16AF4); (0x16B30, 0x16B36); (0x16B40, 0x16B43);
    (0x16F4F, 0x16F4F); (0x16F8F, 0x16F9F); (0x16FE0, 0x16FE1);
    (0x16FE3, 0x16FE4); (0x1AFF0, 0x1AFF3); (0x1AFF5, 0x1AFFB);
    (0x1AFFD, 0x1AFFE); (0x1BC9D, 0x1BC9E); (0x1BCA0, 0x1BCA3);
    (0x1CF00, 0x1CF2D); (0x1CF30, 0x1CF46); (0x1D167, 0x1D169);
    (0x1D173, 0x1D182); (0x1D185, 0x1D18B); (0x1D1AA, 0x1D1AD);
    (0x1D242, 0x1D244); (0x1DA00, 0x1DA36); (0x1DA3B, 0x1DA6C);
    (0x1DA75, 0x1DA75); (0x1DA84, 0x1DA84); (0x1DA9B, 0x1DA9F);
    (0x1DAA1, 0x1DAAF); (0x1E000, 0x1E006); (0x1E008, 0x1E018);
    (0x1E01B, 0x1E021); (0x1E023, 0x1E024); (0x1E026, 0x1E02A);
    (0x1E130, 0x1E13D); (0x1E2AE, 0x1E2AE); (0x1E2EC, 0x1E2EF);
    (0x1E8D0, 0x1E8D6); (0x1E944, 0x1E94B); (0x1F3FB, 0x1F3FF);
    (0xE0001, 0xE0001); (0xE0020, 0xE007F); (0xE0100, 0xE01EF)
  ]%N.

(** ** UTF-8 *)

Definition bits (a : ascii) : N := N_of_ascii a.

Definition within (lo hi n : N) : bool := ((lo <=? n) && (n <=? hi))%N.

(** A continuation byte [10xxxxxx], and the six bits it carries. *)
Definition continuation (a : ascii) : bool := within 0x80 0xBF (bits a).
Definition low6 (a : ascii) : N := (bits a - 0x80)%N.

(** The code point of a well-formed sequence of two, three or four bytes:
    a lead byte and continuation bytes, shortest form, no surrogate,
    nothing beyond U+10FFFF. *)
Definition decode2 (a b : ascii) : option N :=
  let n := ((bits a - 0xC0) * 0x40 + low6 b)%N in
  if within 0xC0 0xDF (bits a) && continuation b && within 0x80 0x7FF n
  then Some n else None.

Definition decode3 (a b c : ascii) : option N :=
  let n := ((bits a - 0xE0) * 0x1000 + low6 b * 0x40 + low6 c)%N in
  if within 0xE0 0xEF (bits a) && continuation b && continuation c
     && within 0x800 0xFFFF n && negb (within 0xD800 0xDFFF n)
  then Some n else None.

Definition decode4 (a b c d : ascii) : option N :=
  let n := ((bits a - 0xF0) * 0x40000 + low6 b * 0x1000 + low6 c * 0x40
            + low6 d)%N in
  if within 0xF0 0xF7 (bits a) && continuation b && continuation c
     && continuation d && within 0x10000 0x10FFFF n
  then Some n else None.

(** A byte that belongs to no well-formed sequence is kept, as a value
    beyond the code points. *)
Definition stray (a : ascii) : N := (0x110000 + bits a)%N.

(** The code points of a string. *)
Fixpoint code_points (s : string) : list N :=
  match s with
  | EmptyString => []
  | String a s1 =>
      if (bits a <? 0x80)%N then bits a :: code_points s1
      else
        match s1 with
        | EmptyString => stray a :: code_points s1
        | String b s2 =>
            match decode2 a b with
            | Some n => n :: code_points s2
            | None =>
                match s2 with
                | EmptyString => stray a :: code_points s1
                | String c s3 =>
                    match decode3 a b c with
                    | Some n => n :: code_points s3
                    | None =>
                        match s3 with
                        | EmptyString => stray a :: code_points s1
                        | String d s4 =>
                            match decode4 a b c d with
                            | Some n => n :: code_points s4
                            | None => stray a :: code_points s1
                            end
                        end
                    end
                end
            end
        end
  end.

Definition byte_string (n : N) : string := String (ascii_of_N n) EmptyString.

(** The UTF-8 bytes of a code point. *)
Definition utf8 (n : N) : string :=
  (if n <? 0x80 then byte_string n
   else if n <? 0x800 then
     byte_string (0xC0 + n / 0x40) +:+ byte_string (0x80 + n mod 0x40)
   else if n <? 0x10000 then
     byte_string (0xE0 + n / 0x1000)
     +:+ byte_string (0x80 + (n / 0x40) mod 0x40)
     +:+ byte_string (0x80 + n mod 0x40)
   else if n <? 0x110000 then
     byte_string (0xF0 + n / 0x40000)
     +:+ byte_string (0x80 + (n / 0x1000) mod 0x40)
     +:+ byte_string (0x80 + (n / 0x40) mod 0x40)
     +:+ byte_string (0x80 + n mod 0x40)
   else byte_string (n - 0x110000))%N.

Fixpoint of_code_points (l : list N) : string :=
  match l with
  | [] => EmptyString
  | n :: rest => utf8 n +:+ of_code_points rest
  end.

(** ** Case conversion *)

(** The entry of a code point in a table in ascending order. *)
Fixpoint lookup {V} (n : N) (table : list (N * V)) : option V :=
  match table with
  | [] => None
  | (k, v) :: rest =>
      if (n <? k)%N then None
      else if (n =? k)%N then Some v
      else lookup n rest
  end.

(** Membership in a list of ranges in ascending order. *)
Fixpoint in_ranges (n : N) (ranges : list (N * N)) : bool :=
  match ranges with
  | [] => false
  | (lo, hi) :: rest =>
      if (n <? lo)%N then false
      else if (n <=? hi)%N then true
      else in_ranges n rest
  end.

Definition uppercase (n : N) : list N :=
  match lookup n Uppercase_Special with
  | Some l => l
  | None => [default n (lookup n Uppercase_Mapping)]
  end.

Definition lowercase (n : N) : list N :=
  match lookup n Lowercase_Special with
  | Some l => l
  | None => [default n (lookup n Lowercase_Mapping)]
  end.

Definition cased (n : N) : bool := in_ranges n Cased.
Definition case_ignorable (n : N) : bool := in_ranges n Case_Ignorable.

Definition toUppercase (l : list N) : list N := flat_map uppercase l.

(** The one mapping that depends on the context: capital sigma becomes
    final sigma when a cased letter comes before it, and none after it,
    case-ignorable code points in between set aside (SpecialCasing,
    Final_Sigma). *)
Definition SIGMA : N := 0x3A3.
Definition FINAL_SIGMA : N := 0x3C2.

Fixpoint cased_follows (l : list N) : bool :=
  match l with
  | [] => false
  | n :: rest => if case_ignorable n then cased_follows rest else cased n
  end.

(** [before]: a cased letter came before, with only case-ignorable code
    points since. *)
Fixpoint lowercase_from (before : bool) (l : list N) : list N :=
  match l with
  | [] => []
  | n :: rest =>
      (if (n =? SIGMA)%N && before && negb (cased_follows rest)
       then [FINAL_SIGMA] else lowercase n)
      ++ lowercase_from (if case_ignorable n then before else cased n) rest
  end.

Definition toLowercase (l : list N) : list N := lowercase_from false l.

End Unicode.

(* ===================================================================== *)
(** * JavaScript string primitives *)
(* ===================================================================== *)

Module Js.

(** The byte value of a character. *)
Definition byte (c : ascii) : nat := nat_of_ascii c.

Definition between (lo hi n : nat) : bool := (lo <=? n) && (n <=? hi).

(** [\d] in a regular expression without the [u]/[v] flags: [0-9] only. *)
Definition is_digit (c : ascii) : bool := between 48 57 (byte c).

(** ECMAScript WhiteSpace and LineTerminator code points, as UTF-8:
    one byte   TAB LF VT FF CR SP;
    two bytes  U+00A0;
    three      U+1680, U+2000..U+200A, U+2028, U+2029, U+202F, U+205F,
               U+3000, U+FEFF. *)
Definition is_ws1 (a : ascii) : bool :=
  between 9 13 (byte a) || (byte a =? 32).

Definition is_ws2 (a b : ascii) : bool :=
  (byte a =? 194) && (byte b =? 160).

Definition is_ws3 (a b c : ascii) : bool :=
  ((byte a =? 225) && (byte b =? 154) && (byte c =? 128))
  || ((byte a =? 226) && (byte b =? 128)
      && (between 128 138 (byte c) || between 168 169 (byte c)
          || (byte c =? 175)))
  || ((byte a =? 226) && (byte b =? 129) && (byte c =? 159))
  || ((byte a =? 227) && (byte b =? 128) && (byte c =? 128))
  || ((byte a =? 239) && (byte b =? 187) && (byte c =? 191)).

(** Strips white space from the front.  With [fwd = false] the string is
    read back to front, so multi-byte characters arrive last byte first. *)
Fixpoint strip (fwd : bool) (s : string) : string :=
  match s with
  | EmptyString => EmptyString
  | String a s1 =>
      if is_ws1 a then strip fwd s1
      else
        match s1 with
        | EmptyString => s
        | String b s2 =>
            if (if fwd then is_ws2 a b else is_ws2 b a) then strip fwd s2
            else
              match s2 with
              | EmptyString => s
              | String c s3 =>
                  if (if fwd then is_ws3 a b c else is_ws3 c b a)
                  then strip fwd s3
                  else s
              end
        end
  end.

Definition trimStart (s : string) : string := strip true s.
Definition trimEnd (s : string) : string :=
  String.rev (strip false (String.rev s)).

(** [String.prototype.trim] *)
Definition trim (s : string) : string := trimEnd (trimStart s).

(** [String.prototype.toUpperCase] / [toLowerCase] *)
Definition toUpperCase (s : string) : string :=
  Unicode.of_code_points (Unicode.toUppercase (Unicode.code_points s)).

Definition toLowerCase (s : string) : string :=
  Unicode.of_code_points (Unicode.toLowercase (Unicode.code_points s)).

Arguments toUpperCase : simpl never.
Arguments toLowerCase : simpl never.

(** [String.prototype.includes] *)
Fixpoint includes (s pat : string) : bool :=
  String.prefix pat s
  || match s with
     | EmptyString => false
     | String _ s' => includes s' pat
     end.

(** [Array.prototype.join] *)
Fixpoint join (sep : string) (l : list string) : string :=
  match l with
  | [] => ""
  | [x] => x
  | x :: rest => x +:+ sep +:+ join sep rest
  end.

Fixpoint all_chars (p : ascii -> bool) (s : string) : bool :=
  match s with
  | EmptyString => true
  | String c s' => p c && all_chars p s'
  end.

(** [/^\d{10,14}$/.test(s)]: the whole input is ten to fourteen digits
    (no [m] flag, so [$] only matches at the very end). *)
Definition test_digits_10_14 (s : string) : bool :=
  all_chars is_digit s && between 10 14 (String.length s).

(** ToBoolean of a string: only the empty string is falsy. *)
Definition truthy (s : string) : bool :=
  match s with EmptyString => false | _ => true end.

End Js.

(** The values a caller can hand over where a string is expected: an absent
    query parameter or body member is [undefined], JSON may carry [null]. *)
Inductive JsValue : Type :=
| JsUndefined
| JsNull
| JsString (s : string).

(* ===================================================================== *)
(** * validateReferenceNumber *)
(* ===================================================================== *)

(** The validation result object, one constructor per object literal:
    [{valid: false, error}] and [{valid: true, refNo}]. *)
Inductive Validation : Type :=
| ValidationError (error : string)
| ValidationOk (refNo : string).

Definition valid (v : Validation) : bool :=
  match v with ValidationOk _ => true | ValidationError _ => false end.

(** [!v] *)
Definition falsy (v : JsValue) : bool :=
  match v with
  | JsUndefined | JsNull => true
  | JsString s => negb (Js.truthy s)
  end.

(** [String(v)], also the conversion [URLSearchParams] applies to the
    members of a record initialiser. *)
Definition String_of (v : JsValue) : string :=
  match v with
  | JsUndefined => "undefined"
  | JsNull => "null"
  | JsString s => s
  end.

Definition validateReferenceNumber (refNo : JsValue) : Validation :=
  if falsy refNo then
    ValidationError "Reference number is required"
  else
    let refNoStr := Js.trim (String_of refNo) in
    if negb (Js.test_digits_10_14 refNoStr) then
      ValidationError "Reference number must be 10-14 digits"
    else
      ValidationOk refNoStr.

(* ===================================================================== *)
(** * The company registry *)
(* ===================================================================== *)

Record Company : Type := mkCompany {
  name : string;
  code : string;
  url : string;
  refPattern : string   (* source text of the regular expression *)
}.

Definition refPattern_10_14 : string := "^\d{10,14}$".

(** The object literal [COMPANIES], in property order. *)
Definition COMPANIES : list (string * Company) :=
  [ ("HESCO", mkCompany "Hyderabad Electric Supply Company" "hesco"
                "https://bill.pitc.com.pk/hescobill" refPattern_10_14);
    ("LESCO", mkCompany "Lahore Electric Supply Company" "lesco"
                "https://bill.pitc.com.pk/lescobill" refPattern_10_14);
    ("FESCO", mkCompany "Faisalabad Electric Supply Company" "fesco"
                "https://bill.pitc.com.pk/fescobill" refPattern_10_14);
    ("IESCO", mkCompany "Islamabad Electric Supply Company" "iesco"
                "https://bill.pitc.com.pk/iescobill" refPattern_10_14);
    ("MEPCO", mkCompany "Multan Electric Power Company" "mepco"
                "https://bill.pitc.com.pk/mepcobill" refPattern_10_14);
    ("GEPCO", mkCompany "Gujranwala Electric Power Company" "gepco"
                "https://bill.pitc.com.pk/gepcobill" refPattern_10_14);
    ("PESCO", mkCompany "Peshawar Electric Supply Company" "pesco"
                "https://bill.pitc.com.pk/pescobill" refPattern_10_14);
    ("QESCO", mkCompany "Quetta Electric Supply Company" "qesco"
                "https://bill.pitc.com.pk/qescobill" refPattern_10_14);
    ("SEPCO", mkCompany "Sukkur Electric Power Company" "sepco"
                "https://bill.pitc.com.pk/sepcobill" refPattern_10_14) ].

(** [Object.keys(o)] and [Object.values(o)] *)
Definition Object_keys {V} (o : list (string * V)) : list string := map fst o.
Definition Object_values {V} (o : list (string * V)) : list V := map snd o.

(** [o[k]] on the object's own properties. *)
Fixpoint get_property {V} (o : list (string * V)) (k : string) : option V :=
  match o with
  | [] => None
  | (k', v) :: rest => if String.eqb k' k then Some v else get_property rest k
  end.

(** The property names every object inherits from [Object.prototype]; a
    key among them would make [COMPANIES[key]] a function, not a company.
    [getCompanyByCode_never_inherited] shows no upper-cased key is one. *)
Definition Object_prototype_names : list string :=
  [ "constructor"; "__defineGetter__"; "__defineSetter__"; "hasOwnProperty";
    "__lookupGetter__"; "__lookupSetter__"; "isPrototypeOf";
    "propertyIsEnumerable"; "toString"; "valueOf"; "__proto__";
    "toLocaleString" ].

(** [COMPANIES[upperCode] || null] *)
Definition getCompanyByCode (code : string) : option Company :=
  let upperCode := Js.toUpperCase code in
  get_property COMPANIES upperCode.

Definition getSupportedCompanies : list (string * string) :=
  map (fun key =>
         match get_property COMPANIES key with
         | Some c => (code c, name c)
         | None => ("", "")
         end)
      (Object_keys COMPANIES).

(* ===================================================================== *)
(** * Effects: exceptions, the call log, mutable state *)
(* ===================================================================== *)

(** A thrown JavaScript error, as far as the code inspects it. *)
Record JsError : Type := mkError {
  err_code : option string;   (* [error.code], absent on most errors *)
  message : string            (* [error.message] *)
}.

(** The outcome of an expression that may throw. *)
Inductive Exc (A : Type) : Type :=
| Return (a : A)
| Throw (e : JsError).
Arguments Return {A} a.
Arguments Throw {A} e.

(** Request options handed to axios. *)
Record Config : Type := mkConfig {
  timeout : N;
  headers : list (string * string);
  maxRedirects : option nat
}.

(** What a run does to the outside world, in order. *)
Inductive Event : Type :=
| EvGet (url : string) (config : Config)
| EvPost (url : string) (body : string) (config : Config)
| EvSelect (selector : string)
| EvConsoleError (args : list string).

(** A computation over a mutable state [S]: it returns or throws, leaves a
    state behind either way, and logs its calls. *)
Definition Prog (S A : Type) : Type := S -> Exc A * S * list Event.

Definition ret {S A} (a : A) : Prog S A := fun s => (Return a, s, []).

(** Puts the calls made so far in front of an outcome's log. *)
Definition prepend {S A} (log : list Event) (o : Exc A * S * list Event)
  : Exc A * S * list Event :=
  let '(r, s, log') := o in (r, s, log ++ log').

Definition bind {S A B} (m : Prog S A) (k : A -> Prog S B) : Prog S B :=
  fun s =>
    match m s with
    | (Return a, s1, log1) => prepend log1 (k a s1)
    | (Throw e, s1, log1) => (Throw e, s1, log1)
    end.

Notation "x <- m ;; k" := (bind m (fun x => k))
  (at level 100, m at next level, right associativity).
Notation "m ;;; k" := (bind m (fun _ => k))
  (at level 100, right associativity).

(** [try { m } catch (e) { handler e }]: the state reached when the fault
    was raised is the state the handler starts from. *)
Definition try_catch {S A} (m : Prog S A) (handler : JsError -> Prog S A)
  : Prog S A :=
  fun s =>
    match m s with
    | (Return a, s1, log1) => (Return a, s1, log1)
    | (Throw e, s1, log1) => prepend log1 (handler e s1)
    end.

Definition lift {S A} (x : Exc A) : Prog S A := fun s => (x, s, []).

Definition emit {S} (ev : Event) : Prog S unit :=
  fun s => (Return tt, s, [ev]).

Definition modify {S} (f : S -> S) : Prog S unit :=
  fun s => (Return tt, f s, []).

(** [const obj = init; m; return obj]: runs [m] on a fresh local object and
    hands the object back. *)
Definition with_object {S O} (init : O) (m : Prog O unit) : Prog S O :=
  fun s =>
    match m init with
    | (Return _, o, log) => (Return o, s, log)
    | (Throw e, _, log) => (Throw e, s, log)
    end.

(* ===================================================================== *)
(** * cheerio: a loaded document seen through its queries *)
(* ===================================================================== *)

(** An element of a loaded document, as the three methods the code calls
    on a wrapped element answer; each may raise. *)
#[warnings="-register-all"]
Inductive Element : Type := mkElement {
  el_text : Exc string;                       (* [$(el).text()] *)
  el_val : Exc JsValue;                       (* [$(el).val()] *)
  el_find : string -> Exc (list Element)      (* [$(el).find(selector)] *)
}.

(** The function [$] that [cheerio.load] returns. *)
Record Cheerio : Type := mkCheerio {
  query : string -> Exc (list Element);       (* [$(selector)] *)
  html : Exc string                           (* [$.html()] *)
}.

(** Response bodies are kept in loaded form. *)
Definition cheerio_load (data : Cheerio) : Cheerio := data.

(** [$(selector)] *)
Definition select {S} (doc : Cheerio) (selector : string)
  : Prog S (list Element) :=
  emit (EvSelect selector) ;;; lift (query doc selector).

(** [.text()] of a selection: the texts of its elements, concatenated. *)
Fixpoint text (els : list Element) : Exc string :=
  match els with
  | [] => Return ""
  | el :: rest =>
      match el_text el with
      | Throw e => Throw e
      | Return t =>
          match text rest with
          | Throw e => Throw e
          | Return ts => Return (t +:+ ts)
          end
      end
  end.

(** [.val()] of a selection: the value of its first element. *)
Definition val (els : list Element) : Exc JsValue :=
  match els with
  | [] => Return JsUndefined
  | el :: _ => el_val el
  end.

(** [.first()] *)
Definition first (els : list Element) : list Element :=
  match els with
  | [] => []
  | el :: _ => [el]
  end.

(** [.each(callback)]; the callbacks here never return [false]. *)
Fixpoint each {S} (els : list Element) (callback : Element -> Prog S unit)
  : Prog S unit :=
  match els with
  | [] => ret tt
  | el :: rest => callback el ;;; each rest callback
  end.

(* ===================================================================== *)
(** * axios and URLSearchParams *)
(* ===================================================================== *)

Record Response : Type := mkResponse {
  response_data : Cheerio;                  (* [response.data] *)
  set_cookie : option (list string)         (* [response.headers["set-cookie"]] *)
}.

(** The network as the lookup meets it: one answer per request. *)
Record Axios : Type := mkAxios {
  net_get : string -> Config -> Exc Response;
  net_post : string -> string -> Config -> Exc Response
}.

Definition axios_get {S} (axios : Axios) (url : string) (config : Config)
  : Prog S Response :=
  emit (EvGet url config) ;;; lift (net_get axios url config).

Definition axios_post {S} (axios : Axios) (url body : string)
    (config : Config) : Prog S Response :=
  emit (EvPost url body config) ;;; lift (net_post axios url body config).

Module UrlEncoded.

Definition hex_digit (n : nat) : ascii :=
  if n <? 10 then ascii_of_nat (48 + n) else ascii_of_nat (55 + n).

(** Bytes the application/x-www-form-urlencoded serializer leaves alone:
    ASCII alphanumerics and [* - . _]. *)
Definition unreserved (c : ascii) : bool :=
  let b := Js.byte c in
  Js.between 48 57 b || Js.between 65 90 b || Js.between 97 122 b
  || (b =? 42) || (b =? 45) || (b =? 46) || (b =? 95).

Definition encode_byte (c : ascii) : string :=
  let b := Js.byte c in
  if b =? 32 then "+"
  else if unreserved c then String c ""
  else String "%" (String (hex_digit (b / 16))
                     (String (hex_digit (b mod 16)) "")).

Fixpoint encode (s : string) : string :=
  match s with
  | EmptyString => ""
  | String c s' => encode_byte c +:+ encode s'
  end.

(** [new URLSearchParams(record)]: every member converted with String. *)
Definition URLSearchParams (init : list (string * JsValue))
  : list (string * string) :=
  map (fun '(k, v) => (k, String_of v)) init.

(** [params.toString()] *)
Definition toString (params : list (string * string)) : string :=
  Js.join "&" (map (fun '(k, v) => encode k +:+ "=" +:+ encode v) params).

End UrlEncoded.

(* ===================================================================== *)
(** * Bill records and lookup results *)
(* ===================================================================== *)

(** [billData]: the three nested objects start empty and gain properties
    by assignment, so they are finite maps from property name to text. *)
Record BillData : Type := mkBillData {
  referenceNumber : string;
  bill_company : string;                   (* [billData.company] *)
  consumerDetails : gmap string string;
  billDetails : gmap string string;
  charges : gmap string string;
  rawHtml : option string;                 (* [null] until the scan is done *)
  parseError : option string               (* absent unless the scan failed *)
}.

(** [billData.consumerDetails[k] = v] and its siblings. *)
Definition set_consumerDetails (k v : string) (b : BillData) : BillData :=
  mkBillData (referenceNumber b) (bill_company b)
    (<[k := v]> (consumerDetails b)) (billDetails b) (charges b)
    (rawHtml b) (parseError b).

Definition set_billDetails (k v : string) (b : BillData) : BillData :=
  mkBillData (referenceNumber b) (bill_company b)
    (consumerDetails b) (<[k := v]> (billDetails b)) (charges b)
    (rawHtml b) (parseError b).

Definition set_charges (k v : string) (b : BillData) : BillData :=
  mkBillData (referenceNumber b) (bill_company b)
    (consumerDetails b) (billDetails b) (<[k := v]> (charges b))
    (rawHtml b) (parseError b).

Definition set_rawHtml (h : string) (b : BillData) : BillData :=
  mkBillData (referenceNumber b) (bill_company b)
    (consumerDetails b) (billDetails b) (charges b)
    (Some h) (parseError b).

Definition set_parseError (m : string) (b : BillData) : BillData :=
  mkBillData (referenceNumber b) (bill_company b)
    (consumerDetails b) (billDetails b) (charges b)
    (rawHtml b) (Some m).

(** What [getPITCBill] resolves to, one constructor per object literal:
    [{success: false, error}], [{success: false, error, refNo, company}],
    [{success: true, refNo, company, companyName, data}]. *)
Inductive Result : Type :=
| Failure (error : string)
| PortalFailure (error refNo company : string)
| Success (refNo company companyName : string) (data : BillData).

Definition success (r : Result) : bool :=
  match r with Success _ _ _ _ => true | _ => false end.

Definition error_of (r : Result) : option string :=
  match r with
  | Failure e | PortalFailure e _ _ => Some e
  | Success _ _ _ _ => None
  end.

(* ===================================================================== *)
(** * parseBillDetails *)
(* ===================================================================== *)

(** The callback of [tableRows.each]. *)
Definition rowCallback (element : Element) : Prog BillData unit :=
  cells <- lift (el_find element "td") ;;
  if 2 <=? length cells then
    match cells with
    | cell0 :: cell1 :: _ =>
        text0 <- lift (el_text cell0) ;;
        let label := Js.toLowerCase (Js.trim text0) in
        text1 <- lift (el_text cell1) ;;
        let value := Js.trim text1 in
        if Js.includes label "consumer" || Js.includes label "name" then
          modify (set_consumerDetails "name" value)
        else if Js.includes label "address" then
          modify (set_consumerDetails "address" value)
        else if Js.includes label "customer" || Js.includes label "id" then
          modify (set_consumerDetails "customerId" value)
        else if Js.includes label "tariff" then
          modify (set_billDetails "tariff" value)
        else if Js.includes label "due date" then
          modify (set_billDetails "dueDate" value)
        else if Js.includes label "issue date"
                || Js.includes label "bill date" then
          modify (set_billDetails "issueDate" value)
        else if Js.includes label "reading date" then
          modify (set_billDetails "readingDate" value)
        else if Js.includes label "current reading" then
          modify (set_billDetails "currentReading" value)
        else if Js.includes label "previous reading" then
          modify (set_billDetails "previousReading" value)
        else if Js.includes label "units"
                || Js.includes label "consumption" then
          modify (set_billDetails "unitsConsumed" value)
        else if Js.includes label "amount payable"
                || Js.includes label "total amount" then
          modify (set_charges "totalAmount" value)
        else if Js.includes label "after due date" then
          modify (set_charges "amountAfterDueDate" value)
        else if Js.includes label "electricity charges" then
          modify (set_charges "electricityCharges" value)
        else if Js.includes label "gst" || Js.includes label "tax" then
          modify (set_charges "gst" value)
        else ret tt
    | _ => ret tt
    end
  else ret tt.

Definition dquote : string := String (ascii_of_nat 34) "".

(** The selector ['[id*="amount"], [class*="amount"]']. *)
Definition amount_selector : string :=
  "[id*=" +:+ dquote +:+ "amount" +:+ dquote +:+ "], [class*="
  +:+ dquote +:+ "amount" +:+ dquote +:+ "]".

(** The [try] block after the row loop: the display amount and the raw
    markup. *)
Definition parseBillDetails_rest (doc : Cheerio) : Prog BillData unit :=
  matched <- select doc amount_selector ;;
  let billAmountElement := first matched in
  (if 0 <? length billAmountElement then
     amount <- lift (text billAmountElement) ;;
     modify (set_charges "displayAmount" (Js.trim amount))
   else ret tt) ;;;
  markup <- lift (html doc) ;;
  modify (set_rawHtml markup).

(** The body of the [try] block. *)
Definition parseBillDetails_try (doc : Cheerio) : Prog BillData unit :=
  tableRows <- select doc "table tr" ;;
  each tableRows rowCallback ;;;
  parseBillDetails_rest doc.

(** The [catch] block. *)
Definition parseBillDetails_catch (parseError : JsError)
  : Prog BillData unit :=
  emit (EvConsoleError ["Error parsing bill details:"; message parseError]) ;;;
  modify (set_parseError (message parseError)).

Definition parseBillDetails {S} (doc : Cheerio) (refNo companyCode : string)
  : Prog S BillData :=
  let billData :=
    {| referenceNumber := refNo;
       bill_company := companyCode;
       consumerDetails := ∅;
       billDetails := ∅;
       charges := ∅;
       rawHtml := None;
       parseError := None |} in
  with_object billData
    (try_catch (parseBillDetails_try doc) parseBillDetails_catch).

(* ===================================================================== *)
(** * getPITCBill *)
(* ===================================================================== *)

Definition USER_AGENT : string :=
  "Mozilla/5.0 (Windows NT 10.0; Win64; x64) AppleWebKit/537.36 (KHTML, like Gecko) Chrome/91.0.4472.124 Safari/537.36".

Definition token_selector : string :=
  "input[name=" +:+ dquote +:+ "__RequestVerificationToken" +:+ dquote +:+ "]".

(** [Object.keys(COMPANIES).map((k) => k.toLowerCase()).join(", ")] behind
    the fixed prefix. *)
Definition invalid_company_message : string :=
  "Invalid company code. Supported: "
  +:+ Js.join ", " (map Js.toLowerCase (Object_keys COMPANIES)).

(** [getResponse.headers["set-cookie"]?.join("; ") || ""] *)
Definition cookie_header (r : Response) : string :=
  match set_cookie r with
  | None => ""
  | Some cookies =>
      let joined := Js.join "; " cookies in
      if Js.truthy joined then joined else ""
  end.

(** The record handed to [new URLSearchParams]. *)
Definition form_fields
    (viewState viewStateGenerator eventValidation
       requestVerificationToken : JsValue) (refNo : string)
  : list (string * JsValue) :=
  [ ("__VIEWSTATE", viewState);
    ("__VIEWSTATEGENERATOR", viewStateGenerator);
    ("__EVENTVALIDATION", eventValidation);
    ("__RequestVerificationToken", requestVerificationToken);
    ("rbSearchByList", JsString "refno");
    ("searchTextBox", JsString refNo);
    ("ruCodeTextBox", JsString "");
    ("btnSearch", JsString "Search") ].

Definition get_config : Config :=
  {| timeout := 30000%N;
     headers := [("User-Agent", USER_AGENT)];
     maxRedirects := None |}.

Definition post_config (baseUrl : string) (getResponse : Response) : Config :=
  {| timeout := 30000%N;
     headers := [ ("Content-Type", "application/x-www-form-urlencoded");
                  ("User-Agent", USER_AGENT);
                  ("Referer", baseUrl);
                  ("Cookie", cookie_header getResponse) ];
     maxRedirects := Some 5 |}.

(** STEP 4 and STEP 5: reading the portal's answer to the form. *)
Definition interpretResponse (company : Company) (refNo : string)
    (postResponse : Response) : Prog unit Result :=
  (* STEP 4 *)
  let result := cheerio_load (response_data postResponse) in
  ua <- select result "#ua" ;;
  uaText <- lift (text ua) ;;
  let errorDiv := Js.trim uaText in
  if Js.truthy errorDiv then
    ret (PortalFailure errorDiv refNo (code company))
  else
    (* STEP 5 *)
    billData <- parseBillDetails result refNo (code company) ;;
    ret (Success refNo (code company) (name company) billData).

(** STEP 3: the form submission, and what follows it. *)
Definition submitForm (axios : Axios) (company : Company) (refNo : string)
    (getResponse : Response)
    (viewState viewStateGenerator eventValidation
       requestVerificationToken : JsValue) : Prog unit Result :=
  let baseUrl := url company in
  let formData :=
    UrlEncoded.URLSearchParams
      (form_fields viewState viewStateGenerator eventValidation
         requestVerificationToken refNo) in
  postResponse <-
    axios_post axios baseUrl (UrlEncoded.toString formData)
      (post_config baseUrl getResponse) ;;
  interpretResponse company refNo postResponse.

(** The body of the [try] block. *)
Definition getPITCBill_try (axios : Axios) (refNo companyCode : string)
  : Prog unit Result :=
  match getCompanyByCode companyCode with
  | None => ret (Failure invalid_company_message)
  | Some company =>
      let baseUrl := url company in
      (* STEP 1 *)
      getResponse <- axios_get axios baseUrl get_config ;;
      (* STEP 2 *)
      let doc := cheerio_load (response_data getResponse) in
      sel1 <- select doc "#__VIEWSTATE" ;;
      viewState <- lift (val sel1) ;;
      sel2 <- select doc "#__VIEWSTATEGENERATOR" ;;
      viewStateGenerator <- lift (val sel2) ;;
      sel3 <- select doc "#__EVENTVALIDATION" ;;
      eventValidation <- lift (val sel3) ;;
      sel4 <- select doc token_selector ;;
      requestVerificationToken <- lift (val sel4) ;;
      if falsy viewState || falsy viewStateGenerator || falsy eventValidation
      then
        ret (Failure "Failed to extract required tokens from PITC portal")
      else
        submitForm axios company refNo getResponse
          viewState viewStateGenerator eventValidation
          requestVerificationToken
  end.

Definition code_is (e : JsError) (c : string) : bool :=
  match err_code e with
  | Some c' => String.eqb c' c
  | None => false
  end.

(** The [catch] block. *)
Definition getPITCBill_catch (error : JsError) : Prog unit Result :=
  if code_is error "ECONNABORTED" || code_is error "UND_ERR_CONNECT_TIMEOUT"
  then
    ret (Failure
           "Connection timeout - PITC server may be geo-restricted or down")
  else if code_is error "ENOTFOUND" || code_is error "ECONNREFUSED" then
    ret (Failure "Unable to connect to PITC server")
  else
    ret (Failure (message error)).

Definition getPITCBill (axios : Axios) (refNo companyCode : string)
  : Prog unit Result :=
  try_catch (getPITCBill_try axios refNo companyCode) getPITCBill_catch.

(* ===================================================================== *)
(** * server.js: GET /api/check-bill *)
(* ===================================================================== *)

(** [req.query]: each parameter is absent or a string. *)
Record Query : Type := mkQuery {
  q_refNo : JsValue;
  q_company : option string
}.

(** The JSON bodies the handler sends. *)
Inductive Json : Type :=
| JsonResult (r : Result)
| JsonServerError (error message : string).

Record HttpResponse : Type := mkHttpResponse {
  status : nat;
  body : Json
}.

Definition check_bill (axios : Axios) (query : Query)
  : Prog unit HttpResponse :=
  let refNo := q_refNo query in
  let company := default "hesco" (q_company query) in
  match validateReferenceNumber refNo with
  | ValidationError error =>
      ret {| status := 400; body := JsonResult (Failure error) |}
  | ValidationOk validRefNo =>
      try_catch
        (result <- getPITCBill axios validRefNo company ;;
         if success result then
           ret {| status := 200; body := JsonResult result |}
         else
           ret {| status := 404; body := JsonResult result |})
        (fun error =>
           emit (EvConsoleError ["Server error:"; message error]) ;;;
           ret {| status := 500;
                  body := JsonServerError "Internal server error"
                            (message error) |})
  end.

(** The result of running a program from the start. *)
Definition run {A} (m : Prog unit A) : Exc A * list Event :=
  let '(r, _, log) := m tt in (r, log).


(* ===================================================================== *)
(** * Notions used to state the properties *)
(* ===================================================================== *)

(** The decimal digits, for stating what a digit string is. *)
Definition digits : list ascii :=
  ["0"; "1"; "2"; "3"; "4"; "5"; "6"; "7"; "8"; "9"]%char.

(** A string of ten to fourteen decimal digits. *)
Definition digit_string_10_14 (s : string) : Prop :=
  (forall c, In c (list_ascii_of_string s) -> In c digits)
  /\ 10 <= String.length s <= 14.

(** Characters [trim] never removes: ASCII other than white space. *)
Definition plain (c : ascii) : bool :=
  (Js.byte c <? 128) && negb (Js.is_ws1 c).

(** Two codes are the same ignoring case when upper-casing makes them
    equal. *)
Definition same_ignoring_case (a b : string) : Prop :=
  Js.toUpperCase a = Js.toUpperCase b.

(** A code is registered when, ignoring case, it is the [code] of a
    company of the registry. *)
Definition registered (c : string) : Prop :=
  exists d, In d (Object_values COMPANIES) /\ same_ignoring_case c (code d).

(** Strings of ASCII characters, and the two cases of the ASCII letters. *)
Definition ascii_only (s : string) : bool :=
  Js.all_chars (fun c => Js.byte c <? 128) s.

Fixpoint map_chars (f : ascii -> ascii) (s : string) : string :=
  match s with
  | EmptyString => EmptyString
  | String c s' => String (f c) (map_chars f s')
  end.

Definition upper_char (c : ascii) : ascii :=
  if Js.between 97 122 (Js.byte c) then ascii_of_nat (Js.byte c - 32) else c.

Definition lower_char (c : ascii) : ascii :=
  if Js.between 65 90 (Js.byte c) then ascii_of_nat (Js.byte c + 32) else c.

(** Ranges in ascending order: each holds at least one code point and
    ends before the next begins. *)
Fixpoint ascending (ranges : list (N * N)) : bool :=
  match ranges with
  | [] => true
  | (lo, hi) :: rest =>
      (lo <=? hi)%N
      && match rest with
         | [] => true
         | (lo', _) :: _ => (hi <? lo')%N
         end
      && ascending rest
  end.

(** A table in ascending order of its keys. *)
Definition ascending_keys {V} (table : list (N * V)) : bool :=
  ascending (map (fun e => (fst e, fst e)) table).

(** The code points a well-formed string is made of: up to U+10FFFF,
    the surrogates left out. *)
Definition scalar_value (n : N) : bool :=
  (n <? 0xD800)%N || Unicode.within 0xE000 0x10FFFF n.

(** What [Unicode.code_points] lists: code points, and stray bytes from
    0x80 up. *)
Definition code_point_or_stray (n : N) : bool :=
  scalar_value n || Unicode.within 0x110080 0x1100FF n.

(** A well-formed string: the UTF-8 bytes of a sequence of code points,
    no stray byte. *)
Definition well_formed (s : string) : bool :=
  forallb scalar_value (Unicode.code_points s).

(** The capital letters [A-Z], of which the keys of the registry are made,
    and the code points whose upper case is capital letters only: the
    ASCII letters, sharp s, dotless i, long s and the Latin ligatures. *)
Definition capital (n : N) : bool := Unicode.within 0x41 0x5A n.

Definition capital_sources : list N :=
  map N.of_nat (seq 65 26) ++ map N.of_nat (seq 97 26)
  ++ [0xDF; 0x131; 0x17F; 0xFB00; 0xFB01; 0xFB02; 0xFB03; 0xFB04; 0xFB05;
      0xFB06]%N.

(** The code points whose lower case is made of capital sources: those,
    capital sharp s and the Kelvin sign. *)
Definition lowercase_sources : list N :=
  capital_sources ++ [0x1E9E; 0x212A]%N.

Definition capitals_only (s : string) : bool :=
  Js.all_chars (fun c => Js.between 65 90 (Js.byte c)) s.

Definition listed (n : N) (l : list N) : bool := existsb (N.eqb n) l.

(** A code point that upper-casing leaves as it is. *)
Definition fixed (n : N) : bool :=
  match Unicode.uppercase n with
  | [m] => (m =? n)%N
  | _ => false
  end.

(** What the keys of the registry have in common: no K, at most one S. *)
Definition one_s_no_k (l : list N) : bool :=
  (count_occ N.eq_dec l 0x4B%N =? 0) && (count_occ N.eq_dec l 0x53%N <=? 1).

(** ** The label rules of the specification

    The table of section 4.5, top to bottom: the substrings looked for in
    a label and the field the row's value goes to. *)
Inductive Group : Type := ConsumerDetails | BillDetails | Charges.

Abbreviation Field := (Group * string)%type.

Definition label_rules : list (list string * Field) :=
  [ (["consumer"; "name"], (ConsumerDetails, "name"));
    (["address"], (ConsumerDetails, "address"));
    (["customer"; "id"], (ConsumerDetails, "customerId"));
    (["tariff"], (BillDetails, "tariff"));
    (["due date"], (BillDetails, "dueDate"));
    (["issue date"; "bill date"], (BillDetails, "issueDate"));
    (["reading date"], (BillDetails, "readingDate"));
    (["current reading"], (BillDetails, "currentReading"));
    (["previous reading"], (BillDetails, "previousReading"));
    (["units"; "consumption"], (BillDetails, "unitsConsumed"));
    (["amount payable"; "total amount"], (Charges, "totalAmount"));
    (["after due date"], (Charges, "amountAfterDueDate"));
    (["electricity charges"], (Charges, "electricityCharges"));
    (["gst"; "tax"], (Charges, "gst")) ].

Definition rule_applies (label : string) (rule : list string * Field) : bool :=
  existsb (Js.includes label) (fst rule).

(** The field of the first rule that applies to the label, if any. *)
Definition first_match (label : string) : option Field :=
  option_map snd (List.find (rule_applies label) label_rules).

Definition group (g : Group) (b : BillData) : gmap string string :=
  match g with
  | ConsumerDetails => consumerDetails b
  | BillDetails => billDetails b
  | Charges => charges b
  end.

(** Reading and writing one field of a record. *)
Definition field_value (f : Field) (b : BillData) : option string :=
  group (fst f) b !! snd f.

Definition assign (f : Field) (v : string) (b : BillData) : BillData :=
  match fst f with
  | ConsumerDetails => set_consumerDetails (snd f) v b
  | BillDetails => set_billDetails (snd f) v b
  | Charges => set_charges (snd f) v b
  end.

(** What a table row contributes according to the rules: nothing when it
    has fewer than two cells or its label meets no rule, otherwise the
    field of the first rule met and the trimmed text of the second cell. *)
Definition row_entry (row : Element) : Exc (option (Field * string)) :=
  match el_find row "td" with
  | Throw e => Throw e
  | Return (cell0 :: cell1 :: _) =>
      match el_text cell0 with
      | Throw e => Throw e
      | Return text0 =>
          match el_text cell1 with
          | Throw e => Throw e
          | Return text1 =>
              Return
                (option_map (fun f => (f, Js.trim text1))
                   (first_match (Js.toLowerCase (Js.trim text0))))
          end
      end
  | Return _ => Return None
  end.

(** The entries of a run of rows that all answer, in document order. *)
Fixpoint entries (rows : list Element) : list (Field * string) :=
  match rows with
  | [] => []
  | row :: rest =>
      match row_entry row with
      | Return (Some a) => a :: entries rest
      | _ => entries rest
      end
  end.

Definition answers (row : Element) : Prop :=
  exists a, row_entry row = Return a.

Definition apply_entries (l : list (Field * string)) (b : BillData)
  : BillData :=
  fold_left (fun b a => assign (fst a) (snd a) b) l b.

#[global] Instance Group_eq_dec : EqDecision Group.
Proof. solve_decision. Defined.

(** The value of the last entry for a field. *)
Definition last_value (f : Field) (l : list (Field * string))
  : option string :=
  last (map snd (filter (fun a => fst a = f) l)).

(** The empty record [parseBillDetails] starts from. *)
Definition empty_bill (refNo companyCode : string) : BillData :=
  mkBillData refNo companyCode ∅ ∅ ∅ None None.

(** [b] is [b1] annotated with the parse-error note [m]: its [parseError]
    holds [m], every other member is as it is in [b1]. *)
Definition annotated (m : string) (b1 b : BillData) : Prop :=
  parseError b = Some m
  /\ referenceNumber b = referenceNumber b1
  /\ bill_company b = bill_company b1
  /\ consumerDetails b = consumerDetails b1
  /\ billDetails b = billDetails b1
  /\ charges b = charges b1
  /\ rawHtml b = rawHtml b1.

(** ** Reading a document *)

(** [$(selector).val()] answers [v]. *)
Definition reads_val (doc : Cheerio) (selector : string) (v : JsValue)
  : Prop :=
  exists els, query doc selector = Return els /\ val els = Return v.

(** [$(selector).text()] answers [t]. *)
Definition reads_text (doc : Cheerio) (selector : string) (t : string)
  : Prop :=
  exists els, query doc selector = Return els /\ text els = Return t.

(** The four hidden fields of the form page. *)
Definition token_page (doc : Cheerio) (vs vsg ev rvt : JsValue) : Prop :=
  reads_val doc "#__VIEWSTATE" vs
  /\ reads_val doc "#__VIEWSTATEGENERATOR" vsg
  /\ reads_val doc "#__EVENTVALIDATION" ev
  /\ reads_val doc token_selector rvt.

(** The calls of STEP 1 and STEP 2. *)
Definition token_events (company : Company) : list Event :=
  [ EvGet (url company) get_config;
    EvSelect "#__VIEWSTATE";
    EvSelect "#__VIEWSTATEGENERATOR";
    EvSelect "#__EVENTVALIDATION";
    EvSelect token_selector ].

(** The form body for four token texts and a reference number. *)
Definition form_body (vs vsg ev rvt refNo : string) : string :=
  UrlEncoded.toString
    [ ("__VIEWSTATE", vs);
      ("__VIEWSTATEGENERATOR", vsg);
      ("__EVENTVALIDATION", ev);
      ("__RequestVerificationToken", rvt);
      ("rbSearchByList", "refno");
      ("searchTextBox", refNo);
      ("ruCodeTextBox", "");
      ("btnSearch", "Search") ].

(** ** Kinds of faults *)

Definition is_timeout (e : JsError) : Prop :=
  err_code e = Some "ECONNABORTED"
  \/ err_code e = Some "UND_ERR_CONNECT_TIMEOUT".

Definition is_connection_failure (e : JsError) : Prop :=
  err_code e = Some "ENOTFOUND" \/ err_code e = Some "ECONNREFUSED".

(** The failure a fault is turned into. *)
Definition converted (e : JsError) (r : Result) : Prop :=
  (is_timeout e ->
     r = Failure
           "Connection timeout - PITC server may be geo-restricted or down")
  /\ (is_connection_failure e ->
        r = Failure "Unable to connect to PITC server")
  /\ (~ is_timeout e -> ~ is_connection_failure e ->
        r = Failure (message e)).

(** ** Example documents and networks *)

Definition text_element (t : string) : Element :=
  mkElement (Return t) (Return JsUndefined) (fun _ => Return []).

Definition input_element (value : string) : Element :=
  mkElement (Return "") (Return (JsString value)) (fun _ => Return []).

(** A table row [<tr><td>..</td>..</tr>]. *)
Definition table_row (cells : list string) : Element :=
  mkElement (Return (String.concat "" cells)) (Return JsUndefined)
    (fun selector =>
       if String.eqb selector "td" then Return (map text_element cells)
       else Return []).

(** A row whose cells cannot be read. *)
Definition faulty_row (msg : string) : Element :=
  mkElement (Return "") (Return JsUndefined)
    (fun _ => Throw (mkError None msg)).

(** A document answering the listed selectors, and nothing else. *)
Definition document (content : list (string * list Element))
    (markup : string) : Cheerio :=
  mkCheerio
    (fun selector => Return (default [] (get_property content selector)))
    (Return markup).

(** A portal that answers every GET and every POST the same way. *)
Definition portal (form_page answer : Exc Response) : Axios :=
  mkAxios (fun _ _ => form_page) (fun _ _ _ => answer).

(** A form page with the three state tokens and, optionally, the
    verification token. *)
Definition form_page (vs vsg ev : string) (rvt : option string) : Cheerio :=
  document
    ([ ("#__VIEWSTATE", [input_element vs]);
       ("#__VIEWSTATEGENERATOR", [input_element vsg]);
       ("#__EVENTVALIDATION", [input_element ev]) ]
     ++ match rvt with
        | Some t => [(token_selector, [input_element t])]
        | None => []
        end)
    "<form/>".

(** An answer page with an error region and table rows. *)
Definition answer_page (ua : string) (rows : list Element) : Cheerio :=
  document [ ("#ua", [text_element ua]); ("table tr", rows) ] "<html/>".

(** ** Reading a form body back

    The receiving side of application/x-www-form-urlencoded: the body is
    cut at [&], each piece at its first [=], and both halves are decoded
    ([+] is a space, [%XX] a byte). *)

Definition hex_value (c : ascii) : option nat :=
  let b := Js.byte c in
  if Js.between 48 57 b then Some (b - 48)
  else if Js.between 65 70 b then Some (b - 55)
  else if Js.between 97 102 b then Some (b - 87)
  else None.

Fixpoint decode (s : string) : string :=
  match s with
  | EmptyString => ""
  | String c s1 =>
      if Js.byte c =? 43 then String " " (decode s1)
      else if Js.byte c =? 37 then
        match s1 with
        | String h (String l s3) =>
            match hex_value h, hex_value l with
            | Some a, Some b => String (ascii_of_nat (16 * a + b)) (decode s3)
            | _, _ => String c (decode s1)
            end
        | _ => String c (decode s1)
        end
      else String c (decode s1)
  end.

(** The pieces of [s] between occurrences of [sep]. *)
Fixpoint split (sep : ascii) (s : string) : list string :=
  match s with
  | EmptyString => [""]
  | String c s' =>
      if Ascii.eqb c sep then "" :: split sep s'
      else
        match split sep s' with
        | piece :: rest => String c piece :: rest
        | [] => [String c ""]
        end
  end.

(** [s] cut at the first [sep]; the second half is empty without one. *)
Fixpoint cut (sep : ascii) (s : string) : string * string :=
  match s with
  | EmptyString => ("", "")
  | String c s' =>
      if Ascii.eqb c sep then ("", s')
      else let '(k, v) := cut sep s' in (String c k, v)
  end.

Definition parse_form (body : string) : list (string * string) :=
  match body with
  | EmptyString => []
  | _ =>
      map (fun piece => let '(k, v) := cut "=" piece in (decode k, decode v))
        (split "&" body)
  end.

(** The bodies of the POST requests of a log. *)
Definition posted_bodies (log : list Event) : list string :=
  omap (fun ev => match ev with EvPost _ b _ => Some b | _ => None end) log.

(** A value read from the page that counts as missing. *)
Definition absent_or_empty (v : JsValue) : Prop :=
  v = JsUndefined \/ v = JsString "".

(** [sep] does not occur in [s]. *)
Definition no_char (sep : ascii) (s : string) : bool :=
  Js.all_chars (fun c => negb (Ascii.eqb c sep)) s.

(** One [name=value] piece of a form body. *)
Definition pair_text (p : string * string) : string :=
  UrlEncoded.encode (fst p) +:+ "=" +:+ UrlEncoded.encode (snd p).

(** The Lahore entry of the registry, for examples. *)
Definition LESCO : Company :=
  mkCompany "Lahore Electric Supply Company" "lesco"
    "https://bill.pitc.com.pk/lescobill" refPattern_10_14.


(** The fields a returned record can hold: those of the rules that can
    fire, and the display amount. *)
Definition known_fields : list Field :=
  [ (ConsumerDetails, "name"); (ConsumerDetails, "address");
    (ConsumerDetails, "customerId");
    (BillDetails, "tariff"); (BillDetails, "dueDate");
    (BillDetails, "issueDate"); (BillDetails, "readingDate");
    (BillDetails, "currentReading"); (BillDetails, "previousReading");
    (BillDetails, "unitsConsumed");
    (Charges, "totalAmount"); (Charges, "electricityCharges");
    (Charges, "gst"); (Charges, "displayAmount") ].

(** ** Network requests of a run *)

Definition is_request (ev : Event) : bool :=
  match ev with
  | EvGet _ _ | EvPost _ _ _ => true
  | EvSelect _ | EvConsoleError _ => false
  end.

(** The GET and POST calls of a log, in order. *)
Definition requests (log : list Event) : list Event :=
  List.filter is_request log.

(** A program that never touches the network. *)
Definition silent {S A} (m : Prog S A) : Prop :=
  forall s, requests (snd (m s)) = [].

(** A program that makes no request, or exactly one, which satisfies [P]. *)
Definition at_most_one {S A} (P : Event -> Prop) (m : Prog S A) : Prop :=
  forall s,
    requests (snd (m s)) = []
    \/ exists ev, P ev /\ requests (snd (m s)) = [ev].

(** Every value the program returns satisfies [Q]. *)
Definition ensures {S A} (Q : A -> Prop) (m : Prog S A) : Prop :=
  forall s,
    match fst (fst (m s)) with
    | Return a => Q a
    | Throw _ => True
    end.

(** The field names of the lookup form, in order. *)
Definition form_names : list string :=
  [ "__VIEWSTATE"; "__VIEWSTATEGENERATOR"; "__EVENTVALIDATION";
    "__RequestVerificationToken"; "rbSearchByList"; "searchTextBox";
    "ruCodeTextBox"; "btnSearch" ].

(** The GET of a lookup: to the company's address, as a browser, within
    30 seconds. *)
Definition lookup_get (company : Company) (ev : Event) : Prop :=
  exists config,
    ev = EvGet (url company) config
    /\ headers config
       = [("User-Agent",
           "Mozilla/5.0 (Windows NT 10.0; Win64; x64) AppleWebKit/537.36 (KHTML, like Gecko) Chrome/91.0.4472.124 Safari/537.36")]
    /\ timeout config = 30000%N
    /\ maxRedirects config = None.

(** The POST of a lookup: to the company's address, as a browser,
    announced as a form, with the address as referer and as cookies those
    the GET's answer set, joined by "; " (none when it set none),
    following at most five redirects within 30 seconds; and a body that
    reads back as the eight fields of the form with the reference number
    in [searchTextBox]. *)
Definition lookup_post (company : Company) (getResponse : Response)
    (refNo : string) (ev : Event) : Prop :=
  exists body config,
    ev = EvPost (url company) body config
    /\ config = post_config (url company) getResponse
    /\ map fst (parse_form body) = form_names
    /\ get_property (parse_form body) "rbSearchByList" = Some "refno"
    /\ get_property (parse_form body) "searchTextBox" = Some refNo
    /\ get_property (parse_form body) "ruCodeTextBox" = Some ""
    /\ get_property (parse_form body) "btnSearch" = Some "Search"
    /\ map fst (headers config)
       = ["Content-Type"; "User-Agent"; "Referer"; "Cookie"]
    /\ get_property (headers config) "Content-Type"
       = Some "application/x-www-form-urlencoded"
    /\ get_property (headers config) "User-Agent"
       = Some "Mozilla/5.0 (Windows NT 10.0; Win64; x64) AppleWebKit/537.36 (KHTML, like Gecko) Chrome/91.0.4472.124 Safari/537.36"
    /\ get_property (headers config) "Referer" = Some (url company)
    /\ get_property (headers config) "Cookie"
       = Some (match set_cookie getResponse with
               | Some cookies => Js.join "; " cookies
               | None => ""
               end)
    /\ maxRedirects config = Some 5
    /\ timeout config = 30000%N.

(** ** What a result says about the request *)

(** A result that carries the reference number and company of the request
    carries them as asked for: the reference number unchanged, the company
    by the code and name of the registry entry the request resolves to,
    which is the requested code ignoring case; the record inside a success
    is labelled the same way; a portal error is never empty. *)
Definition echoes (refNo companyCode : string) (r : Result) : Prop :=
  match r with
  | Failure e =>
      getCompanyByCode companyCode = None -> e = invalid_company_message
  | PortalFailure e refNo' company' =>
      refNo' = refNo
      /\ (exists company,
            getCompanyByCode companyCode = Some company
            /\ company' = code company)
      /\ same_ignoring_case company' companyCode
      /\ e <> ""
  | Success refNo' company' companyName' data =>
      refNo' = refNo
      /\ (exists company,
            getCompanyByCode companyCode = Some company
            /\ company' = code company
            /\ companyName' = name company)
      /\ same_ignoring_case company' companyCode
      /\ referenceNumber data = refNo
      /\ bill_company data = company'
  end.

(** ** server.js: POST /api/check-bill *)






(** An answer of the facade to a lookup for [refNo] and [company]: 400
    with the validation error and no call made, or else the result of
    [getPITCBill] on the validated reference number, with status 200 when
    it is a success and 404 when it is not, and the lookup's calls. *)
Definition answers_lookup (axios : Axios) (refNo : JsValue)
    (company : string) (o : Exc HttpResponse * list Event) : Prop :=
  match validateReferenceNumber refNo with
  | ValidationError e =>
      o = (Return {| status := 400; body := JsonResult (Failure e) |}, [])
  | ValidationOk validRefNo =>
      exists result log,
        run (getPITCBill axios validRefNo company) = (Return result, log)
        /\ o = (Return
                  {| status := if success result then 200 else 404;
                     body := JsonResult result |},
                log)
  end.

(* ===================================================================== *)
(** * hesco-bill.js: the single-company module *)
(* ===================================================================== *)

(** [billData] of the single-company module: no [company] member. *)
Record HescoBillData : Type := mkHescoBillData {
  h_referenceNumber : string;
  h_consumerDetails : gmap string string;
  h_billDetails : gmap string string;
  h_charges : gmap string string;
  h_rawHtml : option string;
  h_parseError : option string
}.

Definition h_set_consumerDetails (k v : string) (b : HescoBillData)
  : HescoBillData :=
  mkHescoBillData (h_referenceNumber b)
    (<[k := v]> (h_consumerDetails b)) (h_billDetails b) (h_charges b)
    (h_rawHtml b) (h_parseError b).

Definition h_set_billDetails (k v : string) (b : HescoBillData)
  : HescoBillData :=
  mkHescoBillData (h_referenceNumber b)
    (h_consumerDetails b) (<[k := v]> (h_billDetails b)) (h_charges b)
    (h_rawHtml b) (h_parseError b).

Definition h_set_charges (k v : string) (b : HescoBillData) : HescoBillData :=
  mkHescoBillData (h_referenceNumber b)
    (h_consumerDetails b) (h_billDetails b) (<[k := v]> (h_charges b))
    (h_rawHtml b) (h_parseError b).

Definition h_set_rawHtml (h : string) (b : HescoBillData) : HescoBillData :=
  mkHescoBillData (h_referenceNumber b)
    (h_consumerDetails b) (h_billDetails b) (h_charges b)
    (Some h) (h_parseError b).

Definition h_set_parseError (m : string) (b : HescoBillData)
  : HescoBillData :=
  mkHescoBillData (h_referenceNumber b)
    (h_consumerDetails b) (h_billDetails b) (h_charges b)
    (h_rawHtml b) (Some m).

(** Results of [getHESCOBill]: [{success: false, error}],
    [{success: false, error, refNo}], [{success: true, refNo, data}]. *)
Inductive HescoResult : Type :=
| HescoFailure (error : string)
| HescoPortalFailure (error refNo : string)
| HescoSuccess (refNo : string) (data : HescoBillData).

(** The callback of [tableRows.each] in hesco-bill.js. *)
Definition hesco_rowCallback (element : Element)
  : Prog HescoBillData unit :=
  cells <- lift (el_find element "td") ;;
  if 2 <=? length cells then
    match cells with
    | cell0 :: cell1 :: _ =>
        text0 <- lift (el_text cell0) ;;
        let label := Js.toLowerCase (Js.trim text0) in
        text1 <- lift (el_text cell1) ;;
        let value := Js.trim text1 in
        if Js.includes label "consumer" || Js.includes label "name" then
          modify (h_set_consumerDetails "name" value)
        else if Js.includes label "address" then
          modify (h_set_consumerDetails "address" value)
        else if Js.includes label "customer" || Js.includes label "id" then
          modify (h_set_consumerDetails "customerId" value)
        else if Js.includes label "tariff" then
          modify (h_set_billDetails "tariff" value)
        else if Js.includes label "due date" then
          modify (h_set_billDetails "dueDate" value)
        else if Js.includes label "issue date"
                || Js.includes label "bill date" then
          modify (h_set_billDetails "issueDate" value)
        else if Js.includes label "reading date" then
          modify (h_set_billDetails "readingDate" value)
        else if Js.includes label "current reading" then
          modify (h_set_billDetails "currentReading" value)
        else if Js.includes label "previous reading" then
          modify (h_set_billDetails "previousReading" value)
        else if Js.includes label "units"
                || Js.includes label "consumption" then
          modify (h_set_billDetails "unitsConsumed" value)
        else if Js.includes label "amount payable"
                || Js.includes label "total amount" then
          modify (h_set_charges "totalAmount" value)
        else if Js.includes label "after due date" then
          modify (h_set_charges "amountAfterDueDate" value)
        else if Js.includes label "electricity charges" then
          modify (h_set_charges "electricityCharges" value)
        else if Js.includes label "gst" || Js.includes label "tax" then
          modify (h_set_charges "gst" value)
        else ret tt
    | _ => ret tt
    end
  else ret tt.

(** The body of the [try] block of its [parseBillDetails]. *)
Definition hesco_parseBillDetails_try (doc : Cheerio)
  : Prog HescoBillData unit :=
  tableRows <- select doc "table tr" ;;
  each tableRows hesco_rowCallback ;;;
  matched <- select doc amount_selector ;;
  let billAmountElement := first matched in
  (if 0 <? length billAmountElement then
     amount <- lift (text billAmountElement) ;;
     modify (h_set_charges "displayAmount" (Js.trim amount))
   else ret tt) ;;;
  markup <- lift (html doc) ;;
  modify (h_set_rawHtml markup).

Definition hesco_parseBillDetails_catch (parseError : JsError)
  : Prog HescoBillData unit :=
  emit (EvConsoleError ["Error parsing bill details:"; message parseError]) ;;;
  modify (h_set_parseError (message parseError)).

(** [parseBillDetails($, refNo)] of hesco-bill.js. *)
Definition hesco_parseBillDetails {S} (doc : Cheerio) (refNo : string)
  : Prog S HescoBillData :=
  let billData :=
    {| h_referenceNumber := refNo;
       h_consumerDetails := ∅;
       h_billDetails := ∅;
       h_charges := ∅;
       h_rawHtml := None;
       h_parseError := None |} in
  with_object billData
    (try_catch (hesco_parseBillDetails_try doc) hesco_parseBillDetails_catch).

(** The body of the [try] block of [getHESCOBill]. *)
Definition getHESCOBill_try (axios : Axios) (refNo : string)
  : Prog unit HescoResult :=
  let baseUrl := "https://bill.pitc.com.pk/hescobill" in
  (* STEP 1 *)
  getResponse <- axios_get axios baseUrl get_config ;;
  (* STEP 2 *)
  let doc := cheerio_load (response_data getResponse) in
  sel1 <- select doc "#__VIEWSTATE" ;;
  viewState <- lift (val sel1) ;;
  sel2 <- select doc "#__VIEWSTATEGENERATOR" ;;
  viewStateGenerator <- lift (val sel2) ;;
  sel3 <- select doc "#__EVENTVALIDATION" ;;
  eventValidation <- lift (val sel3) ;;
  sel4 <- select doc token_selector ;;
  requestVerificationToken <- lift (val sel4) ;;
  if falsy viewState || falsy viewStateGenerator || falsy eventValidation
  then
    ret (HescoFailure "Failed to extract required tokens from PITC portal")
  else
    (* STEP 3 *)
    let formData :=
      UrlEncoded.URLSearchParams
        (form_fields viewState viewStateGenerator eventValidation
           requestVerificationToken refNo) in
    postResponse <-
      axios_post axios baseUrl (UrlEncoded.toString formData)
        (post_config baseUrl getResponse) ;;
    (* STEP 4 *)
    let result := cheerio_load (response_data postResponse) in
    ua <- select result "#ua" ;;
    uaText <- lift (text ua) ;;
    let errorDiv := Js.trim uaText in
    if Js.truthy errorDiv then
      ret (HescoPortalFailure errorDiv refNo)
    else
      (* STEP 5 *)
      billData <- hesco_parseBillDetails result refNo ;;
      ret (HescoSuccess refNo billData).

(** The [catch] block of [getHESCOBill]. *)
Definition getHESCOBill_catch (error : JsError) : Prog unit HescoResult :=
  if code_is error "ECONNABORTED" || code_is error "UND_ERR_CONNECT_TIMEOUT"
  then
    ret (HescoFailure
           "Connection timeout - PITC server may be geo-restricted or down")
  else if code_is error "ENOTFOUND" || code_is error "ECONNREFUSED" then
    ret (HescoFailure "Unable to connect to PITC server")
  else
    ret (HescoFailure (message error)).

Definition getHESCOBill (axios : Axios) (refNo : string)
  : Prog unit HescoResult :=
  try_catch (getHESCOBill_try axios refNo) getHESCOBill_catch.

(** [validateReferenceNumber] of hesco-bill.js. *)
Definition hesco_validateReferenceNumber (refNo : JsValue) : Validation :=
  if falsy refNo then
    ValidationError "Reference number is required"
  else
    let refNoStr := Js.trim (String_of refNo) in
    if negb (Js.test_digits_10_14 refNoStr) then
      ValidationError "Reference number must be 10-14 digits"
    else
      ValidationOk refNoStr.

(** ** Comparing the two modules *)

(** A record of the multi-company module without its [company]. *)
Definition forget_company (b : BillData) : HescoBillData :=
  mkHescoBillData (referenceNumber b) (consumerDetails b) (billDetails b)
    (charges b) (rawHtml b) (parseError b).

(** A result of the multi-company module without company code and name. *)
Definition forget_company_result (r : Result) : HescoResult :=
  match r with
  | Failure e => HescoFailure e
  | PortalFailure e refNo _ => HescoPortalFailure e refNo
  | Success refNo _ _ data => HescoSuccess refNo (forget_company data)
  end.

(** An outcome seen through a map of the state and a map of the value. *)
Definition map_outcome {S S' A B} (g : S -> S') (f : A -> B)
    (o : Exc A * S * list Event) : Exc B * S' * list Event :=
  let '(x, s, log) := o in
  (match x with Return a => Return (f a) | Throw e => Throw e end, g s, log).

(** [m'] does on mapped states what [m] does, with mapped values. *)
Definition simulates {S S' A B} (g : S -> S') (f : A -> B)
    (m' : Prog S' B) (m : Prog S A) : Prop :=
  forall s, m' (g s) = map_outcome g f (m s).

(* ===================================================================== *)
(** * Properties of the string primitives *)
(* ===================================================================== *)

(** Goes through the members of a list membership [H], one by one. *)
Ltac members H tac :=
  repeat (destruct H as [<- | H]; [tac |]); destruct H.

Lemma is_digit_spec (c : ascii) : Js.is_digit c = true <-> In c digits.
Proof.
  split.
  - destruct c as [[] [] [] [] [] [] [] []]; vm_compute; intros H;
      try discriminate H; tauto.
  - intros H. members H ltac:(reflexivity).
Qed.

Lemma all_chars_spec (p : ascii -> bool) (s : string) :
  Js.all_chars p s = true
  <-> forall c, In c (list_ascii_of_string s) -> p c = true.
Proof.
  induction s as [| a s IH]; simpl.
  - split; [intros _ c [] | reflexivity].
  - rewrite andb_true_iff, IH. split.
    + intros [Ha Hs] c [<- | Hc]; auto.
    + intros H. split; [apply H; now left | intros c Hc; apply H; now right].
Qed.

Lemma test_digits_10_14_spec (s : string) :
  Js.test_digits_10_14 s = true <-> digit_string_10_14 s.
Proof.
  unfold Js.test_digits_10_14, digit_string_10_14, Js.between.
  rewrite !andb_true_iff, all_chars_spec, !Nat.leb_le.
  split; intros [H1 H2]; (split; [| exact H2]);
    intros c Hc; apply is_digit_spec, H1, Hc.
Qed.

Lemma truthy_empty (s : string) : Js.truthy s = false <-> s = "".
Proof. destruct s; simpl; split; congruence. Qed.

Lemma strip_plain (fwd : bool) (a : ascii) (s : string) :
  plain a = true -> Js.strip fwd (String a s) = String a s.
Proof.
  unfold plain. rewrite andb_true_iff, negb_true_iff, Nat.ltb_lt.
  intros [Hlt Hws]. simpl. rewrite Hws.
  assert (Hne : forall k, 128 <= k -> (Js.byte a =? k) = false)
    by (intros k Hk; apply Nat.eqb_neq; lia).
  assert (Hbt : forall lo hi, 128 <= lo -> Js.between lo hi (Js.byte a) = false).
  { intros lo hi Hlo. unfold Js.between.
    apply andb_false_iff. left. apply Nat.leb_gt. lia. }
  destruct s as [| b s2]; [reflexivity |].
  assert (H2 : (if fwd then Js.is_ws2 a b else Js.is_ws2 b a) = false).
  { destruct fwd; unfold Js.is_ws2; rewrite Hne by lia;
      [reflexivity | apply andb_false_r]. }
  rewrite H2. destruct s2 as [| c s3]; [reflexivity |].
  assert (H3 : (if fwd then Js.is_ws3 a b c else Js.is_ws3 c b a) = false).
  { destruct fwd; unfold Js.is_ws3.
    - rewrite !Hne by lia. reflexivity.
    - rewrite !Hne, !Hbt by lia. simpl.
      rewrite !andb_false_r. reflexivity. }
  rewrite H3. reflexivity.
Qed.

Lemma append_empty_l (s : string) : "" +:+ s = s.
Proof. reflexivity. Qed.

Lemma append_cons (a : ascii) (s t : string) :
  String a s +:+ t = String a (s +:+ t).
Proof. reflexivity. Qed.

Lemma append_empty_r (s : string) : s +:+ "" = s.
Proof.
  induction s as [| a s IH]; [reflexivity |].
  rewrite append_cons, IH. reflexivity.
Qed.

Lemma rev_app_rev_app (s1 s2 s3 : string) :
  String.rev_app (String.rev_app s1 s2) s3 = String.rev_app s2 (s1 +:+ s3).
Proof.
  revert s2; induction s1 as [| a s1 IH]; intros s2; simpl; [reflexivity |].
  rewrite IH, append_cons. reflexivity.
Qed.

Lemma rev_involutive (s : string) : String.rev (String.rev s) = s.
Proof.
  unfold String.rev. rewrite rev_app_rev_app. simpl. apply append_empty_r.
Qed.

Lemma all_chars_rev_app (p : ascii -> bool) (s1 s2 : string) :
  Js.all_chars p (String.rev_app s1 s2)
  = Js.all_chars p s1 && Js.all_chars p s2.
Proof.
  revert s2; induction s1 as [| a s1 IH]; intros s2; simpl; [reflexivity |].
  rewrite IH. simpl. rewrite !andb_assoc. f_equal. apply andb_comm.
Qed.

Lemma strip_all_plain (fwd : bool) (s : string) :
  Js.all_chars plain s = true -> Js.strip fwd s = s.
Proof.
  destruct s as [| a s]; [reflexivity |]. simpl Js.all_chars.
  rewrite andb_true_iff. intros [Ha _]. apply strip_plain, Ha.
Qed.

(** [trim] leaves a string without white space and non-ASCII bytes as it
    is. *)
Lemma trim_all_plain (s : string) :
  Js.all_chars plain s = true -> Js.trim s = s.
Proof.
  intros H. unfold Js.trim, Js.trimStart, Js.trimEnd.
  rewrite (strip_all_plain true s H).
  rewrite strip_all_plain.
  - apply rev_involutive.
  - unfold String.rev. rewrite all_chars_rev_app, H. reflexivity.
Qed.

Lemma digit_plain (c : ascii) : In c digits -> plain c = true.
Proof.
  intros H. members H ltac:(reflexivity).
Qed.

Lemma trim_digit_string (s : string) :
  digit_string_10_14 s -> Js.trim s = s.
Proof.
  intros [H _]. apply trim_all_plain, all_chars_spec.
  intros c Hc. apply digit_plain, H, Hc.
Qed.

(* ===================================================================== *)
(** * validateReferenceNumber: the rules in order *)
(* ===================================================================== *)

(** C3. [validateReferenceNumber] applies its rules in order.  A missing
    ([undefined], [null]) or empty input fails with "Reference number is
    required".  Any other input whose trimmed text is not ten to fourteen
    decimal digits fails with "Reference number must be 10-14 digits".
    Every input whose trimmed text is ten to fourteen decimal digits
    succeeds and the result carries exactly the trimmed text; an input
    that already is such a digit string comes back unchanged. *)
Theorem validateReferenceNumber_rules (v : JsValue) :
  ((v = JsUndefined \/ v = JsNull \/ v = JsString "") ->
     validateReferenceNumber v
     = ValidationError "Reference number is required")
  /\ (forall s, v = JsString s -> s <> "" ->
        ~ digit_string_10_14 (Js.trim s) ->
        validateReferenceNumber v
        = ValidationError "Reference number must be 10-14 digits")
  /\ (forall s, v = JsString s -> digit_string_10_14 (Js.trim s) ->
        validateReferenceNumber v = ValidationOk (Js.trim s))
  /\ (forall s, v = JsString s -> digit_string_10_14 s ->
        validateReferenceNumber v = ValidationOk s).
Proof.
  assert (Hok : forall s, digit_string_10_14 (Js.trim s) ->
                  validateReferenceNumber (JsString s)
                  = ValidationOk (Js.trim s)).
  { intros s Hd. unfold validateReferenceNumber. simpl.
    destruct s as [| a s].
    - exfalso. destruct Hd as [_ [Hlen _]]. vm_compute in Hlen. lia.
    - simpl Js.truthy. simpl negb. cbv iota.
      apply test_digits_10_14_spec in Hd. rewrite Hd. reflexivity. }
  repeat split.
  - intros [-> | [-> | ->]]; reflexivity.
  - intros s -> Hne Hnd. unfold validateReferenceNumber. simpl.
    destruct s as [| a s]; [congruence |]. simpl Js.truthy. simpl negb.
    cbv iota.
    destruct (Js.test_digits_10_14 (Js.trim (String a s))) eqn:E;
      [| reflexivity].
    exfalso. apply Hnd, test_digits_10_14_spec, E.
  - intros s -> Hd. apply Hok, Hd.
  - intros s -> Hd. pose proof (trim_digit_string s Hd) as Ht.
    rewrite <- Ht at 2. apply Hok. rewrite Ht. exact Hd.
Qed.

Lemma validateReferenceNumber_rules_witness :
  validateReferenceNumber (JsString "  06113530462901 ")
  = ValidationOk "06113530462901"
  /\ validateReferenceNumber (JsString "123")
     = ValidationError "Reference number must be 10-14 digits"
  /\ validateReferenceNumber (JsString "")
     = ValidationError "Reference number is required".
Proof.
  split; [| split].
  - apply (proj1 (proj2 (proj2
             (validateReferenceNumber_rules (JsString "  06113530462901 "))))
             "  06113530462901 " eq_refl).
    vm_compute. split; [| lia].
    intros c H. repeat (destruct H as [<- | H]; [tauto |]). destruct H.
  - apply (proj1 (proj2 (validateReferenceNumber_rules (JsString "123")))
             "123" eq_refl); [discriminate |].
    vm_compute. intros [_ [H _]]. lia.
  - apply (proj1 (validateReferenceNumber_rules (JsString ""))). tauto.
Defined.

(* ===================================================================== *)
(** * UTF-8 *)
(* ===================================================================== *)

Lemma within_spec (lo hi n : N) :
  Unicode.within lo hi n = true <-> (lo <= n <= hi)%N.
Proof.
  unfold Unicode.within. rewrite andb_true_iff, !N.leb_le. reflexivity.
Qed.

Lemma bits_bounded (a : ascii) : (Unicode.bits a < 256)%N.
Proof. apply N_ascii_bounded. Qed.

Lemma byte_bits (a : ascii) : Js.byte a = N.to_nat (Unicode.bits a).
Proof. reflexivity. Qed.

Lemma bits_ascii_of_N (n : N) :
  (n < 256)%N -> Unicode.bits (ascii_of_N n) = n.
Proof. apply N_ascii_embedding. Qed.

Lemma decode2_range (a b : ascii) (n : N) :
  Unicode.decode2 a b = Some n -> (0x80 <= n <= 0x7FF)%N.
Proof.
  unfold Unicode.decode2.
  destruct (_ && _ && Unicode.within 0x80 0x7FF _) eqn:E; [| discriminate].
  intros [= <-]. apply andb_true_iff in E as [_ E]. apply within_spec, E.
Qed.

Lemma decode3_range (a b c : ascii) (n : N) :
  Unicode.decode3 a b c = Some n ->
  (0x800 <= n <= 0xFFFF)%N /\ (n < 0xD800 \/ 0xDFFF < n)%N.
Proof.
  unfold Unicode.decode3.
  destruct (_ && _ && _ && Unicode.within 0x800 0xFFFF _ && _) eqn:E;
    [| discriminate].
  intros [= <-]. apply andb_true_iff in E as [E Hs].
  apply andb_true_iff in E as [_ E]. apply within_spec in E.
  split; [exact E |]. apply negb_true_iff in Hs.
  unfold Unicode.within in Hs. apply andb_false_iff in Hs.
  rewrite !N.leb_gt in Hs. lia.
Qed.

Lemma decode4_range (a b c d : ascii) (n : N) :
  Unicode.decode4 a b c d = Some n -> (0x10000 <= n <= 0x10FFFF)%N.
Proof.
  unfold Unicode.decode4.
  destruct (_ && _ && _ && _ && Unicode.within 0x10000 0x10FFFF _) eqn:E;
    [| discriminate].
  intros [= <-]. apply andb_true_iff in E as [_ E]. apply within_spec, E.
Qed.

Lemma scalar_value_spec (n : N) :
  scalar_value n = true <-> (n < 0xD800 \/ 0xE000 <= n <= 0x10FFFF)%N.
Proof.
  unfold scalar_value.
  rewrite orb_true_iff, N.ltb_lt, within_spec. reflexivity.
Qed.

Lemma code_point_or_stray_spec (n : N) :
  code_point_or_stray n = true
  <-> (n < 0xD800 \/ 0xE000 <= n <= 0x10FFFF
       \/ 0x110080 <= n <= 0x1100FF)%N.
Proof.
  unfold code_point_or_stray.
  rewrite orb_true_iff, scalar_value_spec, within_spec. tauto.
Qed.

Lemma stray_ok (a : ascii) :
  (Unicode.bits a <? 0x80)%N = false ->
  code_point_or_stray (Unicode.stray a) = true.
Proof.
  intros H. apply N.ltb_ge in H. apply code_point_or_stray_spec.
  pose proof (bits_bounded a). unfold Unicode.stray. lia.
Qed.

(** [code_points] yields code points and stray bytes from 0x80 up. *)
Lemma code_points_ok (s : string) :
  Forall (fun n => code_point_or_stray n = true) (Unicode.code_points s).
Proof.
  assert (H : forall k s, String.length s <= k ->
                Forall (fun n => code_point_or_stray n = true)
                  (Unicode.code_points s)).
  { clear s. induction k as [| k IH]; intros s Hk.
    - destruct s; [constructor | simpl in Hk; lia].
    - destruct s as [| a s1]; [constructor |]. simpl in Hk.
      assert (H1 : Forall (fun n => code_point_or_stray n = true)
                     (Unicode.code_points s1)) by (apply IH; lia).
      cbn [Unicode.code_points].
      destruct (Unicode.bits a <? 0x80)%N eqn:Ea.
      { constructor; [| exact H1]. apply N.ltb_lt in Ea.
        apply code_point_or_stray_spec. lia. }
      pose proof (stray_ok a Ea) as Hs.
      destruct s1 as [| b s2]; [constructor; [exact Hs | constructor] |].
      destruct (Unicode.decode2 a b) as [n |] eqn:E2.
      { constructor; [| apply IH; simpl in Hk |- *; lia].
        apply decode2_range in E2. apply code_point_or_stray_spec. lia. }
      destruct s2 as [| c s3]; [constructor; [exact Hs | exact H1] |].
      destruct (Unicode.decode3 a b c) as [n |] eqn:E3.
      { constructor; [| apply IH; simpl in Hk |- *; lia].
        apply decode3_range in E3. apply code_point_or_stray_spec. lia. }
      destruct s3 as [| d s4]; [constructor; [exact Hs | exact H1] |].
      destruct (Unicode.decode4 a b c d) as [n |] eqn:E4.
      { constructor; [| apply IH; simpl in Hk |- *; lia].
        apply decode4_range in E4. apply code_point_or_stray_spec. lia. }
      constructor; [exact Hs | exact H1]. }
  apply (H (String.length s)). lia.
Qed.

Lemma byte_ascii_of_N (n : N) :
  (n < 256)%N -> Js.byte (ascii_of_N n) = N.to_nat n.
Proof. intros H. rewrite byte_bits, bits_ascii_of_N by exact H. reflexivity. Qed.

Lemma all_chars_app (p : ascii -> bool) (s t : string) :
  Js.all_chars p (s +:+ t) = Js.all_chars p s && Js.all_chars p t.
Proof.
  induction s as [| a s IH]; [reflexivity |].
  rewrite append_cons. cbn [Js.all_chars]. rewrite IH. apply andb_assoc.
Qed.

Ltac div_lia := zify; Z.to_euclidean_division_equations; lia.

(** The bytes of a code point below 0x80 are the code point; all others
    are written with bytes from 0x80 up. *)
Lemma utf8_low (n : N) :
  (n < 0x80)%N -> Unicode.utf8 n = String (ascii_of_N n) "".
Proof.
  intros H. unfold Unicode.utf8. apply N.ltb_lt in H. rewrite H. reflexivity.
Qed.

Lemma high_byte (k : N) (p : ascii -> bool) :
  (0x80 <= k < 256)%N ->
  (forall a, 128 <= Js.byte a -> p a = true) ->
  Js.all_chars p (Unicode.byte_string k) = true.
Proof.
  intros Hk Hp. cbn. rewrite Hp; [reflexivity |].
  rewrite byte_ascii_of_N by lia. lia.
Qed.

Lemma utf8_high (n : N) (p : ascii -> bool) :
  code_point_or_stray n = true -> (0x80 <= n)%N ->
  (forall a, 128 <= Js.byte a -> p a = true) ->
  Js.all_chars p (Unicode.utf8 n) = true
  /\ exists a s, Unicode.utf8 n = String a s /\ 128 <= Js.byte a.
Proof.
  intros Hn Hlo Hp. apply code_point_or_stray_spec in Hn.
  unfold Unicode.utf8.
  destruct (N.ltb_spec n 0x80); [lia |].
  destruct (N.ltb_spec n 0x800);
    [| destruct (N.ltb_spec n 0x10000); [| destruct (N.ltb_spec n 0x110000)]].
  all: rewrite ?all_chars_app.
  all: repeat
         match goal with
         | |- context [Js.all_chars ?q (Unicode.byte_string ?k)] =>
             rewrite (high_byte k q) by ((split; div_lia) || exact Hp)
         end.
  all: split; [reflexivity |].
  all: unfold Unicode.byte_string; rewrite ?append_cons; eexists _, _;
         (split; [reflexivity |]); rewrite byte_ascii_of_N; div_lia.
Qed.

(* ===================================================================== *)
(** * Case conversion of ASCII strings *)
(* ===================================================================== *)

Lemma code_points_ascii (a : ascii) (s : string) :
  (Js.byte a <? 128) = true ->
  Unicode.code_points (String a s) = Unicode.bits a :: Unicode.code_points s.
Proof.
  intros H.
  assert (E : (Unicode.bits a <? 0x80)%N = true)
    by (destruct a as [[] [] [] [] [] [] [] []]; try discriminate H;
        reflexivity).
  cbn [Unicode.code_points]. rewrite E. reflexivity.
Qed.

Lemma uppercase_ascii (a : ascii) :
  (Js.byte a <? 128) = true ->
  Unicode.uppercase (Unicode.bits a) = [Unicode.bits (upper_char a)].
Proof.
  destruct a as [[] [] [] [] [] [] [] []]; intros H; try discriminate H;
    vm_compute; reflexivity.
Qed.

Lemma lowercase_ascii (a : ascii) :
  (Js.byte a <? 128) = true ->
  Unicode.lowercase (Unicode.bits a) = [Unicode.bits (lower_char a)]
  /\ (Unicode.bits a =? Unicode.SIGMA)%N = false.
Proof.
  destruct a as [[] [] [] [] [] [] [] []]; intros H; try discriminate H;
    vm_compute; split; reflexivity.
Qed.

Lemma utf8_ascii (a : ascii) :
  (Js.byte a <? 128) = true -> Unicode.utf8 (Unicode.bits a) = String a "".
Proof.
  destruct a as [[] [] [] [] [] [] [] []]; intros H; try discriminate H;
    vm_compute; reflexivity.
Qed.

Lemma upper_char_ascii (a : ascii) :
  (Js.byte a <? 128) = true -> (Js.byte (upper_char a) <? 128) = true.
Proof.
  destruct a as [[] [] [] [] [] [] [] []]; intros H; try discriminate H;
    reflexivity.
Qed.

Lemma lower_char_ascii (a : ascii) :
  (Js.byte a <? 128) = true -> (Js.byte (lower_char a) <? 128) = true.
Proof.
  destruct a as [[] [] [] [] [] [] [] []]; intros H; try discriminate H;
    reflexivity.
Qed.

(** On a string of ASCII characters, upper-casing changes the letters
    [a-z] and nothing else. *)
Lemma toUpperCase_ascii (s : string) :
  ascii_only s = true -> Js.toUpperCase s = map_chars upper_char s.
Proof.
  unfold Js.toUpperCase, Unicode.toUppercase, ascii_only.
  induction s as [| a s IH]; [reflexivity |].
  cbn [Js.all_chars map_chars]. rewrite andb_true_iff. intros [Ha Hs].
  rewrite (code_points_ascii _ _ Ha). cbn [flat_map].
  rewrite (uppercase_ascii _ Ha). cbn [app Unicode.of_code_points].
  rewrite (utf8_ascii _ (upper_char_ascii _ Ha)), (IH Hs). reflexivity.
Qed.

Lemma lowercase_from_ascii (before : bool) (s : string) :
  ascii_only s = true ->
  Unicode.of_code_points
    (Unicode.lowercase_from before (Unicode.code_points s))
  = map_chars lower_char s.
Proof.
  unfold ascii_only. revert before.
  induction s as [| a s IH]; intros before; [reflexivity |].
  cbn [Js.all_chars map_chars]. rewrite andb_true_iff. intros [Ha Hs].
  rewrite (code_points_ascii _ _ Ha). cbn [Unicode.lowercase_from].
  destruct (lowercase_ascii _ Ha) as [-> ->].
  cbn [andb app Unicode.of_code_points].
  rewrite (utf8_ascii _ (lower_char_ascii _ Ha)), (IH _ Hs). reflexivity.
Qed.

Lemma toLowerCase_ascii (s : string) :
  ascii_only s = true -> Js.toLowerCase s = map_chars lower_char s.
Proof. apply lowercase_from_ascii. Qed.

(* ===================================================================== *)
(** * The case tables *)
(* ===================================================================== *)

Lemma lookup_In {V} (n : N) (table : list (N * V)) (v : V) :
  Unicode.lookup n table = Some v -> In (n, v) table.
Proof.
  induction table as [| [k w] rest IH]; [discriminate |].
  cbn [Unicode.lookup]. destruct (n <? k)%N; [discriminate |].
  destruct (N.eqb_spec n k) as [-> | _].
  - intros [= ->]. now left.
  - intros H. right. exact (IH H).
Qed.

(** A property of the code points that come out of upper-casing holds
    when it holds throughout the two tables and of the code points that
    have no entry. *)
Lemma uppercase_Forall (P : N -> bool) (n : N) :
  forallb (fun e => forallb P (snd e)) Unicode.Uppercase_Special = true ->
  forallb (fun e => P (snd e)) Unicode.Uppercase_Mapping = true ->
  (Unicode.lookup n Unicode.Uppercase_Mapping = None -> P n = true) ->
  forallb P (Unicode.uppercase n) = true.
Proof.
  intros Hs Hm Hn. unfold Unicode.uppercase.
  destruct (Unicode.lookup n Unicode.Uppercase_Special) as [l |] eqn:Es.
  - apply lookup_In in Es.
    exact (proj1 (forallb_forall _ _) Hs _ Es).
  - destruct (Unicode.lookup n Unicode.Uppercase_Mapping) as [m |] eqn:Em.
    + apply lookup_In in Em. cbn [forallb]. rewrite andb_true_r.
      exact (proj1 (forallb_forall _ _) Hm _ Em).
    + cbn. rewrite Hn; reflexivity.
Qed.

Lemma within_In (lo hi n : N) :
  Unicode.within lo hi n = true ->
  In n (map N.of_nat (seq (N.to_nat lo) (N.to_nat hi + 1 - N.to_nat lo))).
Proof.
  rewrite within_spec. intros H. apply in_map_iff. exists (N.to_nat n).
  split; [apply N2Nat.id |]. apply in_seq. lia.
Qed.

(** Every letter [a-z] has an entry. *)
Lemma lookup_small_letter (n : N) :
  Unicode.within 0x61 0x7A n = true ->
  Unicode.lookup n Unicode.Uppercase_Mapping <> None.
Proof.
  intros H. apply within_In in H. vm_compute in H.
  members H ltac:(vm_compute; discriminate).
Qed.

(** Upper-casing yields no letter [a-z]. *)
Lemma uppercase_no_small_letter (n : N) :
  forallb (fun m => negb (Unicode.within 0x61 0x7A m)) (Unicode.uppercase n)
  = true.
Proof.
  apply uppercase_Forall; [vm_compute; reflexivity .. |].
  intros H. apply negb_true_iff.
  destruct (Unicode.within 0x61 0x7A n) eqn:E; [| reflexivity].
  destruct (lookup_small_letter n E H).
Qed.

(** Upper-casing code points and stray bytes yields the like. *)
Lemma uppercase_ok (n : N) :
  code_point_or_stray n = true ->
  forallb code_point_or_stray (Unicode.uppercase n) = true.
Proof.
  intros Hn. apply uppercase_Forall; [vm_compute; reflexivity .. |].
  intros _. exact Hn.
Qed.

Lemma toUppercase_ok (l : list N) :
  Forall (fun n => code_point_or_stray n = true) l ->
  Forall (fun n => code_point_or_stray n = true) (Unicode.toUppercase l).
Proof.
  induction 1 as [| n l Hn _ IH]; [constructor |].
  cbn [Unicode.toUppercase flat_map]. apply Forall_app. split; [| exact IH].
  apply List.Forall_forall. apply forallb_forall, uppercase_ok, Hn.
Qed.

(** No upper-cased string holds a letter [a-z]. *)
Lemma toUpperCase_no_small_letter (s : string) :
  Js.all_chars (fun a => negb (Js.between 97 122 (Js.byte a)))
    (Js.toUpperCase s) = true.
Proof.
  unfold Js.toUpperCase.
  pose proof (code_points_ok s) as H.
  induction H as [| n l Hn _ IH]; [reflexivity |].
  cbn [Unicode.toUppercase flat_map].
  pose proof (uppercase_no_small_letter n) as Hu.
  pose proof (uppercase_ok n Hn) as Hk.
  induction (Unicode.uppercase n) as [| m u IHu]; [exact IH |].
  cbn [forallb] in Hu, Hk. apply andb_true_iff in Hu as [Hm Hu].
  apply andb_true_iff in Hk as [Hmk Hk].
  cbn [app Unicode.of_code_points]. rewrite all_chars_app.
  rewrite (IHu Hu Hk), andb_true_r.
  destruct (N.ltb_spec m 0x80) as [Hlt | Hge].
  - rewrite (utf8_low m Hlt). cbn [Js.all_chars]. rewrite andb_true_r.
    apply negb_true_iff in Hm. apply negb_true_iff.
    unfold Js.between. rewrite byte_ascii_of_N by lia.
    unfold Unicode.within in Hm.
    apply andb_false_iff in Hm. apply andb_false_iff.
    rewrite !N.leb_gt in Hm. rewrite !Nat.leb_gt. lia.
  - apply utf8_high; [exact Hmk | exact Hge |].
    intros a Ha. apply negb_true_iff. unfold Js.between.
    apply andb_false_iff. right. apply Nat.leb_gt. lia.
Qed.

(* ===================================================================== *)
(** * Strings that upper-case to capital letters *)
(* ===================================================================== *)

Lemma append_assoc (s t u : string) : (s +:+ t) +:+ u = s +:+ (t +:+ u).
Proof.
  induction s as [| a s IH]; [reflexivity |].
  rewrite !append_cons, IH. reflexivity.
Qed.

Lemma of_code_points_app (l l' : list N) :
  Unicode.of_code_points (l ++ l')
  = Unicode.of_code_points l +:+ Unicode.of_code_points l'.
Proof.
  induction l as [| n l IH]; [reflexivity |].
  cbn [app Unicode.of_code_points]. rewrite IH.
  symmetry. apply append_assoc.
Qed.

(** The code points behind a string of ASCII characters are its bytes. *)
Lemma of_code_points_ascii_inv (l : list N) (k : string) :
  Forall (fun n => code_point_or_stray n = true) l ->
  ascii_only k = true ->
  Unicode.of_code_points l = k ->
  l = map Unicode.bits (list_ascii_of_string k).
Proof.
  intros Hl. revert k. induction Hl as [| n l Hn _ IH]; intros k Hk E.
  - cbn in E. subst k. reflexivity.
  - cbn [Unicode.of_code_points] in E.
    destruct (N.ltb_spec n 0x80) as [Hlt | Hge].
    + rewrite (utf8_low n Hlt), append_cons, append_empty_l in E. subst k.
      unfold ascii_only in Hk. cbn [Js.all_chars] in Hk.
      apply andb_true_iff in Hk as [_ Hk].
      cbn [list_ascii_of_string map].
      rewrite bits_ascii_of_N by lia. f_equal. apply IH; [exact Hk | reflexivity].
    + destruct (utf8_high n (fun _ => true) Hn Hge (fun _ _ => eq_refl))
        as [_ (a & s & Ea & Ha)].
      rewrite Ea, append_cons in E. subst k.
      unfold ascii_only in Hk. cbn [Js.all_chars] in Hk.
      apply andb_true_iff in Hk as [Hk _]. apply Nat.ltb_lt in Hk. lia.
Qed.

Lemma uppercase_cases (n : N) :
  (exists l, In (n, l) Unicode.Uppercase_Special /\ Unicode.uppercase n = l)
  \/ (exists m, In (n, m) Unicode.Uppercase_Mapping
                /\ Unicode.uppercase n = [m])
  \/ Unicode.uppercase n = [n].
Proof.
  unfold Unicode.uppercase.
  destruct (Unicode.lookup n Unicode.Uppercase_Special) as [l |] eqn:Es.
  - left. exists l. split; [apply lookup_In, Es | reflexivity].
  - destruct (Unicode.lookup n Unicode.Uppercase_Mapping) as [m |] eqn:Em.
    + right. left. exists m. split; [apply lookup_In, Em | reflexivity].
    + right. right. reflexivity.
Qed.

Lemma listed_In (n : N) (l : list N) : listed n l = true -> In n l.
Proof.
  unfold listed. rewrite existsb_exists. intros (m & Hm & E).
  apply N.eqb_eq in E. subst m. exact Hm.
Qed.

(** Only the capital sources upper-case to capital letters alone. *)
Lemma capital_source (n : N) :
  forallb capital (Unicode.uppercase n) = true -> In n capital_sources.
Proof.
  destruct (uppercase_cases n) as [(l & Hl & ->) | [(m & Hm & ->) | ->]].
  - assert (T : forallb
                  (fun e => implb (forallb capital (snd e))
                              (listed (fst e) capital_sources))
                  Unicode.Uppercase_Special = true) by (vm_compute; reflexivity).
    pose proof (proj1 (forallb_forall _ _) T _ Hl) as H. cbn [fst snd] in H.
    intros Hc. rewrite Hc in H. apply listed_In, H.
  - assert (T : forallb
                  (fun e => implb (capital (snd e))
                              (listed (fst e) capital_sources))
                  Unicode.Uppercase_Mapping = true) by (vm_compute; reflexivity).
    pose proof (proj1 (forallb_forall _ _) T _ Hm) as H. cbn [fst snd] in H.
    cbn [forallb]. rewrite andb_true_r.
    intros Hc. rewrite Hc in H. apply listed_In, H.
  - cbn [forallb]. rewrite andb_true_r. intros Hc.
    apply within_In in Hc. unfold capital_sources.
    apply in_or_app. left. exact Hc.
Qed.

Lemma capitals_only_ascii (k : string) :
  capitals_only k = true -> ascii_only k = true.
Proof.
  unfold capitals_only, ascii_only.
  induction k as [| a k IH]; [reflexivity |]. cbn [Js.all_chars].
  rewrite !andb_true_iff. intros [Ha Hk]. split; [| exact (IH Hk)].
  unfold Js.between in Ha. apply andb_true_iff in Ha as [_ Ha].
  apply Nat.leb_le in Ha. apply Nat.ltb_lt. lia.
Qed.

Lemma capitals_only_bits (k : string) :
  capitals_only k = true ->
  forallb capital (map Unicode.bits (list_ascii_of_string k)) = true.
Proof.
  unfold capitals_only.
  induction k as [| a k IH]; [reflexivity |].
  cbn [Js.all_chars list_ascii_of_string map forallb].
  rewrite !andb_true_iff. intros [Ha Hk]. split; [| exact (IH Hk)].
  unfold Js.between in Ha. rewrite byte_bits in Ha.
  apply andb_true_iff in Ha as [H1 H2].
  apply Nat.leb_le in H1, H2. apply within_spec. lia.
Qed.

Lemma forallb_flat_map {A B} (p : B -> bool) (f : A -> list B) (l : list A) :
  forallb p (flat_map f l) = forallb (fun a => forallb p (f a)) l.
Proof.
  induction l as [| a l IH]; [reflexivity |].
  cbn [flat_map forallb]. rewrite forallb_app, IH. reflexivity.
Qed.

(** A string that upper-cases to capital letters is made of capital
    sources. *)
Lemma capitals_sources (c : string) :
  capitals_only (Js.toUpperCase c) = true ->
  Forall (fun n => In n capital_sources) (Unicode.code_points c).
Proof.
  intros H. unfold Js.toUpperCase in H.
  pose proof (of_code_points_ascii_inv _ _
                (toUppercase_ok _ (code_points_ok c))
                (capitals_only_ascii _ H) eq_refl) as E.
  pose proof (capitals_only_bits _ H) as Hb. rewrite <- E in Hb.
  unfold Unicode.toUppercase in Hb. rewrite forallb_flat_map in Hb.
  apply List.Forall_forall. intros n Hn.
  apply capital_source. exact (proj1 (forallb_forall _ _) Hb n Hn).
Qed.

(** Lower-casing a capital source: no sigma is involved, the result reads
    back as it was written, and its upper case is that of the source. *)
Lemma capital_source_lowercase (n : N) :
  In n capital_sources ->
  (n =? Unicode.SIGMA)%N = false
  /\ (forall s,
        Unicode.code_points (Unicode.of_code_points (Unicode.lowercase n) +:+ s)
        = Unicode.lowercase n ++ Unicode.code_points s)
  /\ flat_map Unicode.uppercase (Unicode.lowercase n) = Unicode.uppercase n.
Proof.
  intros H. vm_compute in H.
  members H ltac:(split; [reflexivity | split; [intros s; reflexivity
                                              | vm_compute; reflexivity]]).
Qed.

Lemma lowercase_from_sources (before : bool) (l : list N) :
  Forall (fun n => In n capital_sources) l ->
  Unicode.lowercase_from before l = flat_map Unicode.lowercase l.
Proof.
  intros H. revert before. induction H as [| n l Hn _ IH]; intros before;
    [reflexivity |].
  cbn [Unicode.lowercase_from flat_map].
  destruct (capital_source_lowercase n Hn) as [-> _]. cbn [andb].
  rewrite IH. reflexivity.
Qed.

Lemma code_points_lowercase_sources (l : list N) :
  Forall (fun n => In n capital_sources) l ->
  Unicode.code_points (Unicode.of_code_points (flat_map Unicode.lowercase l))
  = flat_map Unicode.lowercase l.
Proof.
  induction 1 as [| n l Hn _ IH]; [reflexivity |].
  cbn [flat_map]. rewrite of_code_points_app.
  destruct (capital_source_lowercase n Hn) as (_ & -> & _).
  rewrite IH. reflexivity.
Qed.

Lemma uppercase_lowercase_sources (l : list N) :
  Forall (fun n => In n capital_sources) l ->
  flat_map Unicode.uppercase (flat_map Unicode.lowercase l)
  = flat_map Unicode.uppercase l.
Proof.
  induction 1 as [| n l Hn _ IH]; [reflexivity |].
  cbn [flat_map]. rewrite flat_map_app, IH.
  destruct (capital_source_lowercase n Hn) as (_ & _ & ->). reflexivity.
Qed.

(** A string that upper-cases to capital letters upper-cases to the same
    letters once lower-cased. *)
Lemma toUpperCase_toLowerCase_capitals (c : string) :
  capitals_only (Js.toUpperCase c) = true ->
  Js.toUpperCase (Js.toLowerCase c) = Js.toUpperCase c.
Proof.
  intros H. pose proof (capitals_sources c H) as Hs.
  unfold Js.toUpperCase, Js.toLowerCase, Unicode.toUppercase,
    Unicode.toLowercase.
  rewrite (lowercase_from_sources _ _ Hs).
  rewrite (code_points_lowercase_sources _ Hs).
  rewrite (uppercase_lowercase_sources _ Hs). reflexivity.
Qed.

Lemma map_chars_upper_capitals (k : string) :
  capitals_only k = true -> map_chars upper_char k = k.
Proof.
  unfold capitals_only.
  induction k as [| a k IH]; [reflexivity |]. cbn [Js.all_chars map_chars].
  rewrite andb_true_iff. intros [Ha Hk]. rewrite (IH Hk). f_equal.
  unfold upper_char. unfold Js.between in *.
  apply andb_true_iff in Ha as [H1 H2]. apply Nat.leb_le in H1, H2.
  destruct (97 <=? Js.byte a) eqn:E; [apply Nat.leb_le in E; lia |].
  reflexivity.
Qed.

Lemma toUpperCase_capitals (k : string) :
  capitals_only k = true -> Js.toUpperCase k = k.
Proof.
  intros H. rewrite (toUpperCase_ascii _ (capitals_only_ascii _ H)).
  apply map_chars_upper_capitals, H.
Qed.

(* ===================================================================== *)
(** * The search of the case tables *)
(* ===================================================================== *)

Lemma ascending_cons (lo hi : N) (rest : list (N * N)) :
  ascending ((lo, hi) :: rest) = true ->
  (lo <= hi)%N
  /\ match rest with
     | [] => True
     | (lo', _) :: _ => (hi < lo')%N
     end
  /\ ascending rest = true.
Proof.
  intros H.
  change (((lo <=? hi)%N
           && match rest with
              | [] => true
              | (lo', _) :: _ => (hi <? lo')%N
              end
           && ascending rest) = true) in H.
  apply andb_true_iff in H as [H H3]. apply andb_true_iff in H as [H1 H2].
  apply N.leb_le in H1. split; [exact H1 |]. split; [| exact H3].
  destruct rest as [| [lo' hi'] rest]; [exact I | apply N.ltb_lt, H2].
Qed.

Lemma ascending_above (lo hi : N) (rest : list (N * N)) (r : N * N) :
  ascending ((lo, hi) :: rest) = true -> In r rest -> (hi < fst r)%N.
Proof.
  revert lo hi. induction rest as [| [lo' hi'] rest IH]; intros lo hi H;
    [intros [] |].
  destruct (ascending_cons _ _ _ H) as (_ & H2 & H3).
  intros [<- | Hr]; [exact H2 |].
  pose proof (IH lo' hi' H3 Hr) as H4.
  destruct (ascending_cons _ _ _ H3) as (H5 & _). lia.
Qed.

(** The search of a table in ascending order finds every entry. *)
Lemma lookup_complete {V} (n : N) (v : V) (table : list (N * V)) :
  ascending_keys table = true ->
  In (n, v) table -> Unicode.lookup n table = Some v.
Proof.
  unfold ascending_keys.
  induction table as [| [k w] rest IH]; [intros _ [] |].
  intros H Hin. cbn [Unicode.lookup].
  destruct Hin as [[= -> ->] | Hin].
  - rewrite N.ltb_irrefl, N.eqb_refl. reflexivity.
  - cbn [map fst] in H.
    pose proof (ascending_above _ _ _ (n, n) H
                  (in_map (fun e => (fst e, fst e)) _ _ Hin)) as Hlt.
    cbn [fst] in Hlt.
    replace (n <? k)%N with false by (symmetry; apply N.ltb_ge; lia).
    replace (n =? k)%N with false by (symmetry; apply N.eqb_neq; lia).
    apply IH; [| exact Hin]. apply (ascending_cons _ _ _ H).
Qed.

(** The search of ranges in ascending order finds every member. *)
Lemma in_ranges_complete (n lo hi : N) (ranges : list (N * N)) :
  ascending ranges = true ->
  In (lo, hi) ranges -> (lo <= n <= hi)%N ->
  Unicode.in_ranges n ranges = true.
Proof.
  induction ranges as [| [lo' hi'] rest IH]; [intros _ [] |].
  intros H Hin Hn. cbn [Unicode.in_ranges].
  destruct Hin as [[= -> ->] | Hin].
  - replace (n <? lo)%N with false by (symmetry; apply N.ltb_ge; lia).
    replace (n <=? hi)%N with true by (symmetry; apply N.leb_le; lia).
    reflexivity.
  - pose proof (ascending_above _ _ _ _ H Hin) as Hlt. cbn [fst] in Hlt.
    assert (Hlo : (lo' <= hi')%N) by apply (ascending_cons _ _ _ H).
    replace (n <? lo')%N with false by (symmetry; apply N.ltb_ge; lia).
    replace (n <=? hi')%N with false by (symmetry; apply N.leb_gt; lia).
    apply IH; [| exact Hin | exact Hn]. apply (ascending_cons _ _ _ H).
Qed.

Lemma in_ranges_sound (n : N) (ranges : list (N * N)) :
  Unicode.in_ranges n ranges = true ->
  exists lo hi, In (lo, hi) ranges /\ (lo <= n <= hi)%N.
Proof.
  induction ranges as [| [lo hi] rest IH]; [discriminate |].
  cbn [Unicode.in_ranges].
  destruct (N.ltb_spec n lo); [discriminate |].
  destruct (N.leb_spec n hi).
  - intros _. exists lo, hi. split; [now left | lia].
  - intros H'. destruct (IH H') as (lo' & hi' & Hin & Hn).
    exists lo', hi'. split; [now right | exact Hn].
Qed.

(** The case tables are in ascending order. *)
Lemma tables_ascending :
  ascending_keys Unicode.Uppercase_Mapping = true
  /\ ascending_keys Unicode.Uppercase_Special = true
  /\ ascending_keys Unicode.Lowercase_Mapping = true
  /\ ascending_keys Unicode.Lowercase_Special = true
  /\ ascending Unicode.Cased = true
  /\ ascending Unicode.Case_Ignorable = true.
Proof. vm_compute. repeat split. Qed.

(** So the conversions are those of the tables: an entry of a table is
    the case of its code point, a code point without entry is its own. *)
Lemma uppercase_spec (n : N) :
  (forall l, In (n, l) Unicode.Uppercase_Special -> Unicode.uppercase n = l)
  /\ (forall m,
        In (n, m) Unicode.Uppercase_Mapping ->
        ~ In n (map fst Unicode.Uppercase_Special) ->
        Unicode.uppercase n = [m])
  /\ (~ In n (map fst Unicode.Uppercase_Special) ->
      ~ In n (map fst Unicode.Uppercase_Mapping) ->
      Unicode.uppercase n = [n]).
Proof.
  destruct tables_ascending as (A1 & A2 & _).
  assert (Hnone : forall V (t : list (N * V)),
            ~ In n (map fst t) -> Unicode.lookup n t = None).
  { intros V t H. destruct (Unicode.lookup n t) as [v |] eqn:E;
      [| reflexivity].
    destruct H. apply lookup_In in E.
    exact (in_map fst _ _ E). }
  unfold Unicode.uppercase. split; [| split].
  - intros l H. rewrite (lookup_complete _ _ _ A2 H). reflexivity.
  - intros m H Hs. rewrite (Hnone _ _ Hs), (lookup_complete _ _ _ A1 H).
    reflexivity.
  - intros Hs Hm. rewrite (Hnone _ _ Hs), (Hnone _ _ Hm). reflexivity.
Qed.

Lemma lowercase_spec (n : N) :
  (forall l, In (n, l) Unicode.Lowercase_Special -> Unicode.lowercase n = l)
  /\ (forall m,
        In (n, m) Unicode.Lowercase_Mapping ->
        ~ In n (map fst Unicode.Lowercase_Special) ->
        Unicode.lowercase n = [m])
  /\ (~ In n (map fst Unicode.Lowercase_Special) ->
      ~ In n (map fst Unicode.Lowercase_Mapping) ->
      Unicode.lowercase n = [n]).
Proof.
  destruct tables_ascending as (_ & _ & A1 & A2 & _).
  assert (Hnone : forall V (t : list (N * V)),
            ~ In n (map fst t) -> Unicode.lookup n t = None).
  { intros V t H. destruct (Unicode.lookup n t) as [v |] eqn:E;
      [| reflexivity].
    destruct H. apply lookup_In in E.
    exact (in_map fst _ _ E). }
  unfold Unicode.lowercase. split; [| split].
  - intros l H. rewrite (lookup_complete _ _ _ A2 H). reflexivity.
  - intros m H Hs. rewrite (Hnone _ _ Hs), (lookup_complete _ _ _ A1 H).
    reflexivity.
  - intros Hs Hm. rewrite (Hnone _ _ Hs), (Hnone _ _ Hm). reflexivity.
Qed.

(* ===================================================================== *)
(** * Well-formed strings *)
(* ===================================================================== *)

Lemma code_points_cons (a : ascii) (s : string) :
  (Unicode.bits a <? 0x80)%N = true ->
  Unicode.code_points (String a s) = Unicode.bits a :: Unicode.code_points s.
Proof. intros E. cbn [Unicode.code_points]. rewrite E. reflexivity. Qed.

Lemma within_true (lo hi n : N) :
  (lo <= n <= hi)%N -> Unicode.within lo hi n = true.
Proof. apply within_spec. Qed.

Lemma within_false (lo hi n : N) :
  (n < lo \/ hi < n)%N -> Unicode.within lo hi n = false.
Proof.
  intros H. unfold Unicode.within. apply andb_false_iff.
  rewrite !N.leb_gt. exact H.
Qed.

Lemma continuation_byte (k : N) :
  (k < 0x40)%N -> Unicode.continuation (ascii_of_N (0x80 + k)) = true
                  /\ Unicode.low6 (ascii_of_N (0x80 + k)) = k.
Proof.
  intros H. unfold Unicode.continuation, Unicode.low6.
  rewrite bits_ascii_of_N by lia. split; [apply within_true; lia | lia].
Qed.

Lemma code_points_2 (a b : ascii) (n : N) (s : string) :
  (Unicode.bits a <? 0x80)%N = false ->
  Unicode.decode2 a b = Some n ->
  Unicode.code_points (String a (String b s)) = n :: Unicode.code_points s.
Proof.
  intros Ha E2. cbn [Unicode.code_points]. rewrite Ha, E2. reflexivity.
Qed.

Lemma code_points_3 (a b c : ascii) (n : N) (s : string) :
  (Unicode.bits a <? 0x80)%N = false ->
  Unicode.decode2 a b = None ->
  Unicode.decode3 a b c = Some n ->
  Unicode.code_points (String a (String b (String c s)))
  = n :: Unicode.code_points s.
Proof.
  intros Ha E2 E3. cbn [Unicode.code_points]. rewrite Ha, E2, E3.
  reflexivity.
Qed.

Lemma code_points_4 (a b c d : ascii) (n : N) (s : string) :
  (Unicode.bits a <? 0x80)%N = false ->
  Unicode.decode2 a b = None ->
  Unicode.decode3 a b c = None ->
  Unicode.decode4 a b c d = Some n ->
  Unicode.code_points (String a (String b (String c (String d s))))
  = n :: Unicode.code_points s.
Proof.
  intros Ha E2 E3 E4. cbn [Unicode.code_points]. rewrite Ha, E2, E3, E4.
  reflexivity.
Qed.

Lemma lead_byte (k : N) :
  (0x80 <= k < 0x100)%N ->
  Unicode.bits (ascii_of_N k) = k
  /\ (Unicode.bits (ascii_of_N k) <? 0x80)%N = false.
Proof.
  intros H. rewrite bits_ascii_of_N by lia.
  split; [reflexivity | apply N.ltb_ge; lia].
Qed.

(** The bytes of a code point read back as that code point. *)
Lemma code_points_utf8 (n : N) (s : string) :
  scalar_value n = true ->
  Unicode.code_points (Unicode.utf8 n +:+ s) = n :: Unicode.code_points s.
Proof.
  intros Hn. apply scalar_value_spec in Hn. unfold Unicode.utf8.
  destruct (N.ltb_spec n 0x80) as [H1 | H1].
  { unfold Unicode.byte_string.
    repeat first [rewrite append_cons | rewrite append_empty_l].
    rewrite code_points_cons; rewrite bits_ascii_of_N by lia;
      [reflexivity | apply N.ltb_lt, H1]. }
  destruct (N.ltb_spec n 0x800) as [H2 | H2].
  { unfold Unicode.byte_string.
    repeat first [rewrite append_cons | rewrite append_empty_l].
    destruct (lead_byte (0xC0 + n / 0x40)) as [Ha Ha']; [div_lia |].
    destruct (continuation_byte (n mod 0x40)) as [Hc Hl]; [div_lia |].
    apply code_points_2; [exact Ha' |].
    unfold Unicode.decode2. rewrite Ha, Hc, Hl. cbv zeta.
    replace ((0xC0 + n / 0x40 - 0xC0) * 0x40 + n mod 0x40)%N with n
      by div_lia.
    rewrite (within_true 0xC0 0xDF) by div_lia.
    rewrite (within_true 0x80 0x7FF) by lia. reflexivity. }
  destruct (N.ltb_spec n 0x10000) as [H3 | H3].
  { unfold Unicode.byte_string.
    repeat first [rewrite append_cons | rewrite append_empty_l].
    destruct (lead_byte (0xE0 + n / 0x1000)) as [Ha Ha']; [div_lia |].
    destruct (continuation_byte ((n / 0x40) mod 0x40)) as [Hb Hlb];
      [div_lia |].
    destruct (continuation_byte (n mod 0x40)) as [Hc Hlc]; [div_lia |].
    apply code_points_3; [exact Ha' | |].
    - unfold Unicode.decode2. rewrite Ha. cbv zeta.
      rewrite (within_false 0xC0 0xDF) by div_lia. reflexivity.
    - unfold Unicode.decode3. rewrite Ha, Hb, Hc, Hlb, Hlc. cbv zeta.
      replace ((0xE0 + n / 0x1000 - 0xE0) * 0x1000
               + (n / 0x40) mod 0x40 * 0x40 + n mod 0x40)%N with n
        by div_lia.
      rewrite (within_true 0xE0 0xEF) by div_lia.
      rewrite (within_true 0x800 0xFFFF) by lia.
      rewrite (within_false 0xD800 0xDFFF) by lia. reflexivity. }
  destruct (N.ltb_spec n 0x110000) as [H4 | H4]; [| lia].
  unfold Unicode.byte_string.
  repeat first [rewrite append_cons | rewrite append_empty_l].
  destruct (lead_byte (0xF0 + n / 0x40000)) as [Ha Ha']; [div_lia |].
  destruct (continuation_byte ((n / 0x1000) mod 0x40)) as [Hb Hlb];
    [div_lia |].
  destruct (continuation_byte ((n / 0x40) mod 0x40)) as [Hc Hlc];
    [div_lia |].
  destruct (continuation_byte (n mod 0x40)) as [Hd Hld]; [div_lia |].
  apply code_points_4; [exact Ha' | | |].
  - unfold Unicode.decode2. rewrite Ha. cbv zeta.
    rewrite (within_false 0xC0 0xDF) by div_lia. reflexivity.
  - unfold Unicode.decode3. rewrite Ha. cbv zeta.
    rewrite (within_false 0xE0 0xEF) by div_lia. reflexivity.
  - unfold Unicode.decode4. rewrite Ha, Hb, Hc, Hd, Hlb, Hlc, Hld. cbv zeta.
    replace ((0xF0 + n / 0x40000 - 0xF0) * 0x40000
             + (n / 0x1000) mod 0x40 * 0x1000 + (n / 0x40) mod 0x40 * 0x40
             + n mod 0x40)%N with n
      by div_lia.
    rewrite (within_true 0xF0 0xF7) by div_lia.
    rewrite (within_true 0x10000 0x10FFFF) by lia. reflexivity.
Qed.

Lemma code_points_of_code_points (l : list N) :
  forallb scalar_value l = true ->
  Unicode.code_points (Unicode.of_code_points l) = l.
Proof.
  induction l as [| n l IH]; [reflexivity |]. cbn [forallb].
  rewrite andb_true_iff. intros [Hn Hl]. cbn [Unicode.of_code_points].
  rewrite (code_points_utf8 n _ Hn), (IH Hl). reflexivity.
Qed.

Lemma scalar_value_ok (n : N) :
  scalar_value n = true -> code_point_or_stray n = true.
Proof. unfold code_point_or_stray. intros ->. reflexivity. Qed.

(** Upper-casing code points yields code points. *)
Lemma uppercase_scalar (n : N) :
  scalar_value n = true -> forallb scalar_value (Unicode.uppercase n) = true.
Proof.
  intros Hn. apply uppercase_Forall; [vm_compute; reflexivity .. |].
  intros _. exact Hn.
Qed.

Lemma toUppercase_scalar (l : list N) :
  forallb scalar_value l = true ->
  forallb scalar_value (Unicode.toUppercase l) = true.
Proof.
  intros H. unfold Unicode.toUppercase. rewrite forallb_flat_map.
  apply forallb_forall. intros n Hn. apply uppercase_scalar.
  exact (proj1 (forallb_forall _ _) H n Hn).
Qed.

Lemma fixed_spec (n : N) : fixed n = true -> Unicode.uppercase n = [n].
Proof.
  unfold fixed. destruct (Unicode.uppercase n) as [| m [| m' u]];
    try discriminate.
  intros E. apply N.eqb_eq in E. subst m. reflexivity.
Qed.

(** What comes out of upper-casing is left as it is by upper-casing. *)
Lemma uppercase_fixed (n : N) : forallb fixed (Unicode.uppercase n) = true.
Proof.
  destruct (uppercase_cases n) as [(l & Hl & ->) | [(m & Hm & ->) | E]].
  - assert (T : forallb (fun e => forallb fixed (snd e))
                  Unicode.Uppercase_Special = true) by (vm_compute; reflexivity).
    exact (proj1 (forallb_forall _ _) T _ Hl).
  - assert (T : forallb (fun e => fixed (snd e))
                  Unicode.Uppercase_Mapping = true) by (vm_compute; reflexivity).
    cbn [forallb]. rewrite andb_true_r.
    exact (proj1 (forallb_forall _ _) T _ Hm).
  - rewrite E. cbn [forallb]. rewrite andb_true_r.
    unfold fixed. rewrite E. apply N.eqb_refl.
Qed.

Lemma toUppercase_fixed (l : list N) :
  forallb fixed l = true -> Unicode.toUppercase l = l.
Proof.
  unfold Unicode.toUppercase.
  induction l as [| n l IH]; [reflexivity |]. cbn [forallb flat_map].
  rewrite andb_true_iff. intros [Hn Hl].
  rewrite (fixed_spec n Hn), (IH Hl). reflexivity.
Qed.

Lemma toUppercase_idem (l : list N) :
  Unicode.toUppercase (Unicode.toUppercase l) = Unicode.toUppercase l.
Proof.
  apply toUppercase_fixed. unfold Unicode.toUppercase.
  rewrite forallb_flat_map. apply forallb_forall. intros n _.
  apply uppercase_fixed.
Qed.

(** Upper-casing a well-formed string twice is upper-casing it once. *)
Lemma toUpperCase_idem (c : string) :
  well_formed c = true ->
  Js.toUpperCase (Js.toUpperCase c) = Js.toUpperCase c.
Proof.
  intros H. unfold Js.toUpperCase.
  rewrite (code_points_of_code_points _ (toUppercase_scalar _ H)).
  rewrite toUppercase_idem. reflexivity.
Qed.

(* ===================================================================== *)
(** * Lower-casing and the keys of the registry *)
(* ===================================================================== *)

Lemma lowercase_cases (n : N) :
  (exists l, In (n, l) Unicode.Lowercase_Special /\ Unicode.lowercase n = l)
  \/ (exists m, In (n, m) Unicode.Lowercase_Mapping
                /\ Unicode.lowercase n = [m])
  \/ Unicode.lowercase n = [n].
Proof.
  unfold Unicode.lowercase.
  destruct (Unicode.lookup n Unicode.Lowercase_Special) as [l |] eqn:Es.
  - left. exists l. split; [apply lookup_In, Es | reflexivity].
  - destruct (Unicode.lookup n Unicode.Lowercase_Mapping) as [m |] eqn:Em.
    + right. left. exists m. split; [apply lookup_In, Em | reflexivity].
    + right. right. reflexivity.
Qed.

(** Lower-casing code points yields code points. *)
Lemma lowercase_scalar (n : N) :
  scalar_value n = true -> forallb scalar_value (Unicode.lowercase n) = true.
Proof.
  intros Hn.
  destruct (lowercase_cases n) as [(l & Hl & ->) | [(m & Hm & ->) | ->]].
  - assert (T : forallb (fun e => forallb scalar_value (snd e))
                  Unicode.Lowercase_Special = true) by (vm_compute; reflexivity).
    exact (proj1 (forallb_forall _ _) T _ Hl).
  - assert (T : forallb (fun e => scalar_value (snd e))
                  Unicode.Lowercase_Mapping = true) by (vm_compute; reflexivity).
    cbn [forallb]. rewrite andb_true_r.
    exact (proj1 (forallb_forall _ _) T _ Hm).
  - cbn [forallb]. rewrite Hn. reflexivity.
Qed.

Lemma lowercase_from_scalar (before : bool) (l : list N) :
  forallb scalar_value l = true ->
  forallb scalar_value (Unicode.lowercase_from before l) = true.
Proof.
  revert before. induction l as [| n l IH]; intros before; [reflexivity |].
  cbn [forallb Unicode.lowercase_from]. rewrite andb_true_iff.
  intros [Hn Hl]. rewrite forallb_app, (IH _ Hl), andb_true_r.
  destruct (_ && _ && _); [reflexivity | apply lowercase_scalar, Hn].
Qed.

Lemma In_listed (n : N) (l : list N) : In n l -> listed n l = true.
Proof.
  intros H. unfold listed. apply existsb_exists. exists n.
  split; [exact H | apply N.eqb_refl].
Qed.

(** Only the lower-case sources lower-case to capital sources alone. *)
Lemma lowercase_source (n : N) :
  forallb (fun m => listed m capital_sources) (Unicode.lowercase n) = true ->
  In n lowercase_sources.
Proof.
  destruct (lowercase_cases n) as [(l & Hl & ->) | [(m & Hm & ->) | ->]].
  - assert (T : forallb
                  (fun e =>
                     implb (forallb (fun m => listed m capital_sources)
                              (snd e))
                       (listed (fst e) lowercase_sources))
                  Unicode.Lowercase_Special = true) by (vm_compute; reflexivity).
    pose proof (proj1 (forallb_forall _ _) T _ Hl) as H. cbn [fst snd] in H.
    intros Hc. rewrite Hc in H. apply listed_In, H.
  - assert (T : forallb
                  (fun e =>
                     implb (listed (snd e) capital_sources)
                       (listed (fst e) lowercase_sources))
                  Unicode.Lowercase_Mapping = true) by (vm_compute; reflexivity).
    pose proof (proj1 (forallb_forall _ _) T _ Hm) as H. cbn [fst snd] in H.
    cbn [forallb]. rewrite andb_true_r.
    intros Hc. rewrite Hc in H. apply listed_In, H.
  - cbn [forallb]. rewrite andb_true_r. intros Hc.
    apply listed_In in Hc. unfold lowercase_sources.
    apply in_or_app. left. exact Hc.
Qed.

(** A lower-cased string made of capital sources comes from lower-case
    sources, and no sigma was involved. *)
Lemma lowercase_from_sources_inv (before : bool) (l : list N) :
  forallb (fun m => listed m capital_sources)
    (Unicode.lowercase_from before l) = true ->
  Forall (fun n => In n lowercase_sources) l
  /\ Unicode.lowercase_from before l = flat_map Unicode.lowercase l.
Proof.
  revert before. induction l as [| n l IH]; intros before;
    [split; [constructor | reflexivity] |].
  cbn [Unicode.lowercase_from flat_map]. rewrite forallb_app, andb_true_iff.
  intros [Hn Hl]. destruct (IH _ Hl) as [IH1 IH2]. rewrite IH2.
  destruct ((n =? Unicode.SIGMA)%N && before
            && negb (Unicode.cased_follows l)).
  - vm_compute in Hn. discriminate Hn.
  - split; [| reflexivity]. constructor; [| exact IH1].
    apply lowercase_source, Hn.
Qed.

Lemma flat_map_flat_map {A B C} (g : B -> list C) (f : A -> list B)
    (l : list A) :
  flat_map g (flat_map f l) = flat_map (fun a => flat_map g (f a)) l.
Proof.
  induction l as [| a l IH]; [reflexivity |].
  cbn [flat_map]. rewrite flat_map_app, IH. reflexivity.
Qed.

Lemma count_occ_flat_map {A} (f : A -> list N) (l : list A) (a : A) (x : N) :
  In a l ->
  count_occ N.eq_dec (f a) x <= count_occ N.eq_dec (flat_map f l) x.
Proof.
  induction l as [| b l IH]; [intros [] |].
  cbn [flat_map]. rewrite count_occ_app. intros [-> | H]; [lia |].
  specialize (IH H). lia.
Qed.

(** Upper-casing after lower-casing a lower-case source: as upper-casing
    the source, except for capital sharp s, which gives two S, and the
    Kelvin sign, which gives K. *)
Lemma lowercase_source_uppercase (n : N) :
  In n lowercase_sources ->
  (In n capital_sources
   /\ flat_map Unicode.uppercase (Unicode.lowercase n) = Unicode.uppercase n)
  \/ count_occ N.eq_dec
       (flat_map Unicode.uppercase (Unicode.lowercase n)) 0x53%N = 2
  \/ count_occ N.eq_dec
       (flat_map Unicode.uppercase (Unicode.lowercase n)) 0x4B%N = 1
     /\ In n [0x212A]%N.
Proof.
  intros H. unfold lowercase_sources in H. apply in_app_or in H.
  destruct H as [H | H].
  - left. split; [exact H | apply capital_source_lowercase, H].
  - right. destruct H as [<- | [<- | []]]; [left | right];
      vm_compute; auto.
Qed.

(** When the lower-cased form of a well-formed string upper-cases to
    capital letters with no K and at most one S, so does the string
    itself, to the same letters. *)
Lemma toUpperCase_toLowerCase_inv (c : string) :
  well_formed c = true ->
  capitals_only (Js.toUpperCase (Js.toLowerCase c)) = true ->
  one_s_no_k
    (Unicode.toUppercase (Unicode.toLowercase (Unicode.code_points c)))
  = true ->
  Js.toUpperCase c = Js.toUpperCase (Js.toLowerCase c).
Proof.
  intros Hwf Hcap Hkey.
  pose proof (capitals_sources _ Hcap) as Hs.
  unfold Js.toLowerCase in Hs |- *. unfold Js.toUpperCase.
  pose proof (lowercase_from_scalar false _ Hwf) as Hsc.
  fold (Unicode.toLowercase (Unicode.code_points c)) in Hsc.
  rewrite (code_points_of_code_points _ Hsc) in Hs |- *.
  assert (Hb : forallb (fun m => listed m capital_sources)
                 (Unicode.toLowercase (Unicode.code_points c)) = true).
  { apply forallb_forall. intros m Hm. apply In_listed.
    exact (proj1 (List.Forall_forall _ _) Hs m Hm). }
  destruct (lowercase_from_sources_inv _ _ Hb) as [Hsrc Hlow].
  unfold Unicode.toLowercase in *. rewrite Hlow in *.
  unfold Unicode.toUppercase in *. rewrite flat_map_flat_map in *.
  f_equal.
  assert (Hall : Forall (fun n => In n capital_sources)
                   (Unicode.code_points c)).
  { apply List.Forall_forall. intros n Hn.
    pose proof (proj1 (List.Forall_forall _ _) Hsrc n Hn) as Hsn.
    unfold one_s_no_k in Hkey. apply andb_true_iff in Hkey as [Hk Hone].
    apply Nat.eqb_eq in Hk. apply Nat.leb_le in Hone.
    destruct (lowercase_source_uppercase n Hsn) as [[H _] | [H | [H _]]];
      [exact H | exfalso .. ].
    - pose proof (count_occ_flat_map
                    (fun a => flat_map Unicode.uppercase (Unicode.lowercase a))
                    _ n 0x53%N Hn) as Hle.
      cbv beta in Hle. rewrite H in Hle. lia.
    - pose proof (count_occ_flat_map
                    (fun a => flat_map Unicode.uppercase (Unicode.lowercase a))
                    _ n 0x4B%N Hn) as Hle.
      cbv beta in Hle. rewrite H in Hle. lia. }
  rewrite <- flat_map_flat_map. symmetry.
  apply uppercase_lowercase_sources, Hall.
Qed.

Lemma forallb_scalar_ok (l : list N) :
  forallb scalar_value l = true ->
  Forall (fun n => code_point_or_stray n = true) l.
Proof.
  intros H. apply List.Forall_forall. intros n Hn. apply scalar_value_ok.
  exact (proj1 (forallb_forall _ _) H n Hn).
Qed.

(** A string of ASCII characters is well-formed. *)
Lemma ascii_only_well_formed (s : string) :
  ascii_only s = true -> well_formed s = true.
Proof.
  unfold ascii_only, well_formed.
  induction s as [| a s IH]; [reflexivity |]. cbn [Js.all_chars].
  rewrite andb_true_iff. intros [Ha Hs].
  rewrite (code_points_ascii _ _ Ha). cbn [forallb]. rewrite (IH Hs).
  rewrite andb_true_r. apply scalar_value_spec. left.
  apply Nat.ltb_lt in Ha. rewrite byte_bits in Ha. lia.
Qed.

(** The keys of the registry: capital letters, no K, at most one S. *)
Lemma key_letters (k : string) (d : Company) :
  In (k, d) COMPANIES ->
  one_s_no_k (map Unicode.bits (list_ascii_of_string k)) = true.
Proof.
  intros H. cbn in H.
  repeat (destruct H as [[= <- <-] | H]; [reflexivity |]). destruct H.
Qed.

(* ===================================================================== *)
(** * The registry: case-insensitive resolution *)
(* ===================================================================== *)

Lemma lower_upper_char (a : ascii) :
  lower_char (upper_char a) = lower_char a.
Proof. destruct a as [[] [] [] [] [] [] [] []]; reflexivity. Qed.

Lemma map_chars_compose (f g h : ascii -> ascii) (s : string) :
  (forall a, f (g a) = h a) ->
  map_chars f (map_chars g s) = map_chars h s.
Proof.
  intros H. induction s as [| a s IH]; simpl; [reflexivity |].
  rewrite H, IH. reflexivity.
Qed.

Lemma map_chars_ascii (f : ascii -> ascii) (s : string) :
  (forall a, (Js.byte a <? 128) = true -> (Js.byte (f a) <? 128) = true) ->
  ascii_only s = true -> ascii_only (map_chars f s) = true.
Proof.
  intros Hf. unfold ascii_only.
  induction s as [| a s IH]; [reflexivity |]. cbn [Js.all_chars map_chars].
  rewrite !andb_true_iff. intros [Ha Hs].
  split; [exact (Hf a Ha) | exact (IH Hs)].
Qed.

(** A hit comes from the registry, under the upper-cased form of its own
    code, which is made of capital letters. *)
Lemma getCompanyByCode_Some (c : string) (d : Company) :
  getCompanyByCode c = Some d ->
  In (Js.toUpperCase c, d) COMPANIES
  /\ In d (Object_values COMPANIES)
  /\ Js.toUpperCase c = Js.toUpperCase (code d)
  /\ capitals_only (Js.toUpperCase c) = true.
Proof.
  unfold getCompanyByCode, COMPANIES. cbn [get_property].
  repeat
    match goal with
    | |- (if String.eqb ?k ?u then _ else _) = _ -> _ =>
        destruct (String.eqb_spec k u) as [E | _];
        [ intros [= <-]; rewrite <- E;
          split; [cbn; tauto |];
          split; [cbn; tauto |];
          split; reflexivity
        | ]
    end.
  discriminate.
Qed.

Lemma getCompanyByCode_own_code (d : Company) :
  In d (Object_values COMPANIES) ->
  getCompanyByCode (code d) = Some d.
Proof.
  intros H. cbn in H.
  members H ltac:(reflexivity).
Qed.

Lemma getCompanyByCode_same (c c' : string) :
  same_ignoring_case c c' -> getCompanyByCode c = getCompanyByCode c'.
Proof. unfold getCompanyByCode. intros ->. reflexivity. Qed.

(** A code that resolves keeps resolving, to the same company, once
    upper-cased or lower-cased. *)
Lemma getCompanyByCode_found_any_casing (c : string) (d : Company) :
  getCompanyByCode c = Some d ->
  getCompanyByCode (Js.toUpperCase c) = Some d
  /\ getCompanyByCode (Js.toLowerCase c) = Some d.
Proof.
  intros H. destruct (getCompanyByCode_Some c d H) as (_ & _ & _ & Hcap).
  unfold getCompanyByCode in *.
  rewrite (toUpperCase_capitals _ Hcap).
  rewrite (toUpperCase_toLowerCase_capitals _ Hcap). split; exact H.
Qed.

(** A well-formed code whose lower-cased form resolves resolves itself,
    to the same company. *)
Lemma getCompanyByCode_lower_inv (c : string) (d : Company) :
  well_formed c = true ->
  getCompanyByCode (Js.toLowerCase c) = Some d ->
  getCompanyByCode c = Some d.
Proof.
  intros Hwf H.
  destruct (getCompanyByCode_Some _ d H) as (Hkey & _ & _ & Hcap).
  rewrite <- H. apply getCompanyByCode_same.
  apply toUpperCase_toLowerCase_inv; [exact Hwf | exact Hcap |].
  pose proof (lowercase_from_scalar false _ Hwf) as Hsc.
  fold (Unicode.toLowercase (Unicode.code_points c)) in Hsc.
  assert (E : Js.toUpperCase (Js.toLowerCase c)
              = Unicode.of_code_points
                  (Unicode.toUppercase
                     (Unicode.toLowercase (Unicode.code_points c)))).
  { unfold Js.toUpperCase, Js.toLowerCase.
    rewrite (code_points_of_code_points _ Hsc). reflexivity. }
  rewrite E in Hkey, Hcap.
  rewrite (of_code_points_ascii_inv _ _
             (forallb_scalar_ok _ (toUppercase_scalar _ Hsc))
             (capitals_only_ascii _ Hcap) eq_refl).
  exact (key_letters _ _ Hkey).
Qed.

(** A well-formed code resolves alike in its own, its upper-cased and its
    lower-cased form. *)
Lemma getCompanyByCode_any_casing (c : string) :
  well_formed c = true ->
  getCompanyByCode (Js.toUpperCase c) = getCompanyByCode c
  /\ getCompanyByCode (Js.toLowerCase c) = getCompanyByCode c.
Proof.
  intros H. split.
  - unfold getCompanyByCode. rewrite (toUpperCase_idem c H). reflexivity.
  - destruct (getCompanyByCode (Js.toLowerCase c)) as [d |] eqn:E.
    + symmetry. exact (getCompanyByCode_lower_inv c d H E).
    + destruct (getCompanyByCode c) as [d |] eqn:E'; [| reflexivity].
      destruct (getCompanyByCode_found_any_casing c d E') as [_ E''].
      congruence.
Qed.

(** C9. Company resolution is case-insensitive.  Every company of the
    registry is found under the upper-cased and under the lower-cased form
    of its code.  A code that, ignoring case, is the code of a company
    resolves to that company in its own, its upper-cased and its
    lower-cased form.  A code that is not registered resolves to
    not-found, and so does every code that is the same ignoring case; when
    it is well-formed (the bytes of a sequence of code points), so do its
    upper-cased and its lower-cased form. *)
Theorem getCompanyByCode_case_insensitive :
  (forall d, In d (Object_values COMPANIES) ->
     getCompanyByCode (Js.toUpperCase (code d)) = Some d
     /\ getCompanyByCode (Js.toLowerCase (code d)) = Some d)
  /\ (forall c d, In d (Object_values COMPANIES) ->
        same_ignoring_case c (code d) ->
        getCompanyByCode c = Some d
        /\ getCompanyByCode (Js.toUpperCase c) = Some d
        /\ getCompanyByCode (Js.toLowerCase c) = Some d)
  /\ (forall c, ~ registered c ->
        getCompanyByCode c = None
        /\ (forall c', same_ignoring_case c' c -> getCompanyByCode c' = None)
        /\ (well_formed c = true ->
            getCompanyByCode (Js.toUpperCase c) = None
            /\ getCompanyByCode (Js.toLowerCase c) = None)).
Proof.
  split; [| split].
  - intros d H.
    apply getCompanyByCode_found_any_casing, getCompanyByCode_own_code, H.
  - intros c d Hd Hc.
    assert (H : getCompanyByCode c = Some d)
      by (rewrite (getCompanyByCode_same _ _ Hc);
          apply getCompanyByCode_own_code, Hd).
    split; [exact H | apply getCompanyByCode_found_any_casing, H].
  - intros c H.
    assert (Hc : getCompanyByCode c = None).
    { destruct (getCompanyByCode c) as [d |] eqn:E; [| reflexivity].
      exfalso. apply H. exists d.
      destruct (getCompanyByCode_Some c d E) as (_ & Hin & Hcode & _).
      split; [exact Hin | exact Hcode]. }
    split; [exact Hc | split].
    + intros c' Hc'. rewrite (getCompanyByCode_same _ _ Hc'). exact Hc.
    + intros Ha. destruct (getCompanyByCode_any_casing c Ha) as [-> ->].
      split; exact Hc.
Qed.

Lemma getCompanyByCode_case_insensitive_witness :
  (getCompanyByCode "LeScO" = Some LESCO
   /\ getCompanyByCode "LESCO" = Some LESCO
   /\ getCompanyByCode "lesco" = Some LESCO)
  /\ (getCompanyByCode "leſco" = Some LESCO
      /\ getCompanyByCode "LESCO" = Some LESCO
      /\ getCompanyByCode "leſco" = Some LESCO)
  /\ (getCompanyByCode "invalid" = None
      /\ getCompanyByCode "INVALID" = None
      /\ getCompanyByCode "invalid" = None)
  /\ (getCompanyByCode "hésco" = None
      /\ getCompanyByCode "HÉSCO" = None
      /\ getCompanyByCode "hésco" = None).
Proof.
  assert (Hin : In LESCO (Object_values COMPANIES)) by (cbn; tauto).
  assert (Hno : forall c, getCompanyByCode c = None -> ~ registered c).
  { intros c Hc [d [Hd E]].
    rewrite (getCompanyByCode_same _ _ E) in Hc.
    cbn in Hd. members Hd ltac:(discriminate Hc). }
  split; [| split; [| split]].
  - exact (proj1 (proj2 getCompanyByCode_case_insensitive) "LeScO" LESCO
             Hin eq_refl).
  - exact (proj1 (proj2 getCompanyByCode_case_insensitive) "leſco" LESCO
             Hin eq_refl).
  - destruct (proj2 (proj2 getCompanyByCode_case_insensitive) "invalid"
                (Hno "invalid" eq_refl))
      as (H1 & _ & H2).
    split; [exact H1 | exact (H2 eq_refl)].
  - destruct (proj2 (proj2 getCompanyByCode_case_insensitive) "hésco"
                (Hno "hésco" eq_refl))
      as (H1 & _ & H2).
    split; [exact H1 | exact (H2 eq_refl)].
Defined.

(** No upper-cased key names a property inherited from [Object.prototype]:
    reading [COMPANIES[upperCode]] only ever meets the nine own entries. *)
Lemma getCompanyByCode_never_inherited (c : string) :
  ~ In (Js.toUpperCase c) Object_prototype_names.
Proof.
  pose proof (toUpperCase_no_small_letter c) as H.
  intros Hin. cbn in Hin.
  repeat (destruct Hin as [E | Hin];
          [rewrite <- E in H; vm_compute in H; discriminate H |]).
  destruct Hin.
Qed.

(* ===================================================================== *)
(** * Running programs *)
(* ===================================================================== *)

Lemma prepend_nil {S A} (o : Exc A * S * list Event) : prepend [] o = o.
Proof. destruct o as [[r s] log]. reflexivity. Qed.

Lemma prepend_prepend {S A} (l1 l2 : list Event)
    (o : Exc A * S * list Event) :
  prepend l1 (prepend l2 o) = prepend (l1 ++ l2) o.
Proof. destruct o as [[r s] log]. cbn. now rewrite app_assoc. Qed.

Lemma bind_ret {S A B} (a : A) (k : A -> Prog S B) (s : S) :
  bind (ret a) k s = k a s.
Proof. unfold bind, ret. apply prepend_nil. Qed.

Lemma bind_lift_Return {S A B} (a : A) (k : A -> Prog S B) (s : S) :
  bind (lift (Return a)) k s = k a s.
Proof. unfold bind, lift. apply prepend_nil. Qed.

Lemma bind_lift_Throw {S A B} (e : JsError) (k : A -> Prog S B) (s : S) :
  bind (lift (Throw e)) k s = (Throw e, s, []).
Proof. reflexivity. Qed.

Lemma prepend_result {S A} (l : list Event) (o : Exc A * S * list Event) :
  fst (fst (prepend l o)) = fst (fst o)
  /\ snd (fst (prepend l o)) = snd (fst o)
  /\ snd (prepend l o) = l ++ snd o.
Proof. destruct o as [[r s] log]. auto. Qed.

Lemma bind_emit {S B} (ev : Event) (k : unit -> Prog S B) (s : S) :
  bind (emit ev) k s = prepend [ev] (k tt s).
Proof. reflexivity. Qed.

Lemma bind_modify {S B} (f : S -> S) (k : unit -> Prog S B) (s : S) :
  bind (modify f) k s = k tt (f s).
Proof. unfold bind, modify. apply prepend_nil. Qed.

Lemma bind_select_Return {S B} (doc : Cheerio) (sel : string)
    (els : list Element) (k : list Element -> Prog S B) (s : S) :
  query doc sel = Return els ->
  bind (select doc sel) k s = prepend [EvSelect sel] (k els s).
Proof.
  intros H. unfold select, bind at 1. rewrite bind_emit, H.
  cbn. destruct (k els s) as [[r s'] log]. reflexivity.
Qed.

Lemma bind_select_Throw {S B} (doc : Cheerio) (sel : string) (e : JsError)
    (k : list Element -> Prog S B) (s : S) :
  query doc sel = Throw e ->
  bind (select doc sel) k s = (Throw e, s, [EvSelect sel]).
Proof. intros H. unfold select, bind, emit, lift. rewrite H. reflexivity. Qed.

Lemma bind_axios_get {B} (axios : Axios) (u : string) (c : Config)
    (x : Exc Response) (k : Response -> Prog unit B) (s : unit) :
  net_get axios u c = x ->
  bind (axios_get axios u c) k s
  = match x with
    | Return r => prepend [EvGet u c] (k r s)
    | Throw e => (Throw e, s, [EvGet u c])
    end.
Proof.
  intros H. unfold axios_get, bind, emit, lift. rewrite H.
  destruct x as [r | e]; cbn; [| reflexivity].
  destruct (k r s) as [[r' s'] log]. reflexivity.
Qed.

Lemma bind_axios_post {B} (axios : Axios) (u b : string) (c : Config)
    (x : Exc Response) (k : Response -> Prog unit B) (s : unit) :
  net_post axios u b c = x ->
  bind (axios_post axios u b c) k s
  = match x with
    | Return r => prepend [EvPost u b c] (k r s)
    | Throw e => (Throw e, s, [EvPost u b c])
    end.
Proof.
  intros H. unfold axios_post, bind, emit, lift. rewrite H.
  destruct x as [r | e]; cbn; [| reflexivity].
  destruct (k r s) as [[r' s'] log]. reflexivity.
Qed.

(** Reading a value: the selection is logged, then the value is used. *)
Lemma bind_reads_val {B} (doc : Cheerio) (sel : string) (v : JsValue)
    (k : JsValue -> Prog unit B) (s : unit) :
  reads_val doc sel v ->
  bind (select doc sel) (fun els => bind (lift (val els)) k) s
  = prepend [EvSelect sel] (k v s).
Proof.
  intros [els [Hq Hv]]. rewrite (bind_select_Return _ _ els) by exact Hq.
  rewrite Hv, bind_lift_Return. reflexivity.
Qed.

(* ===================================================================== *)
(** * getPITCBill, stage by stage *)
(* ===================================================================== *)

Lemma code_is_spec (e : JsError) (c : string) :
  code_is e c = true <-> err_code e = Some c.
Proof.
  unfold code_is. destruct (err_code e) as [c' |].
  - rewrite String.eqb_eq. split; congruence.
  - split; discriminate.
Qed.

(** The [catch] block returns, logs nothing, and sorts the fault by its
    code. *)
Lemma getPITCBill_catch_spec (e : JsError) (s : unit) :
  exists r, getPITCBill_catch e s = (Return r, s, []) /\ converted e r.
Proof.
  unfold getPITCBill_catch, converted, is_timeout, is_connection_failure.
  destruct (code_is e "ECONNABORTED") eqn:E1;
    destruct (code_is e "UND_ERR_CONNECT_TIMEOUT") eqn:E2;
    destruct (code_is e "ENOTFOUND") eqn:E3;
    destruct (code_is e "ECONNREFUSED") eqn:E4;
    cbn; eexists; (split; [reflexivity |]);
    repeat match goal with
      | H : code_is _ _ = true |- _ => apply code_is_spec in H
      | H : code_is _ _ = false |- _ =>
          apply not_true_iff_false in H; rewrite code_is_spec in H
      end;
    repeat split; intros; try reflexivity; try tauto;
    repeat match goal with H : _ \/ _ |- _ => destruct H end;
    congruence.
Qed.

(** [getPITCBill] always returns: whatever its [try] block throws is
    converted, and the calls made are those of the [try] block. *)
Lemma getPITCBill_outcome (axios : Axios) (refNo companyCode : string) :
  exists r,
    getPITCBill axios refNo companyCode tt
    = (Return r, tt, snd (getPITCBill_try axios refNo companyCode tt))
    /\ match fst (fst (getPITCBill_try axios refNo companyCode tt)) with
       | Return a => r = a
       | Throw e => converted e r
       end.
Proof.
  unfold getPITCBill, try_catch.
  destruct (getPITCBill_try axios refNo companyCode tt)
    as [[[a | e] []] log]; cbn.
  - eauto.
  - destruct (getPITCBill_catch_spec e tt) as [r [-> Hr]].
    exists r. cbn. rewrite app_nil_r. auto.
Qed.

Lemma getPITCBill_try_unknown (axios : Axios) (refNo companyCode : string) :
  getCompanyByCode companyCode = None ->
  getPITCBill_try axios refNo companyCode tt
  = (Return (Failure invalid_company_message), tt, []).
Proof. intros H. unfold getPITCBill_try. rewrite H. reflexivity. Qed.

Lemma getPITCBill_try_get_fault (axios : Axios) (refNo companyCode : string)
    (company : Company) (e : JsError) :
  getCompanyByCode companyCode = Some company ->
  net_get axios (url company) get_config = Throw e ->
  getPITCBill_try axios refNo companyCode tt
  = (Throw e, tt, [EvGet (url company) get_config]).
Proof.
  intros Hc Hg. unfold getPITCBill_try. rewrite Hc. cbv zeta.
  rewrite (bind_axios_get _ _ _ _ _ _ Hg). reflexivity.
Qed.

(** STEP 1 and STEP 2 on a page whose four reads answer. *)
Lemma getPITCBill_try_tokens (axios : Axios) (refNo companyCode : string)
    (company : Company) (getResponse : Response) (vs vsg ev rvt : JsValue) :
  getCompanyByCode companyCode = Some company ->
  net_get axios (url company) get_config = Return getResponse ->
  token_page (response_data getResponse) vs vsg ev rvt ->
  getPITCBill_try axios refNo companyCode tt
  = prepend (token_events company)
      (if falsy vs || falsy vsg || falsy ev then
         (Return
            (Failure "Failed to extract required tokens from PITC portal"),
          tt, [])
       else
         submitForm axios company refNo getResponse vs vsg ev rvt tt).
Proof.
  intros Hc Hg (H1 & H2 & H3 & H4). unfold getPITCBill_try. rewrite Hc.
  cbv zeta. unfold cheerio_load.
  rewrite (bind_axios_get _ _ _ _ _ _ Hg).
  rewrite (bind_reads_val _ _ _ _ _ H1), (bind_reads_val _ _ _ _ _ H2),
    (bind_reads_val _ _ _ _ _ H3), (bind_reads_val _ _ _ _ _ H4).
  rewrite !prepend_prepend. unfold token_events. cbn [app].
  destruct (falsy vs || falsy vsg || falsy ev); reflexivity.
Qed.

(** STEP 3: the POST is logged; its answer goes on to STEP 4. *)
Lemma submitForm_post (axios : Axios) (company : Company) (refNo : string)
    (getResponse : Response) (vs vsg ev rvt : JsValue) (x : Exc Response) :
  net_post axios (url company)
    (form_body (String_of vs) (String_of vsg) (String_of ev)
       (String_of rvt) refNo)
    (post_config (url company) getResponse) = x ->
  submitForm axios company refNo getResponse vs vsg ev rvt tt
  = match x with
    | Return postResponse =>
        prepend
          [EvPost (url company)
             (form_body (String_of vs) (String_of vsg) (String_of ev)
                (String_of rvt) refNo)
             (post_config (url company) getResponse)]
          (interpretResponse company refNo postResponse tt)
    | Throw e =>
        (Throw e, tt,
         [EvPost (url company)
            (form_body (String_of vs) (String_of vsg) (String_of ev)
               (String_of rvt) refNo)
            (post_config (url company) getResponse)])
    end.
Proof.
  intros H. unfold submitForm. cbv zeta.
  change (UrlEncoded.toString
            (UrlEncoded.URLSearchParams
               (form_fields vs vsg ev rvt refNo)))
    with (form_body (String_of vs) (String_of vsg) (String_of ev)
            (String_of rvt) refNo).
  rewrite (bind_axios_post _ _ _ _ _ _ _ H). reflexivity.
Qed.

(** STEP 4 with text in the error region: the failure, and no further
    query. *)
Lemma interpretResponse_error (company : Company) (refNo : string)
    (postResponse : Response) (uaText : string) :
  reads_text (response_data postResponse) "#ua" uaText ->
  Js.trim uaText <> "" ->
  interpretResponse company refNo postResponse tt
  = (Return (PortalFailure (Js.trim uaText) refNo (code company)), tt,
     [EvSelect "#ua"]).
Proof.
  intros [els [Hq Ht]] Hne. unfold interpretResponse. cbv zeta.
  unfold cheerio_load. rewrite (bind_select_Return _ _ els) by exact Hq.
  rewrite Ht, bind_lift_Return.
  destruct (Js.truthy (Js.trim uaText)) eqn:E.
  - reflexivity.
  - apply truthy_empty in E. contradiction.
Qed.

(** STEP 4 with an empty error region: STEP 5 runs. *)
Lemma interpretResponse_bill (company : Company) (refNo : string)
    (postResponse : Response) (uaText : string) :
  reads_text (response_data postResponse) "#ua" uaText ->
  Js.trim uaText = "" ->
  interpretResponse company refNo postResponse tt
  = prepend [EvSelect "#ua"]
      (bind (parseBillDetails (response_data postResponse) refNo
               (code company))
         (fun billData =>
            ret (Success refNo (code company) (name company) billData))
         tt).
Proof.
  intros [els [Hq Ht]] He. unfold interpretResponse. cbv zeta.
  unfold cheerio_load. rewrite (bind_select_Return _ _ els) by exact Hq.
  rewrite Ht, bind_lift_Return, He. reflexivity.
Qed.

(* ===================================================================== *)
(** * The form body can be read back *)
(* ===================================================================== *)

Lemma encode_byte_no_sep (c : ascii) :
  no_char "&" (UrlEncoded.encode_byte c) = true
  /\ no_char "=" (UrlEncoded.encode_byte c) = true.
Proof. destruct c as [[] [] [] [] [] [] [] []]; split; reflexivity. Qed.

Lemma encode_no_sep (s : string) :
  no_char "&" (UrlEncoded.encode s) = true
  /\ no_char "=" (UrlEncoded.encode s) = true.
Proof.
  induction s as [| a s [IH1 IH2]]; [split; reflexivity |].
  cbn [UrlEncoded.encode]. unfold no_char in *. rewrite !all_chars_app.
  destruct (encode_byte_no_sep a) as [H1 H2]. unfold no_char in *.
  rewrite H1, H2, IH1, IH2. split; reflexivity.
Qed.

Lemma decode_encode_byte (c : ascii) (rest : string) :
  decode (UrlEncoded.encode_byte c +:+ rest) = String c (decode rest).
Proof. destruct c as [[] [] [] [] [] [] [] []]; reflexivity. Qed.

Lemma decode_encode (s : string) : decode (UrlEncoded.encode s) = s.
Proof.
  induction s as [| a s IH]; [reflexivity |].
  cbn [UrlEncoded.encode]. rewrite decode_encode_byte, IH. reflexivity.
Qed.

Lemma cut_app (sep : ascii) (k v : string) :
  no_char sep k = true ->
  cut sep (k +:+ String sep v) = (k, v).
Proof.
  induction k as [| a k IH]; intros H.
  - rewrite append_empty_l. cbn. rewrite Ascii.eqb_refl. reflexivity.
  - rewrite append_cons. cbn in *. apply andb_true_iff in H as [Ha Hk].
    apply negb_true_iff in Ha. rewrite Ha, (IH Hk). reflexivity.
Qed.

Lemma split_no_sep (sep : ascii) (s : string) :
  no_char sep s = true -> split sep s = [s].
Proof.
  induction s as [| a s IH]; intros H; [reflexivity |].
  cbn in *. apply andb_true_iff in H as [Ha Hs].
  apply negb_true_iff in Ha. rewrite Ha, (IH Hs). reflexivity.
Qed.

Lemma split_app (sep : ascii) (s t : string) :
  no_char sep s = true ->
  split sep (s +:+ String sep t) = s :: split sep t.
Proof.
  induction s as [| a s IH]; intros H.
  - rewrite append_empty_l. cbn. rewrite Ascii.eqb_refl. reflexivity.
  - rewrite append_cons. cbn in *. apply andb_true_iff in H as [Ha Hs].
    apply negb_true_iff in Ha. rewrite Ha, (IH Hs). reflexivity.
Qed.

Lemma split_join (sep : ascii) (l : list string) :
  l <> [] ->
  Forall (fun s => no_char sep s = true) l ->
  split sep (Js.join (String sep "") l) = l.
Proof.
  intros Hne H. induction H as [| x l Hx Hl IH]; [congruence |].
  destruct l as [| y l].
  - cbn. apply split_no_sep, Hx.
  - change (Js.join (String sep "") (x :: y :: l))
      with (x +:+ String sep "" +:+ Js.join (String sep "") (y :: l)).
    change (String sep "" +:+ Js.join (String sep "") (y :: l))
      with (String sep (Js.join (String sep "") (y :: l))).
    rewrite (split_app _ _ _ Hx), IH by discriminate. reflexivity.
Qed.

Lemma toString_pair_text (params : list (string * string)) :
  UrlEncoded.toString params = Js.join "&" (map pair_text params).
Proof.
  unfold UrlEncoded.toString. f_equal. apply map_ext. intros [k v].
  reflexivity.
Qed.

(** What [toString] writes, the receiving side reads back unchanged. *)
Lemma parse_form_toString (params : list (string * string)) :
  parse_form (UrlEncoded.toString params) = params.
Proof.
  destruct params as [| p params]; [reflexivity |].
  rewrite toString_pair_text. unfold parse_form.
  assert (Hs : split "&" (Js.join "&" (map pair_text (p :: params)))
               = map pair_text (p :: params)).
  { apply split_join; [discriminate |]. apply List.Forall_forall.
    intros s Hs. apply in_map_iff in Hs as [[k v] [<- _]].
    unfold pair_text. cbn [fst snd].
    pose proof (encode_no_sep k) as [Hk _].
    pose proof (encode_no_sep v) as [Hv _].
    unfold no_char in *. rewrite !all_chars_app, Hk, Hv. reflexivity. }
  assert (Hne : Js.join "&" (map pair_text (p :: params)) <> "").
  { intros E. rewrite E in Hs. injection Hs as Hp _.
    unfold pair_text in Hp.
    destruct (UrlEncoded.encode (fst p)); discriminate Hp. }
  destruct (Js.join "&" (map pair_text (p :: params))) eqn:E;
    [congruence |]. rewrite Hs. rewrite map_map.
  rewrite <- (map_id (p :: params)) at 2. apply map_ext.
  intros [k v]. unfold pair_text. cbn [fst snd].
  change ("=" +:+ UrlEncoded.encode v) with (String "=" (UrlEncoded.encode v)).
  rewrite cut_app by apply encode_no_sep. rewrite !decode_encode.
  reflexivity.
Qed.

(* ===================================================================== *)
(** * The lookup as a whole *)
(* ===================================================================== *)

Lemma run_getPITCBill (axios : Axios) (refNo companyCode : string)
    (x : Exc Result) (log : list Event) :
  getPITCBill_try axios refNo companyCode tt = (x, tt, log) ->
  exists r,
    run (getPITCBill axios refNo companyCode) = (Return r, log)
    /\ match x with
       | Return a => r = a
       | Throw e => converted e r
       end.
Proof.
  intros H. destruct (getPITCBill_outcome axios refNo companyCode)
    as [r [Hr Hx]].
  exists r. unfold run. rewrite Hr, H in *. auto.
Qed.

Lemma falsy_absent_or_empty (v : JsValue) :
  absent_or_empty v -> falsy v = true.
Proof. intros [-> | ->]; reflexivity. Qed.

Lemma falsy_nonempty (s : string) : s <> "" -> falsy (JsString s) = false.
Proof. destruct s; [congruence | reflexivity]. Qed.

(** With the three state tokens read, the form is posted. *)
Lemma getPITCBill_posts (axios : Axios) (refNo companyCode : string)
    (company : Company) (getResponse : Response) (vs vsg ev rvt : JsValue) :
  getCompanyByCode companyCode = Some company ->
  net_get axios (url company) get_config = Return getResponse ->
  token_page (response_data getResponse) vs vsg ev rvt ->
  falsy vs = false -> falsy vsg = false -> falsy ev = false ->
  exists x rest,
    getPITCBill_try axios refNo companyCode tt
    = (x, tt,
       token_events company
       ++ EvPost (url company)
            (form_body (String_of vs) (String_of vsg) (String_of ev)
               (String_of rvt) refNo)
            (post_config (url company) getResponse) :: rest).
Proof.
  intros Hc Hg Ht F1 F2 F3.
  rewrite (getPITCBill_try_tokens _ _ _ _ _ _ _ _ _ Hc Hg Ht), F1, F2, F3.
  cbn [orb].
  rewrite (submitForm_post _ _ _ _ _ _ _ _ _ eq_refl).
  destruct (net_post _ _ _ _) as [postResponse | e].
  - destruct (interpretResponse company refNo postResponse tt)
      as [[x []] rest]. exists x, rest. reflexivity.
  - exists (Throw e), []. reflexivity.
Qed.

(** C6. On a fetched page where one of the first three tokens (view
    state, view-state generator, event validation) is absent or empty, the
    lookup returns the failure "Failed to extract required tokens from PITC
    portal" and its calls end with the four reads of the page: no form is
    posted.  With all four tokens present (the first three non-empty), the
    form is posted and the body, read back by the receiving side, carries
    exactly the four values of the page. *)
Theorem getPITCBill_requires_tokens (axios : Axios)
    (refNo companyCode : string) (company : Company)
    (getResponse : Response) (vs vsg ev rvt : JsValue) :
  getCompanyByCode companyCode = Some company ->
  net_get axios (url company) get_config = Return getResponse ->
  token_page (response_data getResponse) vs vsg ev rvt ->
  ((absent_or_empty vs \/ absent_or_empty vsg \/ absent_or_empty ev) ->
     run (getPITCBill axios refNo companyCode)
     = (Return
          (Failure "Failed to extract required tokens from PITC portal"),
        token_events company)
     /\ posted_bodies (token_events company) = [])
  /\ (forall v1 v2 v3 v4,
        vs = JsString v1 -> vsg = JsString v2 -> ev = JsString v3 ->
        rvt = JsString v4 -> v1 <> "" -> v2 <> "" -> v3 <> "" ->
        exists r rest body,
          run (getPITCBill axios refNo companyCode)
          = (Return r,
             token_events company
             ++ EvPost (url company) body
                  (post_config (url company) getResponse) :: rest)
          /\ parse_form body
             = [ ("__VIEWSTATE", v1);
                 ("__VIEWSTATEGENERATOR", v2);
                 ("__EVENTVALIDATION", v3);
                 ("__RequestVerificationToken", v4);
                 ("rbSearchByList", "refno");
                 ("searchTextBox", refNo);
                 ("ruCodeTextBox", "");
                 ("btnSearch", "Search") ]).
Proof.
  intros Hc Hg Ht. split.
  - intros Hmiss. split; [| reflexivity].
    assert (F : falsy vs || falsy vsg || falsy ev = true).
    { destruct Hmiss as [H | [H | H]];
        apply falsy_absent_or_empty in H; rewrite H;
        rewrite ?orb_true_r; reflexivity. }
    pose proof (getPITCBill_try_tokens axios refNo _ _ _ _ _ _ _ Hc Hg Ht)
      as Htry.
    rewrite F in Htry. cbn in Htry.
    destruct (run_getPITCBill _ _ _ _ _ Htry) as [r [Hr ->]].
    exact Hr.
  - intros v1 v2 v3 v4 -> -> -> -> N1 N2 N3.
    destruct (getPITCBill_posts axios refNo _ _ _ _ _ _ _ Hc Hg Ht
                (falsy_nonempty _ N1) (falsy_nonempty _ N2)
                (falsy_nonempty _ N3)) as [x [rest Htry]].
    destruct (run_getPITCBill _ _ _ _ _ Htry) as [r [Hr _]].
    exists r, rest, (form_body v1 v2 v3 v4 refNo). split; [exact Hr |].
    apply parse_form_toString.
Qed.

Lemma getPITCBill_requires_tokens_witness :
  (run (getPITCBill
          (portal
             (Return (mkResponse (form_page "dDwt" "" "ev01" (Some "tok"))
                        None))
             (Return (mkResponse (answer_page "" []) None)))
          "06113530462901" "lesco")
   = (Return (Failure "Failed to extract required tokens from PITC portal"),
      token_events LESCO)
   /\ posted_bodies (token_events LESCO) = [])
  /\ (exists r rest body,
        run (getPITCBill
               (portal
                  (Return (mkResponse
                             (form_page "dDwt" "CA0B" "ev01" (Some "tok"))
                             None))
                  (Return (mkResponse (answer_page "" []) None)))
               "06113530462901" "lesco")
        = (Return r,
           token_events LESCO
           ++ EvPost (url LESCO) body
                (post_config (url LESCO)
                   (mkResponse (form_page "dDwt" "CA0B" "ev01" (Some "tok"))
                      None)) :: rest)
        /\ parse_form body
           = [ ("__VIEWSTATE", "dDwt");
               ("__VIEWSTATEGENERATOR", "CA0B");
               ("__EVENTVALIDATION", "ev01");
               ("__RequestVerificationToken", "tok");
               ("rbSearchByList", "refno");
               ("searchTextBox", "06113530462901");
               ("ruCodeTextBox", "");
               ("btnSearch", "Search") ]).
Proof.
  split.
  - refine (proj1 (getPITCBill_requires_tokens
                     (portal
                        (Return (mkResponse
                                   (form_page "dDwt" "" "ev01" (Some "tok"))
                                   None))
                        (Return (mkResponse (answer_page "" []) None)))
                     "06113530462901" "lesco" LESCO
                     (mkResponse (form_page "dDwt" "" "ev01" (Some "tok"))
                        None)
                     (JsString "dDwt") (JsString "") (JsString "ev01")
                     (JsString "tok") eq_refl eq_refl _) _).
    + repeat split; eexists; split; reflexivity.
    + right. left. right. reflexivity.
  - refine (proj2 (getPITCBill_requires_tokens
                     (portal
                        (Return (mkResponse
                                   (form_page "dDwt" "CA0B" "ev01"
                                      (Some "tok"))
                                   None))
                        (Return (mkResponse (answer_page "" []) None)))
                     "06113530462901" "lesco" LESCO
                     (mkResponse
                        (form_page "dDwt" "CA0B" "ev01" (Some "tok")) None)
                     (JsString "dDwt") (JsString "CA0B") (JsString "ev01")
                     (JsString "tok") eq_refl eq_refl _)
              "dDwt" "CA0B" "ev01" "tok" eq_refl eq_refl eq_refl eq_refl
              _ _ _); try discriminate.
    repeat split; eexists; split; reflexivity.
Defined.

(** C2 (as the code has it). On a fetched page with the three state
    tokens and no request-verification token the lookup does not stop: the
    form is posted, and in the posted body the
    [__RequestVerificationToken] field carries the nine letters
    "undefined", the text [URLSearchParams] makes of a missing value. *)
Theorem getPITCBill_missing_verification_token (axios : Axios)
    (refNo companyCode : string) (company : Company)
    (getResponse : Response) (v1 v2 v3 : string) :
  getCompanyByCode companyCode = Some company ->
  net_get axios (url company) get_config = Return getResponse ->
  token_page (response_data getResponse)
    (JsString v1) (JsString v2) (JsString v3) JsUndefined ->
  v1 <> "" -> v2 <> "" -> v3 <> "" ->
  exists r rest body,
    run (getPITCBill axios refNo companyCode)
    = (Return r,
       token_events company
       ++ EvPost (url company) body
            (post_config (url company) getResponse) :: rest)
    /\ body = form_body v1 v2 v3 "undefined" refNo
    /\ get_property (parse_form body) "__RequestVerificationToken"
       = Some "undefined".
Proof.
  intros Hc Hg Ht N1 N2 N3.
  destruct (getPITCBill_posts axios refNo _ _ _ _ _ _ _ Hc Hg Ht
              (falsy_nonempty _ N1) (falsy_nonempty _ N2)
              (falsy_nonempty _ N3)) as [x [rest Htry]].
  destruct (run_getPITCBill _ _ _ _ _ Htry) as [r [Hr _]].
  exists r, rest, (form_body v1 v2 v3 "undefined" refNo).
  split; [exact Hr |]. split; [reflexivity |].
  unfold form_body. rewrite parse_form_toString. reflexivity.
Qed.

Lemma getPITCBill_missing_verification_token_witness :
  exists r rest body,
    run (getPITCBill
           (portal
              (Return (mkResponse (form_page "dDwt" "CA0B" "ev01" None)
                         None))
              (Return (mkResponse (answer_page "" []) None)))
           "06113530462901" "lesco")
    = (Return r,
       token_events LESCO
       ++ EvPost (url LESCO) body
            (post_config (url LESCO)
               (mkResponse (form_page "dDwt" "CA0B" "ev01" None) None))
          :: rest)
    /\ body = form_body "dDwt" "CA0B" "ev01" "undefined" "06113530462901"
    /\ get_property (parse_form body) "__RequestVerificationToken"
       = Some "undefined".
Proof.
  refine (getPITCBill_missing_verification_token
            (portal
               (Return (mkResponse (form_page "dDwt" "CA0B" "ev01" None)
                          None))
               (Return (mkResponse (answer_page "" []) None)))
            "06113530462901" "lesco" LESCO
            (mkResponse (form_page "dDwt" "CA0B" "ev01" None) None)
            "dDwt" "CA0B" "ev01" eq_refl eq_refl _ _ _ _);
    try discriminate.
  repeat split; eexists; split; reflexivity.
Defined.

(** C2, the claim as written, fails: on a page with the three state tokens
    and no request-verification token the one body posted reads
    [...&__RequestVerificationToken=undefined&...], and the value the
    receiving side reads for the field is not the empty string. *)
Lemma missing_verification_token_is_not_empty :
  posted_bodies
    (snd (run (getPITCBill
                 (portal
                    (Return (mkResponse (form_page "dDwt" "CA0B" "ev01" None)
                               None))
                    (Return (mkResponse (answer_page "" []) None)))
                 "06113530462901" "lesco")))
  = [ "__VIEWSTATE=dDwt&__VIEWSTATEGENERATOR=CA0B&__EVENTVALIDATION=ev01&__RequestVerificationToken=undefined&rbSearchByList=refno&searchTextBox=06113530462901&ruCodeTextBox=&btnSearch=Search" ]
  /\ get_property
       (parse_form
          "__VIEWSTATE=dDwt&__VIEWSTATEGENERATOR=CA0B&__EVENTVALIDATION=ev01&__RequestVerificationToken=undefined&rbSearchByList=refno&searchTextBox=06113530462901&ruCodeTextBox=&btnSearch=Search")
       "__RequestVerificationToken"
     = Some "undefined"
  /\ Some "undefined" <> Some "".
Proof. split; [| split]; [vm_compute; reflexivity .. | discriminate]. Qed.

(** The table query is only ever made after an empty error region. *)
Lemma interpretResponse_table_query (company : Company) (refNo : string)
    (postResponse : Response) :
  In (EvSelect "table tr")
     (snd (interpretResponse company refNo postResponse tt)) ->
  exists uaText,
    reads_text (response_data postResponse) "#ua" uaText
    /\ Js.trim uaText = "".
Proof.
  unfold interpretResponse. cbv zeta. unfold cheerio_load.
  destruct (query (response_data postResponse) "#ua") as [els | e] eqn:Hq.
  - rewrite (bind_select_Return _ _ els) by exact Hq.
    destruct (text els) as [t | e] eqn:Ht.
    + rewrite bind_lift_Return.
      destruct (Js.truthy (Js.trim t)) eqn:E.
      * cbn. intros [H | []]. discriminate H.
      * intros _. exists t. split; [exists els; auto |].
        apply truthy_empty, E.
    + rewrite bind_lift_Throw. cbn. intros [H | []]. discriminate H.
  - rewrite (bind_select_Throw _ _ e) by exact Hq.
    cbn. intros [H | []]. discriminate H.
Qed.

(** C5. When the error region [#ua] of the POST response has non-empty
    trimmed text, interpretation returns the failure whose error is exactly
    that trimmed text, with the reference number and the company code, and
    its only query is the one for [#ua]: the table is not looked at.  The
    table query is made only when the trimmed text of [#ua] is empty.  For
    the lookup as a whole: its result is that failure and its calls end
    with the POST and the [#ua] query. *)
Theorem getPITCBill_portal_error (axios : Axios)
    (refNo companyCode : string) (company : Company)
    (getResponse postResponse : Response) (vs vsg ev rvt : JsValue)
    (uaText : string) :
  reads_text (response_data postResponse) "#ua" uaText ->
  (Js.trim uaText <> "" ->
     interpretResponse company refNo postResponse tt
     = (Return (PortalFailure (Js.trim uaText) refNo (code company)), tt,
        [EvSelect "#ua"]))
  /\ (In (EvSelect "table tr")
        (snd (interpretResponse company refNo postResponse tt)) ->
      Js.trim uaText = "")
  /\ (Js.trim uaText <> "" ->
      getCompanyByCode companyCode = Some company ->
      net_get axios (url company) get_config = Return getResponse ->
      token_page (response_data getResponse) vs vsg ev rvt ->
      falsy vs = false -> falsy vsg = false -> falsy ev = false ->
      net_post axios (url company)
        (form_body (String_of vs) (String_of vsg) (String_of ev)
           (String_of rvt) refNo)
        (post_config (url company) getResponse) = Return postResponse ->
      run (getPITCBill axios refNo companyCode)
      = (Return (PortalFailure (Js.trim uaText) refNo (code company)),
         token_events company
         ++ [ EvPost (url company)
                (form_body (String_of vs) (String_of vsg) (String_of ev)
                   (String_of rvt) refNo)
                (post_config (url company) getResponse);
              EvSelect "#ua" ])).
Proof.
  intros Hua. split; [| split].
  - intros Hne. apply interpretResponse_error; assumption.
  - intros Hin.
    destruct (interpretResponse_table_query _ _ _ Hin)
      as [t [[els' [Hq' Ht']] He]].
    destruct Hua as [els [Hq Ht]].
    rewrite Hq in Hq'. injection Hq' as <-.
    rewrite Ht in Ht'. injection Ht' as <-. exact He.
  - intros Hne Hc Hg Htok F1 F2 F3 Hp.
    pose proof (getPITCBill_try_tokens axios refNo _ _ _ _ _ _ _ Hc Hg Htok)
      as Htry.
    rewrite F1, F2, F3 in Htry. cbn [orb] in Htry.
    rewrite (submitForm_post _ _ _ _ _ _ _ _ _ Hp) in Htry.
    rewrite (interpretResponse_error _ _ _ _ Hua Hne) in Htry.
    cbn [prepend] in Htry.
    destruct (run_getPITCBill _ _ _ _ _ Htry) as [r [Hr ->]].
    rewrite Hr. reflexivity.
Qed.

Lemma getPITCBill_portal_error_witness :
  run (getPITCBill
         (portal
            (Return (mkResponse (form_page "dDwt" "CA0B" "ev01" (Some "tok"))
                       None))
            (Return (mkResponse
                       (answer_page "  Bill not found  "
                          [table_row ["Consumer Name"; "Jane Doe"]])
                       None)))
         "06113530462901" "lesco")
  = (Return (PortalFailure "Bill not found" "06113530462901" "lesco"),
     token_events LESCO
     ++ [ EvPost (url LESCO)
            (form_body "dDwt" "CA0B" "ev01" "tok" "06113530462901")
            (post_config (url LESCO)
               (mkResponse (form_page "dDwt" "CA0B" "ev01" (Some "tok"))
                  None));
          EvSelect "#ua" ]).
Proof.
  refine (proj2 (proj2
            (getPITCBill_portal_error
               (portal
                  (Return (mkResponse
                             (form_page "dDwt" "CA0B" "ev01" (Some "tok"))
                             None))
                  (Return (mkResponse
                             (answer_page "  Bill not found  "
                                [table_row ["Consumer Name"; "Jane Doe"]])
                             None)))
               "06113530462901" "lesco" LESCO
               (mkResponse (form_page "dDwt" "CA0B" "ev01" (Some "tok")) None)
               (mkResponse
                  (answer_page "  Bill not found  "
                     [table_row ["Consumer Name"; "Jane Doe"]])
                  None)
               (JsString "dDwt") (JsString "CA0B") (JsString "ev01")
               (JsString "tok") "  Bill not found  " _))
            _ eq_refl eq_refl _ eq_refl eq_refl eq_refl eq_refl).
  - eexists; split; reflexivity.
  - vm_compute. discriminate.
  - repeat split; eexists; split; reflexivity.
Defined.

(** C7. No fault escapes [getPITCBill]: every run returns a result.  A
    fault raised anywhere in the [try] block is turned into a failure
    result according to its code: [ECONNABORTED] and
    [UND_ERR_CONNECT_TIMEOUT] (timeouts) give "Connection timeout - PITC
    server may be geo-restricted or down", [ENOTFOUND] and [ECONNREFUSED]
    (DNS failure, refused connection) give "Unable to connect to PITC
    server", anything else gives the fault's own message.  In particular
    this is what happens to a fault of the GET and to a fault of the
    POST. *)
Theorem getPITCBill_converts_faults (axios : Axios)
    (refNo companyCode : string) :
  (exists r log, run (getPITCBill axios refNo companyCode) = (Return r, log))
  /\ (forall e log,
        getPITCBill_try axios refNo companyCode tt = (Throw e, tt, log) ->
        exists r,
          run (getPITCBill axios refNo companyCode) = (Return r, log)
          /\ converted e r)
  /\ (forall company e,
        getCompanyByCode companyCode = Some company ->
        net_get axios (url company) get_config = Throw e ->
        exists r,
          run (getPITCBill axios refNo companyCode)
          = (Return r, [EvGet (url company) get_config])
          /\ converted e r)
  /\ (forall company getResponse vs vsg ev rvt e,
        getCompanyByCode companyCode = Some company ->
        net_get axios (url company) get_config = Return getResponse ->
        token_page (response_data getResponse) vs vsg ev rvt ->
        falsy vs = false -> falsy vsg = false -> falsy ev = false ->
        net_post axios (url company)
          (form_body (String_of vs) (String_of vsg) (String_of ev)
             (String_of rvt) refNo)
          (post_config (url company) getResponse) = Throw e ->
        exists r,
          run (getPITCBill axios refNo companyCode)
          = (Return r,
             token_events company
             ++ [ EvPost (url company)
                    (form_body (String_of vs) (String_of vsg)
                       (String_of ev) (String_of rvt) refNo)
                    (post_config (url company) getResponse) ])
          /\ converted e r).
Proof.
  split; [| split; [| split]].
  - destruct (getPITCBill_outcome axios refNo companyCode) as [r [Hr _]].
    exists r. eexists. unfold run. rewrite Hr. reflexivity.
  - intros e log H. exact (run_getPITCBill _ _ _ _ _ H).
  - intros company e Hc Hg.
    exact (run_getPITCBill _ _ _ _ _
             (getPITCBill_try_get_fault _ refNo _ _ _ Hc Hg)).
  - intros company getResponse vs vsg ev rvt e Hc Hg Htok F1 F2 F3 Hp.
    pose proof (getPITCBill_try_tokens axios refNo _ _ _ _ _ _ _ Hc Hg Htok)
      as Htry.
    rewrite F1, F2, F3 in Htry. cbn [orb] in Htry.
    rewrite (submitForm_post _ _ _ _ _ _ _ _ _ Hp) in Htry.
    exact (run_getPITCBill _ _ _ _ _ Htry).
Qed.

Lemma getPITCBill_converts_faults_witness :
  run (getPITCBill
         (portal (Throw (mkError (Some "ECONNABORTED")
                           "timeout of 30000ms exceeded"))
                 (Throw (mkError None "unused")))
         "06113530462901" "lesco")
  = (Return (Failure
               "Connection timeout - PITC server may be geo-restricted or down"),
     [EvGet (url LESCO) get_config]).
Proof.
  destruct (proj1 (proj2 (proj2
              (getPITCBill_converts_faults
                 (portal (Throw (mkError (Some "ECONNABORTED")
                                   "timeout of 30000ms exceeded"))
                         (Throw (mkError None "unused")))
                 "06113530462901" "lesco")))
              LESCO
              (mkError (Some "ECONNABORTED") "timeout of 30000ms exceeded")
              eq_refl eq_refl) as [r [Hr [Ht _]]].
  rewrite Hr, (Ht (or_introl eq_refl)). reflexivity.
Defined.

(* ===================================================================== *)
(** * GET /api/check-bill *)
(* ===================================================================== *)

(** A company code that does not resolve is answered with status 404: the
    handler sends every unsuccessful result of [getPITCBill] that way. *)
Lemma check_bill_unknown_company (axios : Axios) (query : Query)
    (validRefNo : string) :
  validateReferenceNumber (q_refNo query) = ValidationOk validRefNo ->
  getCompanyByCode (default "hesco" (q_company query)) = None ->
  run (check_bill axios query)
  = (Return {| status := 404;
               body := JsonResult (Failure invalid_company_message) |},
     []).
Proof.
  intros Hv Hc. unfold run, check_bill. cbv zeta. rewrite Hv.
  unfold try_catch, bind, getPITCBill, try_catch.
  rewrite (getPITCBill_try_unknown _ _ _ Hc). reflexivity.
Qed.

(** The message sent for an unknown company code names every code of the
    registry. *)
Lemma invalid_company_message_lists_all :
  invalid_company_message
  = "Invalid company code. Supported: hesco, lesco, fesco, iesco, mepco, gepco, pesco, qesco, sepco"
  /\ Forall (fun d => Js.includes invalid_company_message (code d) = true)
       (Object_values COMPANIES).
Proof.
  split; [reflexivity |]. repeat constructor.
Qed.

(** C1 (what the code does). The request
    [GET /api/check-bill?refNo=06113530462901&company=invalid] has a valid
    reference number and a company code outside the registry.  Whatever
    the network, the handler makes no call and answers with status 404,
    not 400; the body is the failure whose message lists the nine
    registered codes. *)
Theorem check_bill_invalid_company_status (axios : Axios) :
  run (check_bill axios
         (mkQuery (JsString "06113530462901") (Some "invalid")))
  = (Return
       {| status := 404;
          body :=
            JsonResult
              (Failure
                 "Invalid company code. Supported: hesco, lesco, fesco, iesco, mepco, gepco, pesco, qesco, sepco") |},
     []).
Proof. reflexivity. Qed.

(* ===================================================================== *)
(** * The table scan *)
(* ===================================================================== *)

(** The [if]-[else] chain of the row callback is the table of rules read
    top to bottom. *)
Lemma rowCallback_entry (row : Element) (b : BillData) :
  rowCallback row b
  = match row_entry row with
    | Return (Some (f, v)) => (Return tt, assign f v b, [])
    | Return None => (Return tt, b, [])
    | Throw e => (Throw e, b, [])
    end.
Proof.
  unfold rowCallback, row_entry.
  destruct (el_find row "td") as [cells | e]; [| reflexivity].
  rewrite bind_lift_Return.
  destruct cells as [| cell0 [| cell1 rest]]; [reflexivity | reflexivity |].
  cbn [length Nat.leb].
  destruct (el_text cell0) as [text0 | e]; [| reflexivity].
  rewrite bind_lift_Return.
  destruct (el_text cell1) as [text1 | e]; [| reflexivity].
  rewrite bind_lift_Return. cbv zeta.
  generalize (Js.toLowerCase (Js.trim text0)) as label.
  generalize (Js.trim text1) as value. intros value label.
  unfold first_match, label_rules.
  cbn [List.find rule_applies existsb fst snd].
  repeat
    match goal with
    | |- context [Js.includes label ?p] =>
        destruct (Js.includes label p);
        cbn [orb option_map snd fst]; try reflexivity
    end.
Qed.

Lemma each_answers (rows : list Element) (b : BillData) :
  Forall answers rows ->
  each rows rowCallback b
  = (Return tt, apply_entries (entries rows) b, []).
Proof.
  intros H. revert b. induction H as [| row rows [a Ha] _ IH]; intros b.
  - reflexivity.
  - cbn [each entries]. unfold bind. rewrite rowCallback_entry, Ha.
    destruct a as [[f v] |]; rewrite IH; reflexivity.
Qed.

(** A row that cannot be read stops the scan; what the rows before it
    assigned stays. *)
Lemma each_fault (good rest : list Element) (bad : Element) (e : JsError)
    (b : BillData) :
  Forall answers good ->
  row_entry bad = Throw e ->
  each (good ++ bad :: rest) rowCallback b
  = (Throw e, apply_entries (entries good) b, []).
Proof.
  intros H Hbad. revert b. induction H as [| row rows [a Ha] _ IH]; intros b.
  - cbn [app each entries]. unfold bind.
    rewrite rowCallback_entry, Hbad. reflexivity.
  - cbn [app each entries]. unfold bind. rewrite rowCallback_entry, Ha.
    destruct a as [[f v] |]; rewrite IH; reflexivity.
Qed.

Lemma field_value_assign (f f' : Field) (v : string) (b : BillData) :
  field_value f' (assign f v b)
  = if decide (f = f') then Some v else field_value f' b.
Proof.
  destruct f as [g k], f' as [g' k'].
  unfold field_value, assign. cbn [fst snd].
  destruct g, g'; cbn [group set_consumerDetails set_billDetails set_charges
                         consumerDetails billDetails charges];
    try (rewrite lookup_insert; repeat case_decide; congruence);
    case_decide; congruence.
Qed.

Lemma apply_entries_snoc (l : list (Field * string)) (a : Field * string)
    (b : BillData) :
  apply_entries (l ++ [a]) b = assign (fst a) (snd a) (apply_entries l b).
Proof. unfold apply_entries. rewrite fold_left_app. reflexivity. Qed.

Lemma last_value_snoc (f : Field) (l : list (Field * string))
    (a : Field * string) :
  last_value f (l ++ [a])
  = if decide (fst a = f) then Some (snd a) else last_value f l.
Proof.
  unfold last_value. rewrite filter_app, filter_cons, filter_nil.
  case_decide.
  - rewrite map_app. cbn [map]. apply last_snoc.
  - rewrite app_nil_r. reflexivity.
Qed.

(** After a run of assignments a field holds the value of the last one
    made to it, or what it held before when there was none. *)
Lemma field_value_apply_entries (f : Field) (l : list (Field * string))
    (b : BillData) :
  field_value f (apply_entries l b)
  = match last_value f l with
    | Some v => Some v
    | None => field_value f b
    end.
Proof.
  induction l as [| a l IH] using rev_ind; [reflexivity |].
  rewrite apply_entries_snoc, last_value_snoc, field_value_assign.
  case_decide; [reflexivity | exact IH].
Qed.

(* ===================================================================== *)
(** * parseBillDetails *)
(* ===================================================================== *)

(** The extractor returns its record whatever happens in the [try] block;
    after a fault the record is the one reached so far, with the note. *)
Lemma parseBillDetails_caught {S} (doc : Cheerio) (refNo companyCode : string)
    (s : S) :
  parseBillDetails doc refNo companyCode s
  = match parseBillDetails_try doc (empty_bill refNo companyCode) with
    | (Return _, b, log) => (Return b, s, log)
    | (Throw e, b, log) =>
        (Return (set_parseError (message e) b), s,
         log ++ [EvConsoleError ["Error parsing bill details:"; message e]])
    end.
Proof.
  unfold parseBillDetails, with_object, try_catch.
  change (mkBillData refNo companyCode ∅ ∅ ∅ None None)
    with (empty_bill refNo companyCode).
  destruct (parseBillDetails_try doc (empty_bill refNo companyCode))
    as [[[u | e] b] log]; reflexivity.
Qed.

Lemma field_value_set_rawHtml (f : Field) (h : string) (b : BillData) :
  field_value f (set_rawHtml h b) = field_value f b.
Proof. destruct f as [[] k]; reflexivity. Qed.

Lemma field_value_set_parseError (f : Field) (m : string) (b : BillData) :
  field_value f (set_parseError m b) = field_value f b.
Proof. destruct f as [[] k]; reflexivity. Qed.

Lemma field_value_displayAmount (f : Field) (v : string) (b : BillData) :
  f <> (Charges, "displayAmount") ->
  field_value f (set_charges "displayAmount" v b) = field_value f b.
Proof.
  intros H.
  change (set_charges "displayAmount" v b)
    with (assign (Charges, "displayAmount") v b).
  rewrite field_value_assign. case_decide; congruence.
Qed.

(** The statements after the row loop leave the fields of the rules as
    they are. *)
Lemma parseBillDetails_rest_frame (doc : Cheerio) (b : BillData) (f : Field) :
  f <> (Charges, "displayAmount") ->
  field_value f (snd (fst (parseBillDetails_rest doc b))) = field_value f b.
Proof.
  intros Hf. unfold parseBillDetails_rest.
  destruct (query doc amount_selector) as [matched | e] eqn:Hq.
  - rewrite (bind_select_Return _ _ matched) by exact Hq. cbv zeta.
    destruct matched as [| el rest]; cbn [first length Nat.ltb Nat.leb].
    + unfold bind at 1. cbn [ret prepend].
      destruct (html doc) as [h | e]; cbn;
        [apply field_value_set_rawHtml | reflexivity].
    + unfold text. destruct (el_text el) as [t | e]; cbn.
      * destruct (html doc) as [h | e]; cbn.
        -- rewrite field_value_set_rawHtml.
           apply field_value_displayAmount, Hf.
        -- apply field_value_displayAmount, Hf.
      * reflexivity.
  - rewrite (bind_select_Throw _ _ e) by exact Hq. reflexivity.
Qed.

Lemma parseBillDetails_try_rows (doc : Cheerio) (rows : list Element)
    (b : BillData) :
  query doc "table tr" = Return rows ->
  Forall answers rows ->
  parseBillDetails_try doc b
  = prepend [EvSelect "table tr"]
      (parseBillDetails_rest doc (apply_entries (entries rows) b)).
Proof.
  intros Hq Hrows. unfold parseBillDetails_try.
  rewrite (bind_select_Return _ _ rows) by exact Hq.
  unfold bind at 1. rewrite (each_answers _ _ Hrows).
  rewrite prepend_nil. reflexivity.
Qed.

Lemma parseBillDetails_try_fault (doc : Cheerio)
    (good rest : list Element) (bad : Element) (e : JsError) (b : BillData) :
  query doc "table tr" = Return (good ++ bad :: rest) ->
  Forall answers good ->
  row_entry bad = Throw e ->
  parseBillDetails_try doc b
  = (Throw e, apply_entries (entries good) b, [EvSelect "table tr"]).
Proof.
  intros Hq Hgood Hbad. unfold parseBillDetails_try.
  rewrite (bind_select_Return _ _ _ _ _ Hq).
  unfold bind at 1. rewrite (each_fault _ _ _ _ _ Hgood Hbad). reflexivity.
Qed.

Lemma in_rule_targets_not_displayAmount (f : Field) :
  In f (map snd label_rules) -> f <> (Charges, "displayAmount").
Proof.
  cbn. intros H.
  members H ltac:(discriminate).
Qed.

Lemma find_first {A} (p : A -> bool) (l : list A) (x : A) :
  List.find p l = Some x ->
  exists pre post,
    l = pre ++ x :: post /\ p x = true
    /\ Forall (fun y => p y = false) pre.
Proof.
  induction l as [| a l IH]; [discriminate |]. cbn.
  destruct (p a) eqn:E.
  - intros [= ->]. exists [], l. auto.
  - intros H. destruct (IH H) as (pre & post & -> & Hx & Hpre).
    exists (a :: pre), post. auto.
Qed.

(** C4. A table row with at least two cells: the label is the trimmed,
    lower-cased text of cell 0 and the value the trimmed text of cell 1.
    The row callback does what the ordered rules say: it assigns the value
    to the field of the first rule one of whose substrings occurs in the
    label (no earlier rule applies), changes no other field, and when no
    rule applies leaves the record as it is.  The row
    ["Consumer Name", "Jane Doe"] sets [consumerDetails.name] to
    "Jane Doe"; the row ["Total Amount Payable", "5000"] sets
    [charges.totalAmount] to "5000". *)
Theorem rowCallback_first_rule (row cell0 cell1 : Element)
    (rest : list Element) (text0 text1 : string) (b : BillData) :
  el_find row "td" = Return (cell0 :: cell1 :: rest) ->
  el_text cell0 = Return text0 ->
  el_text cell1 = Return text1 ->
  rowCallback row b
  = (Return tt,
     match first_match (Js.toLowerCase (Js.trim text0)) with
     | Some f => assign f (Js.trim text1) b
     | None => b
     end,
     [])
  /\ (forall f,
        first_match (Js.toLowerCase (Js.trim text0)) = Some f ->
        (exists pre rule post,
           label_rules = pre ++ rule :: post
           /\ snd rule = f
           /\ rule_applies (Js.toLowerCase (Js.trim text0)) rule = true
           /\ Forall
                (fun r =>
                   rule_applies (Js.toLowerCase (Js.trim text0)) r = false)
                pre)
        /\ field_value f (snd (fst (rowCallback row b)))
           = Some (Js.trim text1)
        /\ (forall f', f' <> f ->
              field_value f' (snd (fst (rowCallback row b)))
              = field_value f' b))
  /\ (first_match (Js.toLowerCase (Js.trim text0)) = None ->
      snd (fst (rowCallback row b)) = b)
  /\ consumerDetails
       (snd (fst (rowCallback (table_row ["Consumer Name"; "Jane Doe"]) b)))
     !! "name" = Some "Jane Doe"
  /\ charges
       (snd (fst (rowCallback (table_row ["Total Amount Payable"; "5000"])
                    b)))
     !! "totalAmount" = Some "5000".
Proof.
  intros Hf H0 H1.
  assert (Hrow : rowCallback row b
                 = (Return tt,
                    match first_match (Js.toLowerCase (Js.trim text0)) with
                    | Some f => assign f (Js.trim text1) b
                    | None => b
                    end, [])).
  { rewrite rowCallback_entry. unfold row_entry. rewrite Hf, H0, H1.
    destruct (first_match _); reflexivity. }
  split; [exact Hrow |]. rewrite Hrow. cbn [fst snd].
  split; [| split; [| split]].
  - intros f Hm. rewrite Hm. split; [| split].
    + unfold first_match in Hm.
      destruct (List.find _ label_rules) as [rule |] eqn:E; [| discriminate].
      injection Hm as <-.
      destruct (find_first _ _ _ E) as (pre & post & Hl & Hr & Hpre).
      exists pre, rule, post. auto.
    + rewrite field_value_assign. case_decide; congruence.
    + intros f' Hne. rewrite field_value_assign. case_decide; congruence.
  - intros ->. reflexivity.
  - rewrite rowCallback_entry. cbn. apply lookup_insert_eq.
  - rewrite rowCallback_entry. cbn. apply lookup_insert_eq.
Qed.

Lemma rowCallback_first_rule_witness :
  rowCallback (table_row ["  Consumer Name "; " Jane Doe "])
    (empty_bill "06113530462901" "lesco")
  = (Return tt,
     assign (ConsumerDetails, "name") "Jane Doe"
       (empty_bill "06113530462901" "lesco"),
     []).
Proof.
  exact (proj1 (rowCallback_first_rule
                  (table_row ["  Consumer Name "; " Jane Doe "])
                  (text_element "  Consumer Name ")
                  (text_element " Jane Doe ") []
                  "  Consumer Name " " Jane Doe "
                  (empty_bill "06113530462901" "lesco")
                  eq_refl eq_refl eq_refl)).
Defined.

(** C10. When the rows of the document all answer, each field of the
    rules holds, in the record [parseBillDetails] returns, the value of
    the last row in document order that assigns it (and is absent when no
    row does): a later row overwrites what an earlier row assigned. *)
Theorem parseBillDetails_last_row_wins (doc : Cheerio)
    (refNo companyCode : string) (rows : list Element) (f : Field) :
  query doc "table tr" = Return rows ->
  Forall answers rows ->
  In f (map snd label_rules) ->
  exists b log,
    parseBillDetails doc refNo companyCode tt = (Return b, tt, log)
    /\ field_value f b = last_value f (entries rows).
Proof.
  intros Hq Hrows Hf.
  apply in_rule_targets_not_displayAmount in Hf.
  rewrite parseBillDetails_caught, (parseBillDetails_try_rows _ _ _ Hq Hrows).
  pose proof (parseBillDetails_rest_frame doc
                (apply_entries (entries rows) (empty_bill refNo companyCode))
                f Hf) as Hframe.
  rewrite field_value_apply_entries in Hframe.
  assert (Hlast : match last_value f (entries rows) with
                  | Some v => Some v
                  | None => field_value f (empty_bill refNo companyCode)
                  end = last_value f (entries rows)).
  { destruct (last_value f (entries rows)); [reflexivity |].
    destruct f as [[] k]; apply lookup_empty. }
  rewrite Hlast in Hframe.
  destruct (parseBillDetails_rest doc _) as [[[u | e] b] log];
    cbn [prepend fst snd] in *; eexists; eexists; (split; [reflexivity |]).
  - exact Hframe.
  - rewrite field_value_set_parseError. exact Hframe.
Qed.

Lemma parseBillDetails_last_row_wins_witness :
  exists b log,
    parseBillDetails
      (answer_page ""
         [ table_row ["Consumer Name"; "Jane Doe"];
           table_row ["Tariff"; "A-1"];
           table_row ["Name"; "John Roe"] ])
      "06113530462901" "lesco" tt
    = (Return b, tt, log)
    /\ field_value (ConsumerDetails, "name") b = Some "John Roe".
Proof.
  destruct (parseBillDetails_last_row_wins
              (answer_page ""
                 [ table_row ["Consumer Name"; "Jane Doe"];
                   table_row ["Tariff"; "A-1"];
                   table_row ["Name"; "John Roe"] ])
              "06113530462901" "lesco"
              [ table_row ["Consumer Name"; "Jane Doe"];
                table_row ["Tariff"; "A-1"];
                table_row ["Name"; "John Roe"] ]
              (ConsumerDetails, "name") eq_refl)
    as (b & log & Hb & Hf).
  - repeat constructor; eexists; reflexivity.
  - cbn. tauto.
  - exists b, log. split; [exact Hb |]. rewrite Hf. reflexivity.
Defined.

Lemma apply_entries_meta (l : list (Field * string)) (b : BillData) :
  referenceNumber (apply_entries l b) = referenceNumber b
  /\ bill_company (apply_entries l b) = bill_company b
  /\ rawHtml (apply_entries l b) = rawHtml b
  /\ parseError (apply_entries l b) = parseError b.
Proof.
  revert b. induction l as [| a l IH]; intros b; [auto |].
  change (apply_entries (a :: l) b)
    with (apply_entries l (assign (fst a) (snd a) b)).
  destruct (IH (assign (fst a) (snd a) b)) as (-> & -> & -> & ->).
  destruct a as [[[] k] v]; cbn; auto.
Qed.

(** C8. A fault inside the extractor does not leave it.
    [parseBillDetails] always returns a record.  When its [try] block
    throws, the record returned is the one reached at the fault annotated
    with the parse-error note: [parseError] holds the fault's message,
    every other member and every field assigned so far is kept, and the
    fault is written to the console; for a row that cannot be read this is
    the record built from the rows before it, with the note.  The lookup
    that called the extractor still reports success with that record. *)
Theorem parseBillDetails_fault_is_local (doc : Cheerio)
    (refNo companyCode : string) :
  (exists b log,
     parseBillDetails doc refNo companyCode tt = (Return b, tt, log))
  /\ (forall e b1 log,
        parseBillDetails_try doc (empty_bill refNo companyCode)
        = (Throw e, b1, log) ->
        exists b,
          parseBillDetails doc refNo companyCode tt
          = (Return b, tt,
             log ++ [EvConsoleError
                       ["Error parsing bill details:"; message e]])
          /\ b = set_parseError (message e) b1
          /\ parseError b = Some (message e)
          /\ annotated (message e) b1 b
          /\ (forall f, field_value f b = field_value f b1))
  /\ (forall good bad rest e,
        query doc "table tr" = Return (good ++ bad :: rest) ->
        Forall answers good ->
        row_entry bad = Throw e ->
        exists b,
          parseBillDetails doc refNo companyCode tt
          = (Return b, tt,
             [ EvSelect "table tr";
               EvConsoleError ["Error parsing bill details:"; message e] ])
          /\ b = set_parseError (message e)
                   (apply_entries (entries good)
                      (empty_bill refNo companyCode))
          /\ parseError b = Some (message e)
          /\ rawHtml b = None
          /\ annotated (message e)
               (apply_entries (entries good) (empty_bill refNo companyCode))
               b
          /\ (forall f,
                field_value f b
                = field_value f
                    (apply_entries (entries good)
                       (empty_bill refNo companyCode))))
  /\ (forall axios company getResponse postResponse vs vsg ev rvt uaText
        e b1 log,
        getCompanyByCode companyCode = Some company ->
        net_get axios (url company) get_config = Return getResponse ->
        token_page (response_data getResponse) vs vsg ev rvt ->
        falsy vs = false -> falsy vsg = false -> falsy ev = false ->
        net_post axios (url company)
          (form_body (String_of vs) (String_of vsg) (String_of ev)
             (String_of rvt) refNo)
          (post_config (url company) getResponse) = Return postResponse ->
        response_data postResponse = doc ->
        reads_text doc "#ua" uaText ->
        Js.trim uaText = "" ->
        parseBillDetails_try doc (empty_bill refNo (code company))
        = (Throw e, b1, log) ->
        exists log' b,
          run (getPITCBill axios refNo companyCode)
          = (Return (Success refNo (code company) (name company) b), log')
          /\ b = set_parseError (message e) b1
          /\ parseError b = Some (message e)
          /\ annotated (message e) b1 b
          /\ (forall f, field_value f b = field_value f b1)).
Proof.
  assert (Hnote : forall m b1, annotated m b1 (set_parseError m b1))
    by (intros m b1; repeat split).
  split; [| split; [| split]].
  - rewrite parseBillDetails_caught.
    destruct (parseBillDetails_try doc _) as [[[u | e] b] log]; eauto.
  - intros e b1 log H. rewrite parseBillDetails_caught, H.
    eexists. split; [reflexivity |]. split; [reflexivity |].
    split; [reflexivity |]. split; [apply Hnote |].
    intros f. apply field_value_set_parseError.
  - intros good bad rest e Hq Hgood Hbad.
    rewrite parseBillDetails_caught,
      (parseBillDetails_try_fault _ _ _ _ _ _ Hq Hgood Hbad).
    eexists. split; [reflexivity |]. split; [reflexivity |].
    split; [reflexivity |].
    split.
    { cbn [rawHtml set_parseError].
      exact (proj1 (proj2 (proj2 (apply_entries_meta (entries good)
                                    (empty_bill refNo companyCode))))). }
    split; [apply Hnote |].
    intros f. apply field_value_set_parseError.
  - intros axios company getResponse postResponse vs vsg ev rvt uaText
      e b1 log Hc Hg Htok F1 F2 F3 Hp <- Hua He Hthrow.
    pose proof (getPITCBill_try_tokens axios refNo _ _ _ _ _ _ _ Hc Hg Htok)
      as Htry.
    rewrite F1, F2, F3 in Htry. cbn [orb] in Htry.
    rewrite (submitForm_post _ _ _ _ _ _ _ _ _ Hp) in Htry.
    rewrite (interpretResponse_bill _ _ _ _ Hua He) in Htry.
    unfold bind in Htry at 1.
    rewrite parseBillDetails_caught, Hthrow in Htry.
    cbn [prepend ret] in Htry.
    destruct (run_getPITCBill _ _ _ _ _ Htry) as [r [Hr ->]].
    eexists _, _. split; [exact Hr |]. split; [reflexivity |].
    split; [reflexivity |]. split; [apply Hnote |].
    intros f. apply field_value_set_parseError.
Qed.

Lemma parseBillDetails_fault_is_local_witness :
  exists b,
    parseBillDetails
      (answer_page ""
         [ table_row ["Consumer Name"; "Jane Doe"];
           faulty_row "Cannot read properties of undefined";
           table_row ["Tariff"; "A-1"] ])
      "06113530462901" "lesco" tt
    = (Return b, tt,
       [ EvSelect "table tr";
         EvConsoleError
           ["Error parsing bill details:";
            "Cannot read properties of undefined"] ])
    /\ parseError b = Some "Cannot read properties of undefined"
    /\ rawHtml b = None
    /\ referenceNumber b = "06113530462901"
    /\ bill_company b = "lesco"
    /\ consumerDetails b = <["name" := "Jane Doe"]> ∅
    /\ billDetails b = ∅
    /\ charges b = ∅.
Proof.
  assert (Hgood : Forall answers [table_row ["Consumer Name"; "Jane Doe"]])
    by (repeat constructor; eexists; reflexivity).
  destruct (proj1 (proj2 (proj2
              (parseBillDetails_fault_is_local
                 (answer_page ""
                    [ table_row ["Consumer Name"; "Jane Doe"];
                      faulty_row "Cannot read properties of undefined";
                      table_row ["Tariff"; "A-1"] ])
                 "06113530462901" "lesco")))
              [table_row ["Consumer Name"; "Jane Doe"]]
              (faulty_row "Cannot read properties of undefined")
              [table_row ["Tariff"; "A-1"]]
              (mkError None "Cannot read properties of undefined")
              eq_refl Hgood eq_refl)
    as (b & Hrun & _ & Hnote & Hraw & (_ & Href & Hco & Hcd & Hbd & Hch & _)
        & _).
  exists b. split; [exact Hrun |]. split; [exact Hnote |].
  split; [exact Hraw |]. split; [exact Href |]. split; [exact Hco |].
  split; [exact Hcd |]. split; [exact Hbd | exact Hch].
Defined.

(* ===================================================================== *)
(** * Worked examples *)
(* ===================================================================== *)

(** [trim] removes ASCII white space, U+00A0 and U+FEFF at both ends and
    keeps what is inside; a dagger (E2 80 A0) at the end stays. *)
Example trim_examples :
  Js.trim "  06113530462901 " = "06113530462901"
  /\ Js.trim "   " = ""
  /\ Js.trim " Jane  Doe " = "Jane  Doe"
  /\ Js.trim (String (ascii_of_nat 194) (String (ascii_of_nat 160) "5000")
              +:+ String (ascii_of_nat 239)
                    (String (ascii_of_nat 187)
                       (String (ascii_of_nat 191) "")))
     = "5000"
  /\ Js.trim ("5000"
              +:+ String (ascii_of_nat 226)
                    (String (ascii_of_nat 128)
                       (String (ascii_of_nat 160) "")))
     = "5000"
       +:+ String (ascii_of_nat 226)
             (String (ascii_of_nat 128) (String (ascii_of_nat 160) "")).
Proof. repeat split; reflexivity. Qed.

Example includes_examples :
  Js.includes "total amount payable" "amount payable" = true
  /\ Js.includes "units consumed" "consumer" = false
  /\ Js.includes "meter no" "" = true
  /\ Js.includes
       "Connection timeout - PITC server may be geo-restricted or down"
       "geo-restricted" = true.
Proof. repeat split; reflexivity. Qed.

Example encode_example :
  UrlEncoded.encode "/wEPDwUK+a b=c&d_e.f-g*h~" 
  = "%2FwEPDwUK%2Ba+b%3Dc%26d_e.f-g*h%7E".
Proof. reflexivity. Qed.

Example validate_examples :
  validateReferenceNumber JsUndefined
  = ValidationError "Reference number is required"
  /\ validateReferenceNumber (JsString "   ")
     = ValidationError "Reference number must be 10-14 digits"
  /\ validateReferenceNumber (JsString "123456789")
     = ValidationError "Reference number must be 10-14 digits"
  /\ validateReferenceNumber (JsString "123456789012345")
     = ValidationError "Reference number must be 10-14 digits"
  /\ validateReferenceNumber (JsString "06113530a62901")
     = ValidationError "Reference number must be 10-14 digits"
  /\ validateReferenceNumber (JsString "1234567890")
     = ValidationOk "1234567890".
Proof. repeat split; reflexivity. Qed.

(** A reference number that fails validation is answered with 400 whatever
    the company. *)
Example check_bill_short_refNo (axios : Axios) (company : option string) :
  run (check_bill axios (mkQuery (JsString "123") company))
  = (Return
       {| status := 400;
          body :=
            JsonResult (Failure "Reference number must be 10-14 digits") |},
     []).
Proof. reflexivity. Qed.

(** A lookup that goes through: status 200, the reference number echoed,
    the company code and name of the registry, the two fields of the table
    in the record. *)
Example check_bill_lesco :
  match
    fst (run (check_bill
                (portal
                   (Return (mkResponse
                              (form_page "dDwt" "CA0B" "ev01" (Some "tok"))
                              (Some ["ASP.NET_SessionId=abc; path=/"])))
                   (Return (mkResponse
                              (answer_page ""
                                 [ table_row ["Consumer Name"; "Jane Doe"];
                                   table_row ["Total Amount Payable"; "5000"];
                                   table_row ["Meter No"; "77"] ])
                              None)))
                (mkQuery (JsString "06113530462901") (Some "lesco"))))
  with
  | Return {| status := 200;
              body := JsonResult (Success refNo company companyName data) |} =>
      refNo = "06113530462901" /\ company = "lesco"
      /\ companyName = "Lahore Electric Supply Company"
      /\ consumerDetails data !! "name" = Some "Jane Doe"
      /\ charges data !! "totalAmount" = Some "5000"
      /\ billDetails data = ∅
      /\ rawHtml data = Some "<html/>"
      /\ parseError data = None
  | _ => False
  end.
Proof. vm_compute. repeat split; reflexivity. Qed.

(* ===================================================================== *)
(** * Further properties: the validator and the registry *)
(* ===================================================================== *)

(** X1. What [validateReferenceNumber] hands back.  A success carries a
    string of ten to fourteen decimal digits, which is the trimmed text of
    the input, and validating that string again gives the same success.
    A failure carries one of the two fixed messages. *)
Theorem validateReferenceNumber_result (v : JsValue) :
  match validateReferenceNumber v with
  | ValidationOk r =>
      digit_string_10_14 r
      /\ r = Js.trim (String_of v)
      /\ validateReferenceNumber (JsString r) = ValidationOk r
  | ValidationError e =>
      e = "Reference number is required"
      \/ e = "Reference number must be 10-14 digits"
  end.
Proof.
  unfold validateReferenceNumber at 1.
  destruct (falsy v); [now left |]. cbv zeta.
  destruct (Js.test_digits_10_14 (Js.trim (String_of v))) eqn:E;
    cbn [negb]; [| now right].
  apply test_digits_10_14_spec in E as D.
  split; [exact D |]. split; [reflexivity |].
  unfold validateReferenceNumber.
  destruct (Js.trim (String_of v)) as [| a r] eqn:Er.
  - destruct D as [_ [Hlen _]]. cbn in Hlen. lia.
  - cbn [falsy Js.truthy negb String_of]. cbv zeta.
    rewrite (trim_digit_string _ D), E. reflexivity.
Qed.

(** X2. What [getCompanyByCode] can return.  A hit is one of the nine own
    entries of [COMPANIES], filed under the upper-cased code; the [code]
    of the company found is the requested code ignoring case, namely the
    lower-cased key, and the lower-cased request itself when that is made
    of ASCII characters; its [url] is the portal address built from its
    code; and the key looked up is never a property name inherited from
    [Object.prototype]. *)
Theorem getCompanyByCode_hit (c : string) (d : Company) :
  getCompanyByCode c = Some d ->
  In (Js.toUpperCase c, d) COMPANIES
  /\ same_ignoring_case c (code d)
  /\ code d = Js.toLowerCase (Js.toUpperCase c)
  /\ (ascii_only c = true -> code d = Js.toLowerCase c)
  /\ url d = "https://bill.pitc.com.pk/" +:+ code d +:+ "bill"
  /\ refPattern d = refPattern_10_14
  /\ ~ In (Js.toUpperCase c) Object_prototype_names.
Proof.
  intros H.
  destruct (getCompanyByCode_Some c d H) as (Hkey & Hin & Hcode & _).
  assert (Hlow : code d = Js.toLowerCase (Js.toUpperCase c)).
  { rewrite Hcode. cbn in Hin. members Hin ltac:(reflexivity). }
  split; [exact Hkey |]. split; [exact Hcode |]. split; [exact Hlow |].
  split; [| split; [| split]].
  - intros Ha. rewrite Hlow, (toUpperCase_ascii c Ha).
    rewrite toLowerCase_ascii
      by (apply map_chars_ascii; [apply upper_char_ascii | exact Ha]).
    rewrite (toLowerCase_ascii c Ha).
    apply map_chars_compose, lower_upper_char.
  - cbn in Hin. members Hin ltac:(reflexivity).
  - cbn in Hin. members Hin ltac:(reflexivity).
  - apply getCompanyByCode_never_inherited.
Qed.

Lemma getCompanyByCode_hit_witness :
  (In ("QESCO", mkCompany "Quetta Electric Supply Company" "qesco"
                  "https://bill.pitc.com.pk/qescobill" refPattern_10_14)
      COMPANIES
   /\ "qesco" = Js.toLowerCase "Qesco")
  /\ In ("QESCO", mkCompany "Quetta Electric Supply Company" "qesco"
                    "https://bill.pitc.com.pk/qescobill" refPattern_10_14)
       COMPANIES.
Proof.
  pose proof (getCompanyByCode_hit "Qesco"
                (mkCompany "Quetta Electric Supply Company" "qesco"
                   "https://bill.pitc.com.pk/qescobill" refPattern_10_14)
                eq_refl) as (H1 & _ & _ & H2 & _).
  pose proof (getCompanyByCode_hit "qeſco"
                (mkCompany "Quetta Electric Supply Company" "qesco"
                   "https://bill.pitc.com.pk/qescobill" refPattern_10_14)
                eq_refl) as (H3 & _).
  split; [split; [exact H1 | exact (H2 eq_refl)] | exact H3].
Defined.

(** X3. [getSupportedCompanies] and [getCompanyByCode] agree.  Every
    listed pair (code, name) resolves to a company with that code and
    name; every company a code resolves to is listed; the listed codes are
    pairwise distinct, one per registry entry. *)
Theorem getSupportedCompanies_resolve :
  (forall c n, In (c, n) getSupportedCompanies ->
     exists d, getCompanyByCode c = Some d /\ code d = c /\ name d = n)
  /\ (forall c d, getCompanyByCode c = Some d ->
        In (code d, name d) getSupportedCompanies)
  /\ List.NoDup (map fst getSupportedCompanies)
  /\ length getSupportedCompanies = length COMPANIES.
Proof.
  split; [| split; [| split]].
  - intros c n H. cbn in H.
    repeat (destruct H as [[= <- <-] | H];
            [eexists; repeat split; reflexivity |]).
    destruct H.
  - intros c d H. destruct (getCompanyByCode_Some c d H) as (_ & Hin & _).
    cbn in Hin. members Hin ltac:(cbn; tauto).
  - cbn. repeat constructor; cbn; intros H;
      repeat (destruct H as [H | H]; [discriminate H |]); exact H.
  - reflexivity.
Qed.

Lemma getSupportedCompanies_resolve_witness :
  (exists d, getCompanyByCode "mepco" = Some d
             /\ code d = "mepco"
             /\ name d = "Multan Electric Power Company")
  /\ In ("sepco", "Sukkur Electric Power Company") getSupportedCompanies.
Proof.
  split.
  - apply (proj1 getSupportedCompanies_resolve
             "mepco" "Multan Electric Power Company").
    cbn. tauto.
  - exact (proj1 (proj2 getSupportedCompanies_resolve) "SEPCO"
             (mkCompany "Sukkur Electric Power Company" "sepco"
                "https://bill.pitc.com.pk/sepcobill" refPattern_10_14)
             eq_refl).
Defined.

(* ===================================================================== *)
(** * Further properties: the label rules *)
(* ===================================================================== *)

Lemma includes_prefix (s pat : string) :
  String.prefix pat s = true -> Js.includes s pat = true.
Proof. intros H. destruct s; cbn [Js.includes]; rewrite H; reflexivity. Qed.

Lemma includes_cons (a : ascii) (s pat : string) :
  Js.includes s pat = true -> Js.includes (String a s) pat = true.
Proof. intros H. cbn [Js.includes]. rewrite H. apply orb_true_r. Qed.

Lemma prefix_app_includes (p q s : string) :
  String.prefix (p +:+ q) s = true -> Js.includes s q = true.
Proof.
  revert s. induction p as [| a p IH]; intros s.
  - rewrite append_empty_l. apply includes_prefix.
  - rewrite append_cons. destruct s as [| b s]; [discriminate |].
    cbn [String.prefix]. destruct (ascii_dec a b); [| discriminate].
    intros H. apply includes_cons, IH, H.
Qed.

(** A string that contains [p ++ q] contains [q]. *)
Lemma includes_app_r (s p q : string) :
  Js.includes s (p +:+ q) = true -> Js.includes s q = true.
Proof.
  induction s as [| a s IH]; intros H; cbn [Js.includes] in H;
    apply orb_true_iff in H as [H | H].
  - apply (prefix_app_includes p q), H.
  - discriminate.
  - apply (prefix_app_includes p q), H.
  - apply includes_cons, IH, H.
Qed.

Lemma first_match_target (label : string) (f : Field) :
  first_match label = Some f -> In f (map snd label_rules).
Proof.
  unfold first_match.
  destruct (List.find _ label_rules) as [rule |] eqn:E; [| discriminate].
  intros [= <-]. apply in_map. apply (find_some _ _ E).
Qed.

(** No label reaches the "after due date" rule: such a label contains
    "due date", and that rule stands earlier. *)
Lemma first_match_never_after_due_date (label : string) :
  first_match label <> Some (Charges, "amountAfterDueDate").
Proof.
  pose proof (includes_app_r label "after " "due date") as Hsub.
  change ("after " +:+ "due date") with "after due date" in Hsub.
  unfold first_match, label_rules.
  cbn [List.find rule_applies existsb fst snd].
  repeat
    match goal with
    | |- context [Js.includes label ?p] =>
        destruct (Js.includes label p) eqn:?;
        cbn [orb option_map snd fst]; try discriminate
    end.
  specialize (Hsub eq_refl). congruence.
Qed.

Lemma row_entry_table_row (label value : string) :
  row_entry (table_row [label; value])
  = Return (option_map (fun f => (f, Js.trim value))
              (first_match (Js.toLowerCase (Js.trim label)))).
Proof. reflexivity. Qed.

(** X4. The rule for "after due date" is dead and the other thirteen are
    live.  No row makes the callback write [charges.amountAfterDueDate]:
    every label containing "after due date" contains "due date" and is
    taken by the earlier rule for [billDetails.dueDate].  Each other field
    of the rules is written by the callback for some label. *)
Theorem after_due_date_rule_is_dead :
  (forall row b,
     charges (snd (fst (rowCallback row b))) !! "amountAfterDueDate"
     = charges b !! "amountAfterDueDate")
  /\ (forall text0 text1 b,
        Js.includes (Js.toLowerCase (Js.trim text0)) "after due date" = true ->
        Js.includes (Js.toLowerCase (Js.trim text0)) "consumer" = false ->
        Js.includes (Js.toLowerCase (Js.trim text0)) "name" = false ->
        Js.includes (Js.toLowerCase (Js.trim text0)) "address" = false ->
        Js.includes (Js.toLowerCase (Js.trim text0)) "customer" = false ->
        Js.includes (Js.toLowerCase (Js.trim text0)) "id" = false ->
        Js.includes (Js.toLowerCase (Js.trim text0)) "tariff" = false ->
        rowCallback (table_row [text0; text1]) b
        = (Return tt, set_billDetails "dueDate" (Js.trim text1) b, []))
  /\ (forall f,
        In f (map snd label_rules) ->
        f <> (Charges, "amountAfterDueDate") ->
        exists label, forall value b,
          rowCallback (table_row [label; value]) b
          = (Return tt, assign f (Js.trim value) b, [])).
Proof.
  split; [| split].
  - intros row b. rewrite rowCallback_entry. unfold row_entry.
    destruct (el_find row "td") as [[| cell0 [| cell1 rest]] | e];
      try reflexivity.
    destruct (el_text cell0) as [text0 | e]; [| reflexivity].
    destruct (el_text cell1) as [text1 | e]; [| reflexivity].
    destruct (first_match _) as [f |] eqn:E; [| reflexivity].
    cbn [option_map fst snd].
    change (field_value (Charges, "amountAfterDueDate")
              (assign f (Js.trim text1) b)
            = field_value (Charges, "amountAfterDueDate") b).
    rewrite field_value_assign. case_decide; [| reflexivity].
    subst f. exfalso. exact (first_match_never_after_due_date _ E).
  - intros text0 text1 b Hafter H1 H2 H3 H4 H5 H6.
    rewrite rowCallback_entry, row_entry_table_row.
    pose proof (includes_app_r _ "after " "due date" Hafter) as Hdue.
    unfold first_match, label_rules.
    cbn [List.find rule_applies existsb fst snd].
    rewrite H1, H2, H3, H4, H5, H6, Hdue. reflexivity.
  - intros f Hin Hne. cbn in Hin.
    repeat
      match goal with
      | H : _ \/ _ |- _ => destruct H as [<- | H]
      | H : False |- _ => destruct H
      end;
      try congruence.
    + exists "Name". intros. now rewrite rowCallback_entry.
    + exists "Address". intros. now rewrite rowCallback_entry.
    + exists "ID". intros. now rewrite rowCallback_entry.
    + exists "Tariff". intros. now rewrite rowCallback_entry.
    + exists "Due Date". intros. now rewrite rowCallback_entry.
    + exists "Bill Date". intros. now rewrite rowCallback_entry.
    + exists "Reading Date". intros. now rewrite rowCallback_entry.
    + exists "Current Reading". intros. now rewrite rowCallback_entry.
    + exists "Previous Reading". intros. now rewrite rowCallback_entry.
    + exists "Units". intros. now rewrite rowCallback_entry.
    + exists "Total Amount". intros. now rewrite rowCallback_entry.
    + exists "Electricity Charges". intros. now rewrite rowCallback_entry.
    + exists "GST". intros. now rewrite rowCallback_entry.
Qed.

Lemma after_due_date_rule_is_dead_witness :
  rowCallback (table_row ["Payable After Due Date"; " 5,250 "])
    (empty_bill "06113530462901" "lesco")
  = (Return tt,
     set_billDetails "dueDate" "5,250" (empty_bill "06113530462901" "lesco"),
     []).
Proof.
  exact (proj1 (proj2 after_due_date_rule_is_dead)
           "Payable After Due Date" " 5,250 "
           (empty_bill "06113530462901" "lesco")
           eq_refl eq_refl eq_refl eq_refl eq_refl eq_refl eq_refl).
Defined.

(* ===================================================================== *)
(** * Further properties: the record parseBillDetails returns *)
(* ===================================================================== *)

Lemma row_entry_known (row : Element) (f : Field) (v : string) :
  row_entry row = Return (Some (f, v)) ->
  In f known_fields /\ f <> (Charges, "displayAmount").
Proof.
  unfold row_entry.
  destruct (el_find row "td") as [[| cell0 [| cell1 rest]] | e];
    try discriminate.
  destruct (el_text cell0) as [text0 | e]; [| discriminate].
  destruct (el_text cell1) as [text1 | e]; [| discriminate].
  destruct (first_match _) as [f' |] eqn:E; [| discriminate].
  intros [= <- <-].
  assert (Hdead : f' <> (Charges, "amountAfterDueDate"))
    by (intros ->; exact (first_match_never_after_due_date _ E)).
  apply first_match_target in E. cbn in E.
  split.
  - repeat (destruct E as [<- | E]; [try congruence; cbn; tauto |]).
    destruct E.
  - apply in_rule_targets_not_displayAmount. cbn. exact E.
Qed.

(** Whether or not a row faults, the row loop logs nothing and leaves the
    record that a run of rule assignments builds. *)
Lemma each_state (rows : list Element) (b : BillData) :
  exists x l,
    each rows rowCallback b = (x, apply_entries l b, [])
    /\ Forall (fun a => In (fst a) known_fields
                        /\ fst a <> (Charges, "displayAmount")) l.
Proof.
  revert b. induction rows as [| row rows IH]; intros b.
  - exists (Return tt), []. split; [reflexivity | constructor].
  - cbn [each]. unfold bind. rewrite rowCallback_entry.
    destruct (row_entry row) as [[[f v] |] | e] eqn:E.
    + destruct (IH (assign f v b)) as (x & l & Hl & Hk).
      exists x, ((f, v) :: l). rewrite Hl. split; [reflexivity |].
      constructor; [exact (row_entry_known _ _ _ E) | exact Hk].
    + destruct (IH b) as (x & l & Hl & Hk).
      exists x, l. rewrite Hl. split; [reflexivity | exact Hk].
    + exists (Throw e), []. split; [reflexivity | constructor].
Qed.

Lemma field_value_apply_entries_Some (f : Field)
    (l : list (Field * string)) (b : BillData) (v : string) :
  field_value f (apply_entries l b) = Some v ->
  field_value f b = Some v \/ exists a, In a l /\ fst a = f.
Proof.
  induction l as [| a l IH] using rev_ind; [auto |].
  rewrite apply_entries_snoc, field_value_assign. case_decide.
  - intros _. right. exists a. split; [apply in_or_app; cbn; auto | auto].
  - intros H'. destruct (IH H') as [Hb | [a' [Hin Ha']]]; [auto |].
    right. exists a'. split; [apply in_or_app; auto | auto].
Qed.

(** The statements after the row loop: identity fields and the error note
    stay; the markup is stored exactly when they all go through. *)
Lemma parseBillDetails_rest_shape (doc : Cheerio) (b : BillData) :
  referenceNumber (snd (fst (parseBillDetails_rest doc b)))
  = referenceNumber b
  /\ bill_company (snd (fst (parseBillDetails_rest doc b))) = bill_company b
  /\ parseError (snd (fst (parseBillDetails_rest doc b))) = parseError b
  /\ match fst (fst (parseBillDetails_rest doc b)) with
     | Return _ =>
         exists h, html doc = Return h
                   /\ rawHtml (snd (fst (parseBillDetails_rest doc b)))
                      = Some h
     | Throw _ =>
         rawHtml (snd (fst (parseBillDetails_rest doc b))) = rawHtml b
     end.
Proof.
  unfold parseBillDetails_rest.
  destruct (query doc amount_selector) as [matched | e] eqn:Hq.
  - rewrite (bind_select_Return _ _ matched) by exact Hq. cbv zeta.
    destruct matched as [| el rest]; cbn [first length Nat.ltb Nat.leb].
    + unfold bind at 1. cbn [ret prepend].
      destruct (html doc) as [h | e]; cbn; eauto 8.
    + unfold text. destruct (el_text el) as [t | e]; cbn; [| auto].
      destruct (html doc) as [h | e]; cbn; eauto 8.
  - rewrite (bind_select_Throw _ _ e) by exact Hq. cbn. auto.
Qed.

(** The [try] block as a whole, from any record. *)
Lemma parseBillDetails_try_shape (doc : Cheerio) (b0 : BillData) :
  exists x b log l,
    parseBillDetails_try doc b0 = (x, b, log)
    /\ Forall (fun a => In (fst a) known_fields
                        /\ fst a <> (Charges, "displayAmount")) l
    /\ (forall f, f <> (Charges, "displayAmount") ->
          field_value f b = field_value f (apply_entries l b0))
    /\ referenceNumber b = referenceNumber b0
    /\ bill_company b = bill_company b0
    /\ parseError b = parseError b0
    /\ match x with
       | Return _ => exists h, html doc = Return h /\ rawHtml b = Some h
       | Throw _ => rawHtml b = rawHtml b0
       end.
Proof.
  unfold parseBillDetails_try.
  destruct (query doc "table tr") as [rows | e] eqn:Hq.
  - rewrite (bind_select_Return _ _ rows) by exact Hq.
    destruct (each_state rows b0) as (x & l & Hl & Hk).
    destruct (apply_entries_meta l b0) as (M1 & M2 & M3 & M4).
    unfold bind at 1. rewrite Hl. destruct x as [[] | e].
    + rewrite prepend_nil.
      pose proof (parseBillDetails_rest_frame doc (apply_entries l b0))
        as Hframe.
      pose proof (parseBillDetails_rest_shape doc (apply_entries l b0))
        as (R1 & R2 & R3 & R4).
      destruct (parseBillDetails_rest doc (apply_entries l b0))
        as [[x b] log]. cbn [fst snd prepend] in *.
      exists x, b, ([EvSelect "table tr"] ++ log), l.
      split; [reflexivity |]. split; [exact Hk |].
      split; [exact Hframe |].
      rewrite R1, R2, R3. repeat split; try assumption.
      destruct x; [exact R4 | congruence].
    + exists (Throw e), (apply_entries l b0), [EvSelect "table tr"], l.
      cbn. auto 10.
  - rewrite (bind_select_Throw _ _ e) by exact Hq.
    exists (Throw e), b0, [EvSelect "table tr"], [].
    cbn. split; [reflexivity |]. split; [constructor |]. auto 10.
Qed.

(** X5. The nested objects of a returned record only ever hold known
    properties: whatever the document, a property present in
    [consumerDetails], [billDetails] or [charges] is one of the thirteen
    fields the rules can write or [charges.displayAmount]; in particular
    [charges.amountAfterDueDate] is never present. *)
Theorem parseBillDetails_known_fields (doc : Cheerio)
    (refNo companyCode : string) :
  exists b log,
    parseBillDetails doc refNo companyCode tt = (Return b, tt, log)
    /\ (forall f v, field_value f b = Some v -> In f known_fields)
    /\ charges b !! "amountAfterDueDate" = None.
Proof.
  rewrite parseBillDetails_caught.
  destruct (parseBillDetails_try_shape doc (empty_bill refNo companyCode))
    as (x & b & log & l & Htry & Hk & Hf & _).
  rewrite Htry.
  assert (Hknown : forall f v, field_value f b = Some v -> In f known_fields).
  { intros f v Hv.
    destruct (decide (f = (Charges, "displayAmount"))) as [-> | Hne];
      [cbn; tauto |].
    rewrite (Hf f Hne) in Hv.
    apply field_value_apply_entries_Some in Hv as [Hv | [a [Hin <-]]].
    - destruct f as [[] k]; cbn in Hv; rewrite lookup_empty in Hv;
        discriminate.
    - rewrite List.Forall_forall in Hk. apply (Hk a Hin). }
  assert (Hfields : (forall f v, field_value f b = Some v ->
                       In f known_fields)
                    /\ charges b !! "amountAfterDueDate" = None).
  { split; [exact Hknown |].
    destruct (charges b !! "amountAfterDueDate") as [v |] eqn:E;
      [| reflexivity].
    specialize (Hknown (Charges, "amountAfterDueDate") v E). cbn in Hknown.
    repeat (destruct Hknown as [Hknown | Hknown]; [discriminate Hknown |]).
    destruct Hknown. }
  destruct x as [u | e]; eexists; eexists; (split; [reflexivity |]).
  - exact Hfields.
  - destruct Hfields as [H1 H2]. split; [| exact H2].
    intros f v. rewrite field_value_set_parseError. apply H1.
Qed.

(** X6. How a returned record is marked.  Whatever the document,
    [parseBillDetails] returns a record for the reference number and
    company it was given, and the record is in one of two states: scanned
    to the end, with the document's markup in [rawHtml] and no
    [parseError]; or cut short by a fault, with [rawHtml] still [null],
    [parseError] set to the fault's message, and that message written to
    the console last. *)
Theorem parseBillDetails_marks (doc : Cheerio) (refNo companyCode : string) :
  exists b log,
    parseBillDetails doc refNo companyCode tt = (Return b, tt, log)
    /\ referenceNumber b = refNo
    /\ bill_company b = companyCode
    /\ ((exists h, html doc = Return h
                   /\ rawHtml b = Some h /\ parseError b = None)
        \/ (exists e, rawHtml b = None
                      /\ parseError b = Some (message e)
                      /\ last log
                         = Some (EvConsoleError
                                   ["Error parsing bill details:";
                                    message e]))).
Proof.
  rewrite parseBillDetails_caught.
  destruct (parseBillDetails_try_shape doc (empty_bill refNo companyCode))
    as (x & b & log & l & Htry & _ & _ & M1 & M2 & M3 & M4).
  rewrite Htry. cbn in M1, M2, M3.
  destruct x as [u | e]; eexists; eexists; (split; [reflexivity |]).
  - repeat split; [exact M1 | exact M2 |]. left.
    destruct M4 as [h [Hh Hr]]. exists h. auto.
  - cbn. repeat split; [exact M1 | exact M2 |]. right.
    exists e. repeat split; [exact M4 | apply last_snoc].
Qed.

(** X7. A document that answers every query.  When all rows answer, the
    amount query answers (with no element, or with a first element whose
    text can be read) and the markup can be read, the record returned is
    the empty record with the rows' assignments made in document order,
    then [charges.displayAmount] set to the trimmed text of the first
    amount element if there is one, then [rawHtml] set to the markup; no
    [parseError]; exactly the two document queries are made. *)
Theorem parseBillDetails_complete (doc : Cheerio)
    (refNo companyCode : string) (rows matched : list Element)
    (amount markup : string) :
  query doc "table tr" = Return rows ->
  Forall answers rows ->
  query doc amount_selector = Return matched ->
  text (first matched) = Return amount ->
  html doc = Return markup ->
  parseBillDetails doc refNo companyCode tt
  = (Return
       (set_rawHtml markup
          (match matched with
           | [] =>
               apply_entries (entries rows) (empty_bill refNo companyCode)
           | _ :: _ =>
               set_charges "displayAmount" (Js.trim amount)
                 (apply_entries (entries rows)
                    (empty_bill refNo companyCode))
           end)),
     tt,
     [EvSelect "table tr"; EvSelect amount_selector]).
Proof.
  intros Hq Hrows Hm Ht Hh.
  rewrite parseBillDetails_caught, (parseBillDetails_try_rows _ _ _ Hq Hrows).
  unfold parseBillDetails_rest.
  rewrite (bind_select_Return _ _ matched) by exact Hm. cbv zeta.
  destruct matched as [| el rest]; cbn [first length Nat.ltb Nat.leb] in *.
  - unfold bind at 1. cbn [ret prepend]. rewrite Hh. reflexivity.
  - rewrite Ht, Hh. reflexivity.
Qed.

Lemma parseBillDetails_complete_witness :
  parseBillDetails
    (document
       [ ("table tr",
          [ table_row ["Consumer Name"; "Jane Doe"];
            table_row ["Heading"];
            table_row ["Total Amount Payable"; " 5000 "] ]);
         (amount_selector, [text_element " Rs. 5000 "; text_element "x"]) ]
       "<html>bill</html>")
    "06113530462901" "lesco" tt
  = (Return
       (set_rawHtml "<html>bill</html>"
          (set_charges "displayAmount" "Rs. 5000"
             (assign (Charges, "totalAmount") "5000"
                (assign (ConsumerDetails, "name") "Jane Doe"
                   (empty_bill "06113530462901" "lesco"))))),
     tt,
     [EvSelect "table tr"; EvSelect amount_selector]).
Proof.
  refine (parseBillDetails_complete
            (document
               [ ("table tr",
                  [ table_row ["Consumer Name"; "Jane Doe"];
                    table_row ["Heading"];
                    table_row ["Total Amount Payable"; " 5000 "] ]);
                 (amount_selector,
                  [text_element " Rs. 5000 "; text_element "x"]) ]
               "<html>bill</html>")
            "06113530462901" "lesco"
            [ table_row ["Consumer Name"; "Jane Doe"];
              table_row ["Heading"];
              table_row ["Total Amount Payable"; " 5000 "] ]
            [text_element " Rs. 5000 "; text_element "x"]
            " Rs. 5000 " "<html>bill</html>"
            eq_refl _ eq_refl eq_refl eq_refl).
  repeat constructor; eexists; reflexivity.
Defined.

(* ===================================================================== *)
(** * Further properties: what a lookup sends and what it answers *)
(* ===================================================================== *)

Create HintDb silent.

Lemma requests_prepend {S A} (l : list Event) (o : Exc A * S * list Event) :
  requests (snd (prepend l o)) = requests l ++ requests (snd o).
Proof. destruct o as [[x s] log]. apply List.filter_app. Qed.

Lemma silent_ret {S A} (a : A) : silent (@ret S A a).
Proof. intros s. reflexivity. Qed.

Lemma silent_lift {S A} (x : Exc A) : silent (@lift S A x).
Proof. intros s. reflexivity. Qed.

Lemma silent_modify {S} (f : S -> S) : silent (modify f).
Proof. intros s. reflexivity. Qed.

Lemma silent_bind {S A B} (m : Prog S A) (k : A -> Prog S B) :
  silent m -> (forall a, silent (k a)) -> silent (bind m k).
Proof.
  intros Hm Hk s. unfold bind. specialize (Hm s).
  destruct (m s) as [[[a | e] s1] log1]; cbn [snd] in *; [| exact Hm].
  rewrite requests_prepend, Hm, (Hk a s1). reflexivity.
Qed.

Lemma silent_select {S} (doc : Cheerio) (sel : string) :
  silent (@select S doc sel).
Proof. intros s. unfold select, bind, emit, lift. now destruct (query doc sel). Qed.

Lemma silent_try_catch {S A} (m : Prog S A) (h : JsError -> Prog S A) :
  silent m -> (forall e, silent (h e)) -> silent (try_catch m h).
Proof.
  intros Hm Hh s. unfold try_catch. specialize (Hm s).
  destruct (m s) as [[[a | e] s1] log1]; cbn [snd] in *; [exact Hm |].
  rewrite requests_prepend, Hm, (Hh e s1). reflexivity.
Qed.

Lemma silent_with_object {S O} (init : O) (m : Prog O unit) :
  silent m -> silent (@with_object S O init m).
Proof.
  intros Hm s. unfold with_object. specialize (Hm init).
  destruct (m init) as [[[a | e] o] log]; exact Hm.
Qed.

Lemma silent_each {S} (els : list Element) (f : Element -> Prog S unit) :
  (forall el, silent (f el)) -> silent (each els f).
Proof.
  intros Hf. induction els as [| el els IH]; [apply silent_ret |].
  cbn [each]. apply silent_bind; [apply Hf | intros _; exact IH].
Qed.

Lemma silent_rowCallback (row : Element) : silent (rowCallback row).
Proof.
  intros b. rewrite rowCallback_entry.
  destruct (row_entry row) as [[[f v] |] | e]; reflexivity.
Qed.

#[export] Hint Resolve silent_ret silent_lift silent_modify silent_select
  silent_rowCallback : silent.

Lemma silent_parseBillDetails {S} (doc : Cheerio) (refNo companyCode : string) :
  silent (@parseBillDetails S doc refNo companyCode).
Proof.
  unfold parseBillDetails. apply silent_with_object, silent_try_catch.
  - unfold parseBillDetails_try, parseBillDetails_rest.
    apply silent_bind; [auto with silent | intros rows].
    apply silent_bind; [apply silent_each; auto with silent | intros _].
    apply silent_bind; [auto with silent | intros matched]. cbv zeta.
    apply silent_bind.
    + destruct (0 <? length (first matched)); [| auto with silent].
      apply silent_bind; auto with silent.
    + intros _. apply silent_bind; auto with silent.
  - intros e. unfold parseBillDetails_catch.
    apply silent_bind; [intros s; reflexivity | auto with silent].
Qed.

Lemma silent_interpretResponse (company : Company) (refNo : string)
    (postResponse : Response) :
  silent (interpretResponse company refNo postResponse).
Proof.
  unfold interpretResponse. cbv zeta.
  apply silent_bind; [auto with silent | intros ua].
  apply silent_bind; [auto with silent | intros uaText].
  destruct (Js.truthy (Js.trim uaText)); [auto with silent |].
  apply silent_bind; [apply silent_parseBillDetails | auto with silent].
Qed.

Lemma at_most_one_silent {S A} (P : Event -> Prop) (m : Prog S A) :
  silent m -> at_most_one P m.
Proof. intros H s. left. apply H. Qed.

Lemma at_most_one_bind {S A B} (P : Event -> Prop) (m : Prog S A)
    (k : A -> Prog S B) :
  silent m -> (forall a, at_most_one P (k a)) -> at_most_one P (bind m k).
Proof.
  intros Hm Hk s. unfold bind. specialize (Hm s).
  destruct (m s) as [[[a | e] s1] log1]; cbn [snd] in *; [| now left].
  rewrite requests_prepend, Hm. exact (Hk a s1).
Qed.

Lemma form_body_fields (vs vsg ev rvt refNo : string) :
  map fst (parse_form (form_body vs vsg ev rvt refNo)) = form_names
  /\ get_property (parse_form (form_body vs vsg ev rvt refNo))
       "rbSearchByList" = Some "refno"
  /\ get_property (parse_form (form_body vs vsg ev rvt refNo))
       "searchTextBox" = Some refNo
  /\ get_property (parse_form (form_body vs vsg ev rvt refNo))
       "ruCodeTextBox" = Some ""
  /\ get_property (parse_form (form_body vs vsg ev rvt refNo))
       "btnSearch" = Some "Search".
Proof.
  unfold form_body. rewrite parse_form_toString. repeat split.
Qed.

(** [x?.join("; ") || ""]: the cookies joined, nothing when there are
    none. *)
Lemma cookie_header_spec (r : Response) :
  cookie_header r
  = match set_cookie r with
    | Some cookies => Js.join "; " cookies
    | None => ""
    end.
Proof.
  unfold cookie_header. destruct (set_cookie r) as [cookies |];
    [| reflexivity].
  cbv zeta. destruct (Js.join "; " cookies); reflexivity.
Qed.

Lemma at_most_one_submitForm (axios : Axios) (company : Company)
    (refNo : string) (getResponse : Response) (vs vsg ev rvt : JsValue) :
  at_most_one (lookup_post company getResponse refNo)
    (submitForm axios company refNo getResponse vs vsg ev rvt).
Proof.
  intros []. right.
  rewrite (submitForm_post _ _ _ _ _ _ _ _ _ eq_refl).
  eexists. split.
  - eexists _, _. split; [reflexivity |]. split; [reflexivity |].
    destruct (form_body_fields (String_of vs) (String_of vsg)
                (String_of ev) (String_of rvt) refNo)
      as (F1 & F2 & F3 & F4 & F5).
    split; [exact F1 |]. split; [exact F2 |]. split; [exact F3 |].
    split; [exact F4 |]. split; [exact F5 |].
    cbn [headers post_config map fst maxRedirects timeout].
    repeat (split; [reflexivity |]).
    split; [| split; reflexivity].
    rewrite <- cookie_header_spec. reflexivity.
  - destruct (net_post _ _ _ _) as [postResponse | e]; [| reflexivity].
    rewrite requests_prepend, silent_interpretResponse. reflexivity.
Qed.

(** The requests of the [try] block: none for an unknown company, else
    one GET and at most one POST. *)
Lemma getPITCBill_try_requests (axios : Axios) (refNo companyCode : string) :
  (getCompanyByCode companyCode = None ->
     snd (getPITCBill_try axios refNo companyCode tt) = [])
  /\ (forall company,
        getCompanyByCode companyCode = Some company ->
        requests (snd (getPITCBill_try axios refNo companyCode tt))
        = [EvGet (url company) get_config]
        \/ exists getResponse ev,
             net_get axios (url company) get_config = Return getResponse
             /\ lookup_post company getResponse refNo ev
             /\ requests (snd (getPITCBill_try axios refNo companyCode tt))
                = [EvGet (url company) get_config; ev]).
Proof.
  split.
  - intros Hc. rewrite (getPITCBill_try_unknown _ _ _ Hc). reflexivity.
  - intros company Hc. unfold getPITCBill_try. rewrite Hc. cbv zeta.
    rewrite (bind_axios_get _ _ _ _ _ _ eq_refl).
    destruct (net_get axios (url company) get_config)
      as [getResponse | e]; [| now left].
    rewrite requests_prepend. cbn [requests List.filter is_request app].
    match goal with
    | |- context [requests (snd (?k tt))] =>
        assert (H : at_most_one (lookup_post company getResponse refNo) k)
    end.
    { unfold cheerio_load.
      repeat (apply at_most_one_bind; [auto with silent | intros ?]).
      destruct (falsy _ || falsy _ || falsy _).
      - apply at_most_one_silent. auto with silent.
      - apply at_most_one_submitForm. }
    destruct (H tt) as [-> | [ev [Hev ->]]]; [now left |].
    right. exists getResponse, ev. auto.
Qed.

Lemma log_getPITCBill (axios : Axios) (refNo companyCode : string) :
  snd (run (getPITCBill axios refNo companyCode))
  = snd (getPITCBill_try axios refNo companyCode tt).
Proof.
  destruct (getPITCBill_outcome axios refNo companyCode) as [r [Hr _]].
  unfold run. rewrite Hr. reflexivity.
Qed.

(** X8. The requests of a lookup.  An unknown company code makes
    [getPITCBill] return without any call.  For a known company the
    lookup sends one GET to the company's address, as a browser and with a
    timeout of 30 seconds, and then at most one POST, never more.  The
    POST goes to the same address, announced as a form, with that address
    as referer and, as cookies, those the GET's answer set, joined by "; "
    (none when it set none); its body reads back as exactly the eight form
    fields, with the reference number, whatever characters it and the
    tokens contain, whole in [searchTextBox]. *)
Theorem getPITCBill_requests (axios : Axios) (refNo companyCode : string) :
  (getCompanyByCode companyCode = None ->
     snd (run (getPITCBill axios refNo companyCode)) = [])
  /\ (forall company,
        getCompanyByCode companyCode = Some company ->
        lookup_get company (EvGet (url company) get_config)
        /\ (requests (snd (run (getPITCBill axios refNo companyCode)))
            = [EvGet (url company) get_config]
            \/ exists getResponse ev,
                 net_get axios (url company) get_config = Return getResponse
                 /\ lookup_post company getResponse refNo ev
                 /\ requests
                      (snd (run (getPITCBill axios refNo companyCode)))
                    = [EvGet (url company) get_config; ev])).
Proof.
  rewrite log_getPITCBill.
  destruct (getPITCBill_try_requests axios refNo companyCode) as [H1 H2].
  split; [exact H1 |]. intros company Hc. split; [| exact (H2 company Hc)].
  eexists. repeat split.
Qed.

Lemma getPITCBill_requests_witness :
  exists body config,
    requests
      (snd (run (getPITCBill
                   (portal
                      (Return (mkResponse
                                 (form_page "a&b=c" "CA0B" "ev01" None)
                                 (Some ["sid=7f3a; path=/"; "lang=en"])))
                      (Return (mkResponse (answer_page "" []) None)))
                   "0611&btnSearch=x" "leſco")))
    = [ EvGet "https://bill.pitc.com.pk/lescobill" get_config;
        EvPost "https://bill.pitc.com.pk/lescobill" body config ]
    /\ get_property (parse_form body) "searchTextBox"
       = Some "0611&btnSearch=x"
    /\ get_property (headers config) "Cookie"
       = Some "sid=7f3a; path=/; lang=en"
    /\ get_property (headers config) "Referer"
       = Some "https://bill.pitc.com.pk/lescobill".
Proof.
  destruct (proj2 (getPITCBill_requests
                     (portal
                        (Return (mkResponse
                                   (form_page "a&b=c" "CA0B" "ev01" None)
                                   (Some ["sid=7f3a; path=/"; "lang=en"])))
                        (Return (mkResponse (answer_page "" []) None)))
                     "0611&btnSearch=x" "leſco")
              LESCO eq_refl)
    as [_ [H | (getResponse & ev & Hget & Hpost & Hreq)]].
  - vm_compute in H. discriminate H.
  - injection Hget as <-.
    destruct Hpost as (body & config & -> & _ & _ & _ & Hs & _ & _ & _ & _
                       & _ & Hr & Hc & _).
    exists body, config. split; [exact Hreq |].
    split; [exact Hs |]. split; [exact Hc | exact Hr].
Defined.

Lemma ensures_ret {S A} (Q : A -> Prop) (a : A) : Q a -> ensures Q (@ret S A a).
Proof. intros H s. exact H. Qed.

Lemma fst_prepend {S A} (l : list Event) (o : Exc A * S * list Event) :
  fst (fst (prepend l o)) = fst (fst o).
Proof. destruct o as [[x s] log]. reflexivity. Qed.

Lemma ensures_bind_from {S A B} (P : A -> Prop) (Q : B -> Prop)
    (m : Prog S A) (k : A -> Prog S B) :
  ensures P m -> (forall a, P a -> ensures Q (k a)) -> ensures Q (bind m k).
Proof.
  intros Hm Hk s. unfold bind. specialize (Hm s).
  destruct (m s) as [[[a | e] s1] log1]; cbn [fst] in *; [| exact I].
  rewrite fst_prepend. exact (Hk a Hm s1).
Qed.

Lemma ensures_bind {S A B} (Q : B -> Prop) (m : Prog S A)
    (k : A -> Prog S B) :
  (forall a, ensures Q (k a)) -> ensures Q (bind m k).
Proof.
  intros Hk. apply (ensures_bind_from (fun _ => True)); [| auto].
  intros s. now destruct (fst (fst (m s))).
Qed.

Lemma ensures_parseBillDetails {S} (doc : Cheerio)
    (refNo companyCode : string) :
  ensures (fun b => referenceNumber b = refNo
                    /\ bill_company b = companyCode)
    (@parseBillDetails S doc refNo companyCode).
Proof.
  intros s. rewrite parseBillDetails_caught.
  destruct (parseBillDetails_try_shape doc (empty_bill refNo companyCode))
    as (x & b & log & l & Htry & _ & _ & M1 & M2 & _).
  rewrite Htry. destruct x; cbn; auto.
Qed.

Lemma getPITCBill_catch_Failure (e : JsError) (s : unit) :
  exists m, getPITCBill_catch e s = (Return (Failure m), s, []).
Proof.
  unfold getPITCBill_catch.
  destruct (code_is e "ECONNABORTED" || code_is e "UND_ERR_CONNECT_TIMEOUT");
    [eexists; reflexivity |].
  destruct (code_is e "ENOTFOUND" || code_is e "ECONNREFUSED");
    eexists; reflexivity.
Qed.

Lemma ensures_getPITCBill_try (axios : Axios) (refNo companyCode : string) :
  ensures (echoes refNo companyCode)
    (getPITCBill_try axios refNo companyCode).
Proof.
  unfold getPITCBill_try.
  destruct (getCompanyByCode companyCode) as [company |] eqn:Hc.
  - destruct (getCompanyByCode_Some _ _ Hc) as (_ & _ & Hcode & _).
    assert (Hsame : same_ignoring_case (code company) companyCode)
      by (symmetry; exact Hcode).
    cbv zeta. unfold axios_get, select, cheerio_load.
    repeat (apply ensures_bind; intros ?).
    destruct (falsy _ || falsy _ || falsy _).
    + apply ensures_ret. unfold echoes. intros Hn. congruence.
    + unfold submitForm, interpretResponse, axios_post, select, cheerio_load.
      cbv zeta. repeat (apply ensures_bind; intros ?).
      destruct (Js.truthy (Js.trim _)) eqn:Et.
      * apply ensures_ret. unfold echoes.
        split; [reflexivity |]. split; [exists company; auto |].
        split; [exact Hsame |].
        intros E. rewrite E in Et. discriminate Et.
      * eapply ensures_bind_from; [apply ensures_parseBillDetails |].
        intros b [B1 B2]. apply ensures_ret. unfold echoes.
        split; [reflexivity |]. split; [exists company; auto |].
        split; [exact Hsame |]. split; [exact B1 | exact B2].
  - apply ensures_ret. unfold echoes. reflexivity.
Qed.

(** X9. What a lookup answers.  [getPITCBill] always returns a result,
    and the result speaks of the request: a portal error and a success
    carry the reference number as given and the code of the registry entry
    the requested code resolves to, which is the requested code ignoring
    case, however the caller spelled it; a success carries the registry
    name of that company and a record labelled with the same reference
    number and code; a portal error is never the empty string; and for a
    company code that does not resolve the failure is the message listing
    the supported codes. *)
Theorem getPITCBill_echoes (axios : Axios) (refNo companyCode : string) :
  match fst (run (getPITCBill axios refNo companyCode)) with
  | Return r => echoes refNo companyCode r
  | Throw _ => False
  end.
Proof.
  pose proof (ensures_getPITCBill_try axios refNo companyCode tt) as H.
  unfold run, getPITCBill, try_catch.
  destruct (getPITCBill_try axios refNo companyCode tt)
    as [[[a | e] s] log] eqn:E; cbn [fst] in *.
  - exact H.
  - destruct (getPITCBill_catch_Failure e s) as [m ->].
    cbn [prepend fst]. unfold echoes.
    intros Hc. rewrite (getPITCBill_try_unknown _ _ _ Hc) in E.
    discriminate E.
Qed.

Lemma answers_lookup_check (axios : Axios) (refNo : JsValue)
    (company : string) :
  answers_lookup axios refNo company
    (run
       (match validateReferenceNumber refNo with
        | ValidationError error =>
            ret {| status := 400; body := JsonResult (Failure error) |}
        | ValidationOk validRefNo =>
            try_catch
              (result <- getPITCBill axios validRefNo company ;;
               if success result then
                 ret {| status := 200; body := JsonResult result |}
               else
                 ret {| status := 404; body := JsonResult result |})
              (fun error =>
                 emit (EvConsoleError ["Server error:"; message error]) ;;;
                 ret {| status := 500;
                        body := JsonServerError "Internal server error"
                                  (message error) |})
        end)).
Proof.
  unfold answers_lookup.
  destruct (validateReferenceNumber refNo) as [e | r]; [reflexivity |].
  destruct (getPITCBill_outcome axios r company) as [res [Hres _]].
  exists res, (snd (getPITCBill_try axios r company tt)).
  unfold run, try_catch, bind. rewrite Hres.
  split; [reflexivity |]. destruct (success res); cbn; rewrite app_nil_r;
    reflexivity.
Qed.


(* ===================================================================== *)
(** * Further properties: the single-company module *)
(* ===================================================================== *)

Lemma map_outcome_prepend {S S' A B} (g : S -> S') (f : A -> B)
    (l : list Event) (o : Exc A * S * list Event) :
  map_outcome g f (prepend l o) = prepend l (map_outcome g f o).
Proof. destruct o as [[[a | e] s] log]; reflexivity. Qed.

Lemma simulates_ret {S S' A B} (g : S -> S') (f : A -> B) (a : A) :
  simulates g f (ret (f a)) (ret a).
Proof. intros s. reflexivity. Qed.

Lemma simulates_lift {S S' A} (g : S -> S') (x : Exc A) :
  simulates g id (lift x) (lift x).
Proof. intros s. destruct x; reflexivity. Qed.

Lemma simulates_select {S S'} (g : S -> S') (doc : Cheerio) (sel : string) :
  simulates g id (select doc sel) (select doc sel).
Proof.
  intros s. unfold select, bind, emit, lift.
  destruct (query doc sel); reflexivity.
Qed.

Lemma simulates_modify {S S'} (g : S -> S') (u : S -> S) (u' : S' -> S') :
  (forall s, u' (g s) = g (u s)) ->
  simulates g id (modify u') (modify u).
Proof. intros H s. unfold modify. rewrite H. reflexivity. Qed.

Lemma simulates_bind {S S' A A' B B'} (g : S -> S') (f : A -> A')
    (h : B -> B') (m' : Prog S' A') (m : Prog S A)
    (k' : A' -> Prog S' B') (k : A -> Prog S B) :
  simulates g f m' m ->
  (forall a, simulates g h (k' (f a)) (k a)) ->
  simulates g h (bind m' k') (bind m k).
Proof.
  intros Hm Hk s. unfold bind. rewrite (Hm s).
  destruct (m s) as [[[a | e] s1] log1]; cbn [map_outcome]; [| reflexivity].
  rewrite (Hk a s1), map_outcome_prepend. reflexivity.
Qed.

Lemma simulates_try_catch {S S' A B} (g : S -> S') (f : A -> B)
    (m' : Prog S' B) (m : Prog S A)
    (h' : JsError -> Prog S' B) (h : JsError -> Prog S A) :
  simulates g f m' m ->
  (forall e, simulates g f (h' e) (h e)) ->
  simulates g f (try_catch m' h') (try_catch m h).
Proof.
  intros Hm Hh s. unfold try_catch. rewrite (Hm s).
  destruct (m s) as [[[a | e] s1] log1]; cbn [map_outcome]; [reflexivity |].
  rewrite (Hh e s1), map_outcome_prepend. reflexivity.
Qed.

Lemma simulates_each {S S'} (g : S -> S') (els : list Element)
    (f' : Element -> Prog S' unit) (f : Element -> Prog S unit) :
  (forall el, simulates g id (f' el) (f el)) ->
  simulates g id (each els f') (each els f).
Proof.
  intros Hf. induction els as [| el els IH]; [apply (simulates_ret g id) |].
  cbn [each]. apply (simulates_bind g id id); [apply Hf | intros _; exact IH].
Qed.

Lemma simulates_with_object {S O O'} (g : O -> O') (init : O)
    (m' : Prog O' unit) (m : Prog O unit) :
  simulates g id m' m ->
  simulates (@id S) g (with_object (g init) m') (with_object init m).
Proof.
  intros Hm s. unfold with_object. rewrite (Hm init).
  destruct (m init) as [[[a | e] o] log]; reflexivity.
Qed.

Lemma simulates_rowCallback (row : Element) :
  simulates forget_company id (hesco_rowCallback row) (rowCallback row).
Proof.
  intros b. unfold hesco_rowCallback, rowCallback, bind, lift.
  destruct (el_find row "td") as [[| cell0 [| cell1 rest]] | e];
    try reflexivity.
  cbn [length Nat.leb prepend].
  destruct (el_text cell0) as [text0 | e]; [| reflexivity].
  destruct (el_text cell1) as [text1 | e]; [| reflexivity].
  cbn [prepend]. cbv zeta.
  generalize (Js.toLowerCase (Js.trim text0)) as label.
  generalize (Js.trim text1) as value. intros value label.
  repeat
    match goal with
    | |- context [Js.includes label ?p] =>
        destruct (Js.includes label p); cbn [orb]; try reflexivity
    end.
Qed.

Lemma simulates_parseBillDetails {S} (doc : Cheerio)
    (refNo companyCode : string) :
  simulates (@id S) forget_company
    (hesco_parseBillDetails doc refNo)
    (parseBillDetails doc refNo companyCode).
Proof.
  unfold hesco_parseBillDetails, parseBillDetails.
  apply (simulates_with_object forget_company
           (mkBillData refNo companyCode ∅ ∅ ∅ None None)).
  apply simulates_try_catch.
  - unfold hesco_parseBillDetails_try, parseBillDetails_try,
      parseBillDetails_rest.
    apply (simulates_bind _ id id); [apply simulates_select | intros rows].
    apply (simulates_bind _ id id);
      [apply simulates_each, simulates_rowCallback | intros _].
    apply (simulates_bind _ id id); [apply simulates_select | intros matched].
    cbv zeta. unfold id. apply (simulates_bind _ id id).
    + destruct (0 <? length (first matched));
        [| apply (simulates_ret _ id)].
      apply (simulates_bind _ id id); [apply simulates_lift | intros amount].
      apply simulates_modify. reflexivity.
    + intros _.
      apply (simulates_bind _ id id); [apply simulates_lift | intros markup].
      apply simulates_modify. reflexivity.
  - intros e. unfold hesco_parseBillDetails_catch, parseBillDetails_catch.
    apply (simulates_bind _ id id); [intros s; reflexivity | intros _].
    apply simulates_modify. reflexivity.
Qed.

Lemma simulates_getPITCBill_hesco (axios : Axios) (refNo : string) :
  simulates id forget_company_result
    (getHESCOBill axios refNo) (getPITCBill axios refNo "hesco").
Proof.
  unfold getHESCOBill, getPITCBill. apply simulates_try_catch.
  - unfold getHESCOBill_try, getPITCBill_try.
    change (getCompanyByCode "hesco")
      with (Some (mkCompany "Hyderabad Electric Supply Company" "hesco"
                    "https://bill.pitc.com.pk/hescobill" refPattern_10_14)).
    cbv zeta. cbn [url code name].
    apply (simulates_bind _ id);
      [intros s; unfold axios_get, bind, emit, lift;
       now destruct (net_get _ _ _)
      | intros getResponse ].
    unfold cheerio_load.
    do 4 (apply (simulates_bind _ id); [apply simulates_select | intros ?];
          apply (simulates_bind _ id); [apply simulates_lift | intros ?]).
    unfold id.
    destruct (falsy _ || falsy _ || falsy _);
      [(intros ?; reflexivity) |].
    unfold submitForm, interpretResponse. cbv zeta. cbn [url code name].
    apply (simulates_bind _ id);
      [intros s; unfold axios_post, bind, emit, lift;
       now destruct (net_post _ _ _ _)
      | intros postResponse ].
    unfold cheerio_load, id.
    apply (simulates_bind _ id); [apply simulates_select | intros ua].
    apply (simulates_bind _ id); [apply simulates_lift | intros uaText].
    unfold id. destruct (Js.truthy (Js.trim uaText));
      [(intros ?; reflexivity) |].
    apply (simulates_bind _ forget_company);
      [apply simulates_parseBillDetails | intros b].
    (intros ?; reflexivity).
  - intros e. unfold getHESCOBill_catch, getPITCBill_catch.
    destruct (code_is e "ECONNABORTED"
              || code_is e "UND_ERR_CONNECT_TIMEOUT");
      [(intros ?; reflexivity) |].
    destruct (code_is e "ENOTFOUND" || code_is e "ECONNREFUSED");
      (intros ?; reflexivity).
Qed.

(** X11. The single-company module is the multi-company module at
    "hesco".  On every network and for every reference number,
    [getHESCOBill] makes the same calls in the same order as [getPITCBill]
    with company "hesco" and returns the same result without the company
    code and name (and the record without its [company]); its
    [parseBillDetails] returns, for every document, the record of the
    multi-company [parseBillDetails] without [company]; and its
    [validateReferenceNumber] gives the same verdict on every input. *)
Theorem getHESCOBill_is_getPITCBill_hesco (axios : Axios) (refNo : string) :
  getHESCOBill axios refNo tt
  = map_outcome id forget_company_result (getPITCBill axios refNo "hesco" tt)
  /\ (forall doc companyCode,
        hesco_parseBillDetails doc refNo tt
        = map_outcome id forget_company
            (parseBillDetails doc refNo companyCode tt))
  /\ (forall v,
        hesco_validateReferenceNumber v = validateReferenceNumber v).
Proof.
  split; [| split].
  - apply (simulates_getPITCBill_hesco axios refNo tt).
  - intros doc companyCode.
    apply (simulates_parseBillDetails doc refNo companyCode tt).
  - reflexivity.
Qed.

(* ===================================================================== *)
(** * Further properties: the lookup end to end *)
(* ===================================================================== *)

(** X12. A lookup that goes through.  For a known company, when the form
    page gives the three state tokens, the POST is answered with a page
    whose error region is blank, and that page answers every query of the
    scraper, [getPITCBill] returns the success for the reference number
    with the company's code and name and the record built from the rows,
    the first amount element and the markup; it makes exactly one GET, one
    POST and the seven document queries. *)
Theorem getPITCBill_success (axios : Axios) (refNo companyCode : string)
    (company : Company) (getResponse postResponse : Response)
    (vs vsg ev rvt : JsValue) (uaText amount markup : string)
    (rows matched : list Element) :
  getCompanyByCode companyCode = Some company ->
  net_get axios (url company) get_config = Return getResponse ->
  token_page (response_data getResponse) vs vsg ev rvt ->
  falsy vs = false -> falsy vsg = false -> falsy ev = false ->
  net_post axios (url company)
    (form_body (String_of vs) (String_of vsg) (String_of ev)
       (String_of rvt) refNo)
    (post_config (url company) getResponse) = Return postResponse ->
  reads_text (response_data postResponse) "#ua" uaText ->
  Js.trim uaText = "" ->
  query (response_data postResponse) "table tr" = Return rows ->
  Forall answers rows ->
  query (response_data postResponse) amount_selector = Return matched ->
  text (first matched) = Return amount ->
  html (response_data postResponse) = Return markup ->
  run (getPITCBill axios refNo companyCode)
  = (Return
       (Success refNo (code company) (name company)
          (set_rawHtml markup
             (match matched with
              | [] =>
                  apply_entries (entries rows)
                    (empty_bill refNo (code company))
              | _ :: _ =>
                  set_charges "displayAmount" (Js.trim amount)
                    (apply_entries (entries rows)
                       (empty_bill refNo (code company)))
              end))),
     token_events company
     ++ [ EvPost (url company)
            (form_body (String_of vs) (String_of vsg) (String_of ev)
               (String_of rvt) refNo)
            (post_config (url company) getResponse);
          EvSelect "#ua"; EvSelect "table tr"; EvSelect amount_selector ]).
Proof.
  intros Hc Hg Htok F1 F2 F3 Hp Hua He Hq Hrows Hm Ht Hh.
  pose proof (getPITCBill_try_tokens axios refNo _ _ _ _ _ _ _ Hc Hg Htok)
    as Htry.
  rewrite F1, F2, F3 in Htry. cbn [orb] in Htry.
  rewrite (submitForm_post _ _ _ _ _ _ _ _ _ Hp) in Htry.
  rewrite (interpretResponse_bill _ _ _ _ Hua He) in Htry.
  unfold bind in Htry at 1.
  rewrite parseBillDetails_caught,
    (parseBillDetails_try_rows _ _ _ Hq Hrows) in Htry.
  unfold parseBillDetails_rest in Htry.
  rewrite (bind_select_Return _ _ matched) in Htry by exact Hm.
  cbv zeta in Htry.
  destruct matched as [| el rest]; cbn [first length Nat.ltb Nat.leb] in *.
  - unfold bind in Htry at 1. cbn [ret prepend] in Htry.
    rewrite Hh in Htry. cbn in Htry.
    destruct (run_getPITCBill _ _ _ _ _ Htry) as [r [Hr ->]]. exact Hr.
  - rewrite Ht, Hh in Htry. cbn in Htry.
    destruct (run_getPITCBill _ _ _ _ _ Htry) as [r [Hr ->]]. exact Hr.
Qed.

Lemma getPITCBill_success_witness :
  run (getPITCBill
         (portal
            (Return (mkResponse (form_page "dDwt" "CA0B" "ev01" (Some "tok"))
                       None))
            (Return (mkResponse
                       (answer_page " "
                          [ table_row ["Consumer Name"; "Jane Doe"] ])
                       None)))
         "06113530462901" "Lesco")
  = (Return
       (Success "06113530462901" "lesco" "Lahore Electric Supply Company"
          (set_rawHtml "<html/>"
             (assign (ConsumerDetails, "name") "Jane Doe"
                (empty_bill "06113530462901" "lesco")))),
     token_events LESCO
     ++ [ EvPost (url LESCO)
            (form_body "dDwt" "CA0B" "ev01" "tok" "06113530462901")
            (post_config (url LESCO)
               (mkResponse (form_page "dDwt" "CA0B" "ev01" (Some "tok"))
                  None));
          EvSelect "#ua"; EvSelect "table tr"; EvSelect amount_selector ]).
Proof.
  refine (getPITCBill_success
            (portal
               (Return (mkResponse
                          (form_page "dDwt" "CA0B" "ev01" (Some "tok")) None))
               (Return (mkResponse
                          (answer_page " "
                             [ table_row ["Consumer Name"; "Jane Doe"] ])
                          None)))
            "06113530462901" "Lesco" LESCO
            (mkResponse (form_page "dDwt" "CA0B" "ev01" (Some "tok")) None)
            (mkResponse
               (answer_page " " [ table_row ["Consumer Name"; "Jane Doe"] ])
               None)
            (JsString "dDwt") (JsString "CA0B") (JsString "ev01")
            (JsString "tok") " " "" "<html/>"
            [ table_row ["Consumer Name"; "Jane Doe"] ] []
            eq_refl eq_refl _ eq_refl eq_refl eq_refl eq_refl _ eq_refl
            eq_refl _ eq_refl eq_refl eq_refl).
  - repeat split; eexists; split; reflexivity.
  - eexists; split; reflexivity.
  - repeat constructor; eexists; reflexivity.
Defined.

(** X13. The lookup does not depend on the casing of the company code.
    For every well-formed company code (the bytes of a sequence of code
    points), [getPITCBill] with the code lower-cased (as index.js passes
    it) or upper-cased behaves as with the code as given: the same calls
    and the same result, on every network. *)
Theorem getPITCBill_any_casing (axios : Axios) (refNo companyCode : string) :
  well_formed companyCode = true ->
  getPITCBill axios refNo (Js.toLowerCase companyCode) tt
  = getPITCBill axios refNo companyCode tt
  /\ getPITCBill axios refNo (Js.toUpperCase companyCode) tt
     = getPITCBill axios refNo companyCode tt.
Proof.
  intros H. destruct (getCompanyByCode_any_casing _ H) as [Eu El].
  unfold getPITCBill, try_catch, getPITCBill_try.
  rewrite El, Eu. split; reflexivity.
Qed.

Lemma getPITCBill_any_casing_witness :
  (getPITCBill
     (portal (Return (mkResponse (form_page "dDwt" "CA0B" "ev01" None) None))
        (Return (mkResponse (answer_page "not found" []) None)))
     "06113530462901" "lesco" tt
   = getPITCBill
       (portal
          (Return (mkResponse (form_page "dDwt" "CA0B" "ev01" None) None))
          (Return (mkResponse (answer_page "not found" []) None)))
       "06113530462901" "LeScO" tt)
  /\ (getPITCBill
        (portal
           (Return (mkResponse (form_page "dDwt" "CA0B" "ev01" None) None))
           (Return (mkResponse (answer_page "not found" []) None)))
        "06113530462901" "LESCO" tt
      = getPITCBill
          (portal
             (Return (mkResponse (form_page "dDwt" "CA0B" "ev01" None) None))
             (Return (mkResponse (answer_page "not found" []) None)))
          "06113530462901" "leſco" tt).
Proof.
  split.
  - exact (proj1 (getPITCBill_any_casing
                    (portal
                       (Return (mkResponse
                                  (form_page "dDwt" "CA0B" "ev01" None) None))
                       (Return (mkResponse (answer_page "not found" [])
                                  None)))
                    "06113530462901" "LeScO" eq_refl)).
  - exact (proj2 (getPITCBill_any_casing
                    (portal
                       (Return (mkResponse
                                  (form_page "dDwt" "CA0B" "ev01" None) None))
                       (Return (mkResponse (answer_page "not found" [])
                                  None)))
                    "06113530462901" "leſco" eq_refl)).
Defined.

Lemma validateReferenceNumber_Ok (v : JsValue) (r : string) :
  validateReferenceNumber v = ValidationOk r ->
  digit_string_10_14 r /\ r = Js.trim (String_of v).
Proof.
  unfold validateReferenceNumber.
  destruct (falsy v); [discriminate |]. cbv zeta.
  destruct (Js.test_digits_10_14 (Js.trim (String_of v))) eqn:E;
    cbn [negb]; [| discriminate].
  intros [= <-]. split; [apply test_digits_10_14_spec, E | reflexivity].
Qed.

(** X14. The facade only forwards validated reference numbers.  Whatever
    the request and the network, every POST the GET handler of
    [/api/check-bill] causes carries in [searchTextBox] a string of ten to
    fourteen decimal digits, the trimmed text of the request's [refNo]. *)
Theorem check_bill_forwards_digits (axios : Axios) (refNo : JsValue)
    (company : option string) (u body : string) (config : Config) :
  In (EvPost u body config)
     (snd (run (check_bill axios (mkQuery refNo company)))) ->
  exists r,
    get_property (parse_form body) "searchTextBox" = Some r
    /\ digit_string_10_14 r
    /\ r = Js.trim (String_of refNo).
Proof.
  pose proof (answers_lookup_check axios refNo (default "hesco" company))
    as H.
  change (run _) with (run (check_bill axios (mkQuery refNo company))) in H.
  unfold answers_lookup in H.
  destruct (validateReferenceNumber refNo) as [e | r] eqn:Ev.
  - rewrite H. intros [].
  - destruct H as (res & log & Hrun & ->). cbn [snd].
    apply (f_equal snd) in Hrun. cbn [snd] in Hrun.
    rewrite log_getPITCBill in Hrun. subst log. intros Hin.
    assert (Hreq : In (EvPost u body config)
                     (requests
                        (snd (getPITCBill_try axios r
                                (default "hesco" company) tt))))
      by (apply List.filter_In; split; [exact Hin | reflexivity]).
    destruct (validateReferenceNumber_Ok _ _ Ev) as [Hd Hr].
    exists r. split; [| split; assumption].
    destruct (getPITCBill_try_requests axios r (default "hesco" company))
      as [Hnone Hsome].
    destruct (getCompanyByCode (default "hesco" company)) as [c |].
    + destruct (Hsome c eq_refl) as [E | (g & ev & _ & Hpost & E)];
        rewrite E in Hreq.
      * destruct Hreq as [Hreq | []]. discriminate Hreq.
      * destruct Hreq as [Hreq | [-> | []]]; [discriminate Hreq |].
        destruct Hpost as (body' & config' & Heq & _ & _ & _ & Hs & _).
        injection Heq as -> -> ->. exact Hs.
    + rewrite (Hnone eq_refl) in Hreq. destruct Hreq.
Qed.

Lemma check_bill_forwards_digits_witness :
  exists r,
    get_property
      (parse_form (form_body "dDwt" "CA0B" "ev01" "tok" "06113530462901"))
      "searchTextBox" = Some r
    /\ digit_string_10_14 r
    /\ r = Js.trim (String_of (JsString " 06113530462901 ")).
Proof.
  refine (check_bill_forwards_digits
            (portal
               (Return (mkResponse
                          (form_page "dDwt" "CA0B" "ev01" (Some "tok")) None))
               (Return (mkResponse (answer_page "not found" []) None)))
            (JsString " 06113530462901 ") (Some "lesco")
            (url LESCO)
            (form_body "dDwt" "CA0B" "ev01" "tok" "06113530462901")
            (post_config (url LESCO)
               (mkResponse (form_page "dDwt" "CA0B" "ev01" (Some "tok"))
                  None))
            _).
  vm_compute. tauto.
Defined.
